(** * MemorizePro: the mastery tracker and the local-storage user store

    A shallow embedding of the state logic of the two generations of
    [App.tsx]: the [DB] object over [localStorage], the [QuizView]
    component's submit and next handlers, and the application's
    quiz-completion callbacks ([finishQuiz], [onComplete]), sign-in and
    sign-out.

    Conventions.
    - JavaScript numbers are only used as integer counters and percentages
      far below 2^53; they are embedded as [Z].
    - JavaScript strings are embedded as Rocq byte strings (code units
      [0..255]).
    - Objects and arrays are embedded at their declared TypeScript types:
      interfaces as records and arrays as lists.  The two objects used as
      maps from concept ids to numbers are finite maps of the properties
      the object has of its own; a read of a name that the object lacks
      and every object inherits, such as [constructor], gives the
      inherited member, and what the arithmetic of the handlers makes of
      it is followed ([JS] below).
    - [localStorage] is a finite map from keys to strings; what it holds is
      the text [JSON.stringify] writes, read back by [JSON.parse].
    - [await] is embedded as one step: the handler runs to completion with
      the way the awaited call settles given as an argument.  The state
      updates after the [await] do not read anything another event could
      have changed in the meantime.  The tutor chat, whose handler is
      guarded by its own pending call, is embedded with the call's start
      and its settling as two events.

    The second part covers the rest of the application's state logic:
    start-up from the store, the profile form, upload and quiz start, the
    flashcards, the concept links, the tutor chat and the exam clock. *)

From Stdlib Require Import ZArith NArith Ascii String List Bool Lia.
From Stdlib Require Import DecimalFacts DecimalN.
From stdpp Require Import base option gmap strings list fin_maps.

Local Open Scope Z_scope.

(** ** Outcomes of JavaScript calls *)

Inductive exn : Type :=
  | SyntaxError  (* thrown by [JSON.parse] *)
  | TypeError.   (* a property read on [null] or [undefined] *)

(** ** JSON values and the text codec of [JSON.stringify] / [JSON.parse] *)

Module JSON.

#[local] Unset Elimination Schemes.
Inductive json : Type :=
  | JNull
  | JBool (b : bool)
  | JNum (z : Z)
  | JStr (s : string)
  | JArr (elems : list json)
  | JObj (members : list (string * json)).
#[local] Set Elimination Schemes.

(** Characters are handled as [list ascii]; the conversion to [string] is
    done once at the boundary. *)
Definition chars := list ascii.

Definition lit (s : string) : chars := list_ascii_of_string s.

(** The quotation mark (U+0022) and the reverse solidus (U+005C). *)
Abbreviation dquote := (Ascii false true false false false true false false).
Abbreviation backslash := (Ascii false false true true true false true false).

(** *** Numbers *)

Fixpoint chars_of_uint (d : Decimal.uint) : chars :=
  match d with
  | Decimal.Nil => []
  | Decimal.D0 d => "0"%char :: chars_of_uint d
  | Decimal.D1 d => "1"%char :: chars_of_uint d
  | Decimal.D2 d => "2"%char :: chars_of_uint d
  | Decimal.D3 d => "3"%char :: chars_of_uint d
  | Decimal.D4 d => "4"%char :: chars_of_uint d
  | Decimal.D5 d => "5"%char :: chars_of_uint d
  | Decimal.D6 d => "6"%char :: chars_of_uint d
  | Decimal.D7 d => "7"%char :: chars_of_uint d
  | Decimal.D8 d => "8"%char :: chars_of_uint d
  | Decimal.D9 d => "9"%char :: chars_of_uint d
  end.

Definition digit_of_char (c : ascii) : option (Decimal.uint -> Decimal.uint) :=
  match c with
  | "0" => Some Decimal.D0 | "1" => Some Decimal.D1 | "2" => Some Decimal.D2
  | "3" => Some Decimal.D3 | "4" => Some Decimal.D4 | "5" => Some Decimal.D5
  | "6" => Some Decimal.D6 | "7" => Some Decimal.D7 | "8" => Some Decimal.D8
  | "9" => Some Decimal.D9 | _ => None
  end%char.

Definition is_digit (c : ascii) : bool :=
  match digit_of_char c with Some _ => true | None => false end.

(** The longest run of decimal digits at the head of the input. *)
Fixpoint scan_digits (s : chars) : Decimal.uint * chars :=
  match s with
  | [] => (Decimal.Nil, [])
  | c :: rest =>
      match digit_of_char c with
      | Some d => let '(u, rest') := scan_digits rest in (d u, rest')
      | None => (Decimal.Nil, s)
      end
  end.

(** The JSON grammar of an integer: [0] or a non-zero digit followed by
    digits. *)
Definition int_ok (d : Decimal.uint) : bool :=
  match d with
  | Decimal.Nil => false
  | Decimal.D0 Decimal.Nil => true
  | Decimal.D0 _ => false
  | _ => true
  end.

Definition print_Z (z : Z) : chars :=
  if z <? 0 then "-"%char :: chars_of_uint (N.to_uint (Z.abs_N z))
  else chars_of_uint (N.to_uint (Z.abs_N z)).

(** An integer token.  A literal with a fraction or an exponent is a number
    of the grammar that the integer model does not represent: [parse_nat]
    does not read it, [skip_number] below recognises it. *)
Definition starts_frac_or_exp (s : chars) : bool :=
  match s with
  | c :: _ => (Ascii.eqb c "." || Ascii.eqb c "e" || Ascii.eqb c "E")%char
  | [] => false
  end.

Definition parse_nat (s : chars) : option (N * chars) :=
  let '(d, rest) := scan_digits s in
  if int_ok d && negb (starts_frac_or_exp rest)
  then Some (N.of_uint d, rest) else None.

Definition parse_number (s : chars) : option (Z * chars) :=
  match s with
  | "-"%char :: s' =>
      match parse_nat s' with
      | Some (n, rest) => Some (- Z.of_N n, rest)
      | None => None
      end
  | _ =>
      match parse_nat s with
      | Some (n, rest) => Some (Z.of_N n, rest)
      | None => None
      end
  end.

(** *** Strings *)

Definition hex_char (n : N) : ascii :=
  if (n <? 10)%N then ascii_of_N (48 + n) else ascii_of_N (87 + n).

Definition hex_val (c : ascii) : option N :=
  let n := N_of_ascii c in
  if ((48 <=? n) && (n <=? 57))%N then Some (n - 48)%N
  else if ((97 <=? n) && (n <=? 102))%N then Some (n - 87)%N
  else if ((65 <=? n) && (n <=? 70))%N then Some (n - 55)%N
  else None.

(** [JSON.stringify] escapes the quote, the backslash and the control
    characters below U+0020; everything else is copied. *)
Definition escape_char (c : ascii) : chars :=
  let n := N_of_ascii c in
  if Ascii.eqb c dquote then [backslash; dquote]
  else if Ascii.eqb c backslash then [backslash; backslash]
  else if (n =? 8)%N then lit "\b"
  else if (n =? 12)%N then lit "\f"
  else if (n =? 10)%N then lit "\n"
  else if (n =? 13)%N then lit "\r"
  else if (n =? 9)%N then lit "\t"
  else if (n <? 32)%N then
    lit "\u00" ++ [hex_char (n / 16); hex_char (n mod 16)]
  else [c].

Definition quote (s : string) : chars :=
  dquote :: flat_map escape_char (list_ascii_of_string s) ++ [dquote].

(** The body of a string literal, after the opening quote.  A [\u] escape
    above U+00FF denotes a code unit that the byte strings of the model do
    not represent: [parse_string_body] does not read it, [skip_string_body]
    below recognises it. *)
Fixpoint parse_string_body (s : chars) : option (list ascii * chars) :=
  match s with
  | [] => None
  | c :: rest =>
      if Ascii.eqb c dquote then Some ([], rest)
      else if Ascii.eqb c backslash then
        match rest with
        | e :: rest' =>
            let simple (x : ascii) :=
              match parse_string_body rest' with
              | Some (cs, r) => Some (x :: cs, r)
              | None => None
              end in
            if Ascii.eqb e dquote then simple dquote
            else if Ascii.eqb e backslash then simple backslash
            else if Ascii.eqb e "/" then simple "/"%char
            else if Ascii.eqb e "b" then simple (ascii_of_N 8)
            else if Ascii.eqb e "f" then simple (ascii_of_N 12)
            else if Ascii.eqb e "n" then simple (ascii_of_N 10)
            else if Ascii.eqb e "r" then simple (ascii_of_N 13)
            else if Ascii.eqb e "t" then simple (ascii_of_N 9)
            else if Ascii.eqb e "u" then
              match rest' with
              | h1 :: h2 :: h3 :: h4 :: rest'' =>
                  match hex_val h1, hex_val h2, hex_val h3, hex_val h4 with
                  | Some 0%N, Some 0%N, Some a, Some b =>
                      match parse_string_body rest'' with
                      | Some (cs, r) => Some (ascii_of_N (16 * a + b) :: cs, r)
                      | None => None
                      end
                  | _, _, _, _ => None
                  end
              | _ => None
              end
            else None
        | [] => None
        end
      else if (N_of_ascii c <? 32)%N then None
      else
        match parse_string_body rest with
        | Some (cs, r) => Some (c :: cs, r)
        | None => None
        end
  end.

(** *** Values *)

Definition is_ws (c : ascii) : bool :=
  let n := N_of_ascii c in
  ((n =? 32) || (n =? 9) || (n =? 10) || (n =? 13))%N.

Fixpoint skip_ws (s : chars) : chars :=
  match s with
  | c :: rest => if is_ws c then skip_ws rest else s
  | [] => []
  end.

Definition join (sep : chars) (parts : list chars) : chars :=
  match parts with
  | [] => []
  | p :: ps => p ++ flat_map (fun q => sep ++ q) ps
  end.

Fixpoint print (v : json) : chars :=
  match v with
  | JNull => lit "null"
  | JBool true => lit "true"
  | JBool false => lit "false"
  | JNum z => print_Z z
  | JStr s => quote s
  | JArr elems => "["%char :: join [","%char] (List.map print elems) ++ ["]"%char]
  | JObj members =>
      "{"%char ::
      join [","%char]
        (List.map (fun kv => quote (fst kv) ++ ":"%char :: print (snd kv)) members)
      ++ ["}"%char]
  end.

Fixpoint expect (kw : chars) (s : chars) : option chars :=
  match kw, s with
  | [], _ => Some s
  | k :: kw', c :: s' => if Ascii.eqb k c then expect kw' s' else None
  | _ :: _, [] => None
  end.

(** Recursive descent over the grammar of ECMA-404, with a fuel bound on the
    nesting of calls; [parse] supplies enough fuel for the whole input. *)
Fixpoint parse_value (fuel : nat) (s : chars) : option (json * chars) :=
  match fuel with
  | O => None
  | S fuel =>
      match s with
      | [] => None
      | c :: rest =>
          if Ascii.eqb c "n" then
            match expect (lit "ull") rest with
            | Some r => Some (JNull, r) | None => None end
          else if Ascii.eqb c "t" then
            match expect (lit "rue") rest with
            | Some r => Some (JBool true, r) | None => None end
          else if Ascii.eqb c "f" then
            match expect (lit "alse") rest with
            | Some r => Some (JBool false, r) | None => None end
          else if Ascii.eqb c dquote then
            match parse_string_body rest with
            | Some (cs, r) => Some (JStr (string_of_list_ascii cs), r)
            | None => None
            end
          else if Ascii.eqb c "[" then
            match skip_ws rest with
            | c' :: r' =>
                if Ascii.eqb c' "]" then Some (JArr [], r')
                else
                  match parse_elements fuel (c' :: r') with
                  | Some (vs, r) => Some (JArr vs, r)
                  | None => None
                  end
            | [] => None
            end
          else if Ascii.eqb c "{" then
            match skip_ws rest with
            | c' :: r' =>
                if Ascii.eqb c' "}" then Some (JObj [], r')
                else
                  match parse_members fuel (c' :: r') with
                  | Some (ms, r) => Some (JObj ms, r)
                  | None => None
                  end
            | [] => None
            end
          else
            match parse_number s with
            | Some (z, r) => Some (JNum z, r)
            | None => None
            end
      end
  end

with parse_elements (fuel : nat) (s : chars) : option (list json * chars) :=
  match fuel with
  | O => None
  | S fuel =>
      match parse_value fuel s with
      | Some (v, r) =>
          match skip_ws r with
          | c :: r' =>
              if Ascii.eqb c "," then
                match parse_elements fuel (skip_ws r') with
                | Some (vs, r'') => Some (v :: vs, r'')
                | None => None
                end
              else if Ascii.eqb c "]" then Some ([v], r')
              else None
          | [] => None
          end
      | None => None
      end
  end

with parse_members (fuel : nat) (s : chars) : option (list (string * json) * chars) :=
  match fuel with
  | O => None
  | S fuel =>
      match s with
      | q :: s' =>
          if Ascii.eqb q dquote then
            match parse_string_body s' with
            | Some (k, r) =>
                match skip_ws r with
                | c :: r' =>
                    if Ascii.eqb c ":" then
                      match parse_value fuel (skip_ws r') with
                      | Some (v, r'') =>
                          match skip_ws r'' with
                          | c' :: r3 =>
                              if Ascii.eqb c' "," then
                                match parse_members fuel (skip_ws r3) with
                                | Some (ms, r4) =>
                                    Some ((string_of_list_ascii k, v) :: ms, r4)
                                | None => None
                                end
                              else if Ascii.eqb c' "}" then
                                Some ([(string_of_list_ascii k, v)], r3)
                              else None
                          | [] => None
                          end
                      | None => None
                      end
                    else None
                | [] => None
                end
            | None => None
            end
          else None
      | [] => None
      end
  end.

(** [JSON.stringify] on a value without [undefined] members. *)
Definition stringify (v : json) : string := string_of_list_ascii (print v).

(** The value of a text all of whose tokens the model represents. *)
Definition parse_exact (text : string) : option json :=
  let s := list_ascii_of_string text in
  match parse_value (S (length s)) (skip_ws s) with
  | Some (v, rest) =>
      match skip_ws rest with
      | [] => Some v
      | _ :: _ => None
      end
  | None => None
  end.

(** *** The grammar alone

    The same descent without building a value, over the whole grammar:
    numbers with a fraction or an exponent and [\u] escapes of any four
    hexadecimal digits included. *)

(** One or more digits. *)
Definition skip_digits (s : chars) : option chars :=
  match scan_digits s with
  | (Decimal.Nil, _) => None
  | (_, rest) => Some rest
  end.

Definition skip_fraction (s : chars) : option chars :=
  match s with
  | c :: rest => if Ascii.eqb c "." then skip_digits rest else Some s
  | [] => Some s
  end.

Definition skip_exponent (s : chars) : option chars :=
  match s with
  | c :: rest =>
      if Ascii.eqb c "e" || Ascii.eqb c "E" then
        match rest with
        | sign :: rest' =>
            if Ascii.eqb sign "+" || Ascii.eqb sign "-" then skip_digits rest'
            else skip_digits rest
        | [] => None
        end
      else Some s
  | [] => Some s
  end.

(** [-? int frac? exp?] *)
Definition skip_number (s : chars) : option chars :=
  let unsigned :=
    match s with
    | c :: rest => if Ascii.eqb c "-" then rest else s
    | [] => s
    end in
  let '(d, rest) := scan_digits unsigned in
  if int_ok d then
    match skip_fraction rest with
    | Some rest' => skip_exponent rest'
    | None => None
    end
  else None.

Definition is_hex (c : ascii) : bool :=
  match hex_val c with Some _ => true | None => false end.

Fixpoint skip_string_body (s : chars) : option chars :=
  match s with
  | [] => None
  | c :: rest =>
      if Ascii.eqb c dquote then Some rest
      else if Ascii.eqb c backslash then
        match rest with
        | e :: rest' =>
            if Ascii.eqb e dquote || Ascii.eqb e backslash || Ascii.eqb e "/"
               || Ascii.eqb e "b" || Ascii.eqb e "f" || Ascii.eqb e "n"
               || Ascii.eqb e "r" || Ascii.eqb e "t"
            then skip_string_body rest'
            else if Ascii.eqb e "u" then
              match rest' with
              | h1 :: h2 :: h3 :: h4 :: rest'' =>
                  if is_hex h1 && is_hex h2 && is_hex h3 && is_hex h4
                  then skip_string_body rest''
                  else None
              | _ => None
              end
            else None
        | [] => None
        end
      else if (N_of_ascii c <? 32)%N then None
      else skip_string_body rest
  end.

Fixpoint skip_value (fuel : nat) (s : chars) : option chars :=
  match fuel with
  | O => None
  | S fuel =>
      match s with
      | [] => None
      | c :: rest =>
          if Ascii.eqb c "n" then expect (lit "ull") rest
          else if Ascii.eqb c "t" then expect (lit "rue") rest
          else if Ascii.eqb c "f" then expect (lit "alse") rest
          else if Ascii.eqb c dquote then skip_string_body rest
          else if Ascii.eqb c "[" then
            match skip_ws rest with
            | c' :: r' =>
                if Ascii.eqb c' "]" then Some r'
                else skip_elements fuel (c' :: r')
            | [] => None
            end
          else if Ascii.eqb c "{" then
            match skip_ws rest with
            | c' :: r' =>
                if Ascii.eqb c' "}" then Some r'
                else skip_members fuel (c' :: r')
            | [] => None
            end
          else skip_number s
      end
  end

with skip_elements (fuel : nat) (s : chars) : option chars :=
  match fuel with
  | O => None
  | S fuel =>
      match skip_value fuel s with
      | Some r =>
          match skip_ws r with
          | c :: r' =>
              if Ascii.eqb c "," then skip_elements fuel (skip_ws r')
              else if Ascii.eqb c "]" then Some r'
              else None
          | [] => None
          end
      | None => None
      end
  end

with skip_members (fuel : nat) (s : chars) : option chars :=
  match fuel with
  | O => None
  | S fuel =>
      match s with
      | q :: s' =>
          if Ascii.eqb q dquote then
            match skip_string_body s' with
            | Some r =>
                match skip_ws r with
                | c :: r' =>
                    if Ascii.eqb c ":" then
                      match skip_value fuel (skip_ws r') with
                      | Some r'' =>
                          match skip_ws r'' with
                          | c' :: r3 =>
                              if Ascii.eqb c' "," then skip_members fuel (skip_ws r3)
                              else if Ascii.eqb c' "}" then Some r3
                              else None
                          | [] => None
                          end
                      | None => None
                      end
                    else None
                | [] => None
                end
            | None => None
            end
          else None
      | [] => None
      end
  end.

(** The text is a JSON text. *)
Definition well_formed (text : string) : bool :=
  let s := list_ascii_of_string text in
  match skip_value (S (length s)) (skip_ws s) with
  | Some rest =>
      match skip_ws rest with
      | [] => true
      | _ :: _ => false
      end
  | None => false
  end.

(** What [JSON.parse] does with a text: it returns a value that the model
    represents, it returns a value that the model does not represent (one
    with a number that is not an integer literal or a string with a code
    unit above U+00FF), or it throws its [SyntaxError]. *)
Inductive parsed : Type :=
  | Parsed (v : json)
  | Unrepresented
  | Malformed.

Definition parse (text : string) : parsed :=
  match parse_exact text with
  | Some v => Parsed v
  | None => if well_formed text then Unrepresented else Malformed
  end.

(** *** Induction over nested values *)

Fixpoint json_ind (P : json -> Prop)
    (Hnull : P JNull) (Hbool : forall b, P (JBool b))
    (Hnum : forall z, P (JNum z)) (Hstr : forall s, P (JStr s))
    (Harr : forall elems, Forall P elems -> P (JArr elems))
    (Hobj : forall members, Forall (fun kv => P (snd kv)) members -> P (JObj members))
    (v : json) {struct v} : P v :=
  match v with
  | JNull => Hnull
  | JBool b => Hbool b
  | JNum z => Hnum z
  | JStr s => Hstr s
  | JArr elems =>
      Harr elems
        ((fix go (l : list json) : Forall P l :=
            match l with
            | [] => @List.Forall_nil _ P
            | x :: l' =>
                @List.Forall_cons _ P x l'
                  (json_ind P Hnull Hbool Hnum Hstr Harr Hobj x) (go l')
            end) elems)
  | JObj members =>
      Hobj members
        ((fix go (l : list (string * json)) : Forall (fun kv => P (snd kv)) l :=
            match l with
            | [] => @List.Forall_nil _ _
            | x :: l' =>
                @List.Forall_cons _ (fun kv => P (snd kv)) x l'
                  (json_ind P Hnull Hbool Hnum Hstr Harr Hobj (snd x)) (go l')
            end) members)
  end.

(** The number of nested parser calls a value needs. *)
Fixpoint size (v : json) : nat :=
  match v with
  | JArr elems => S (list_sum (List.map (fun x => S (size x)) elems))
  | JObj members => S (list_sum (List.map (fun kv => S (size (snd kv))) members))
  | _ => 1
  end.

(** What may follow a printed value: anything that cannot extend a number
    token. *)
Definition value_end (rest : chars) : bool :=
  match rest with
  | [] => true
  | c :: _ => negb (is_digit c) && negb (starts_frac_or_exp rest)
  end.

(** The first character of a printed value. *)
Definition value_start (c : ascii) : bool :=
  negb (is_ws c) && negb (Ascii.eqb c "]") && negb (Ascii.eqb c "}").

(** The round-trip statement for one value, as used by the induction. *)
Definition reads_back (v : json) : Prop :=
  forall fuel rest,
    (size v <= fuel)%nat -> value_end rest = true ->
    parse_value fuel (print v ++ rest) = Some (v, rest).

Definition elements_cost (vs : list json) : nat :=
  list_sum (List.map (fun x => S (size x)) vs).

Definition members_cost (ms : list (string * json)) : nat :=
  list_sum (List.map (fun kv => S (size (snd kv))) ms).

Definition print_member (kv : string * json) : chars :=
  quote (fst kv) ++ ":"%char :: print (snd kv).

Ltac each_ascii c := destruct c as [[] [] [] [] [] [] [] []].

End JSON.

Import JSON.

(** ** JavaScript helpers used by the handlers *)

(** What a call does: it returns a value of the annotated type, it throws,
    it returns a JSON value that does not have the shape the TypeScript
    annotation promises (the annotation is erased at run time, so the caller
    receives the value as it is), or it returns a value that the model does
    not represent.  The embedding does not follow the last two further. *)
Inductive outcome (A : Type) : Type :=
  | Returns (a : A)
  | Throws (e : exn)
  | Untyped (v : json)
  | Unmodelled.
Arguments Returns {A} a.
Arguments Throws {A} e.
Arguments Untyped {A} v.
Arguments Unmodelled {A}.

Definition outcome_bind {A B : Type} (o : outcome A) (k : A -> outcome B) : outcome B :=
  match o with
  | Returns a => k a
  | Throws e => Throws e
  | Untyped v => Untyped v
  | Unmodelled => Unmodelled
  end.

(** [Array.prototype.findIndex]: the index of the first element that
    satisfies [p], or [-1]. *)
Fixpoint findIndex {A : Type} (p : A -> bool) (l : list A) : Z :=
  match l with
  | [] => -1
  | x :: l' =>
      if p x then 0
      else let i := findIndex p l' in if i <? 0 then -1 else i + 1
  end.

(** [Array.prototype.find]. *)
Definition find_first {A : Type} (p : A -> bool) (l : list A) : option A :=
  List.find p l.

(** The white space removed by [String.prototype.trim], among byte code
    units. *)
Definition is_trim_space (c : ascii) : bool :=
  let n := N_of_ascii c in
  ((n =? 9) || (n =? 10) || (n =? 11) || (n =? 12) || (n =? 13)
   || (n =? 32) || (n =? 160))%N.

(** [!s.trim()]: the string is empty once trimmed. *)
Definition blank (s : string) : bool :=
  forallb is_trim_space (list_ascii_of_string s).

(** ** Objects used as maps from names to numbers *)

Module JS.

(** The names of the members that every object inherits from
    [Object.prototype] in a browser.  A read of one of them on an object
    without a property of its own under that name gives the inherited
    function (the prototype object for [__proto__]). *)
Definition inherited : list string :=
  ["constructor"; "hasOwnProperty"; "isPrototypeOf"; "propertyIsEnumerable";
   "toLocaleString"; "toString"; "valueOf"; "__defineGetter__";
   "__defineSetter__"; "__lookupGetter__"; "__lookupSetter__"; "__proto__"].

(** What a handler can meet where it expects a number: a number, [NaN],
    or a value that is neither: an inherited function or object, or the
    text that [+] makes of one.  Such a value is truthy, [NaN] when taken
    as a number, and text when added to. *)
Inductive value : Type :=
  | Num (z : Z)
  | NaN
  | Opaque.

(** A stored mastery: a number, or what [JSON.stringify] writes as [null]
    ([NaN] in memory, [null] once read back; the handlers read a mastery
    only through [|| 0], and the two are alike to it). *)
Inductive level : Type :=
  | Percent (z : Z)
  | NotNumber.

Definition level_value (l : level) : value :=
  match l with
  | Percent z => Num z
  | NotNumber => NaN
  end.

(** [object[key]]: the property the object has of its own, else the
    inherited member, else [undefined]. *)
Definition get {A : Type} (own : A -> value) (object : gmap string A) (key : string)
    : option value :=
  match object !! key with
  | Some a => Some (own a)
  | None => if bool_decide (key ∈ inherited) then Some Opaque else None
  end.

(** [x || 0] *)
Definition or_zero (x : option value) : value :=
  match x with
  | Some (Num z) => Num z
  | Some Opaque => Opaque
  | Some NaN | None => Num 0
  end.

(** [a + b]: text as soon as one side is neither a number nor [NaN]. *)
Definition add (a b : value) : value :=
  match a, b with
  | Num x, Num y => Num (x + y)
  | Opaque, _ | _, Opaque => Opaque
  | _, _ => NaN
  end.

(** [a - b] *)
Definition sub (a b : value) : value :=
  match a, b with
  | Num x, Num y => Num (x - y)
  | _, _ => NaN
  end.

(** [Math.max(0, a)] *)
Definition max0 (a : value) : value :=
  match a with
  | Num x => Num (Z.max 0 x)
  | _ => NaN
  end.

(** [Math.min(100, a)], which is a number or [NaN]. *)
Definition min100 (a : value) : level :=
  match a with
  | Num x => Percent (Z.min 100 x)
  | _ => NotNumber
  end.

(** [object[key] = v] for a number or [NaN]: the assignment makes or
    changes a property of the object itself, except under [__proto__] on an
    object without such a property, where it runs the inherited setter,
    which ignores a value that is not an object. *)
Definition set (key : string) (v : level) (object : gmap string level)
    : gmap string level :=
  if String.eqb key "__proto__" && bool_decide (object !! key = None) then object
  else <[key := v]> object.

End JS.

(** ** [localStorage] *)

Abbreviation localStorage := (gmap string string).

Definition getItem (key : string) (ls : localStorage) : option string := ls !! key.

Definition setItem (key value : string) (ls : localStorage) : localStorage :=
  <[key := value]> ls.

(** [localStorage.getItem(key) || dflt]: [null] and the empty string are
    falsy. *)
Definition item_or (item : option string) (dflt : string) : string :=
  match item with
  | Some s => if String.eqb s EmptyString then dflt else s
  | None => dflt
  end.

(** ** Views of JSON values at the declared types *)

Definition as_string (v : json) : option string :=
  match v with JStr s => Some s | _ => None end.

Definition as_number (v : json) : option Z :=
  match v with JNum z => Some z | _ => None end.

Definition as_array {A : Type} (elem : json -> option A) (v : json) : option (list A) :=
  match v with JArr l => mapM elem l | _ => None end.

Definition as_nullable {A : Type} (elem : json -> option A) (v : json) : option (option A) :=
  match v with JNull => Some None | _ => Some <$> elem v end.

(** Reading property [name] of a parsed object: when a key occurs twice in
    the text, the last occurrence is the property's value. *)
Definition property (name : string) (members : list (string * json)) : option json :=
  snd <$> List.find (fun kv => String.eqb (fst kv) name) (reverse members).

Definition required {A : Type} (name : string) (elem : json -> option A)
    (members : list (string * json)) : option A :=
  property name members ≫= elem.

(** An optional property ([name?: T]): absent, or of type [T]. *)
Definition optional {A : Type} (name : string) (elem : json -> option A)
    (members : list (string * json)) : option (option A) :=
  match property name members with
  | None => Some None
  | Some v => Some <$> elem v
  end.

(** Whether an object carries property [name]. *)
Definition has_property (name : string) (v : json) : bool :=
  match v with
  | JObj members => bool_decide (is_Some (property name members))
  | _ => false
  end.

(** A mastery as [JSON.stringify] writes it and [JSON.parse] reads it. *)
Definition of_level (l : JS.level) : json :=
  match l with
  | JS.Percent z => JNum z
  | JS.NotNumber => JNull
  end.

Definition as_level (v : json) : option JS.level :=
  match v with
  | JNum z => Some (JS.Percent z)
  | JNull => Some JS.NotNumber
  | _ => None
  end.

(** [Record<string, number>], where the application may itself have
    written [null] for a number. *)
Definition as_record (v : json) : option (gmap string JS.level) :=
  match v with
  | JObj members =>
      list_to_map <$> mapM (fun kv => pair (fst kv) <$> as_level (snd kv)) (reverse members)
  | _ => None
  end.

Definition of_record (m : gmap string JS.level) : json :=
  JObj ((fun kv => (fst kv, of_level (snd kv))) <$> map_to_list m).

(** A user type as the store sees it: its JSON form, the view of a parsed
    value at that type, and the property that [saveUser] compares
    ([username] in the first generation of the application, [id] in the
    second). *)
Class Stored (U : Type) : Type := {
  encode : U -> json;
  decode : json -> option U;
  identity : U -> string
}.

(** The view reads back what the encoder writes. *)
Class StoredLaws (U : Type) `{Stored U} : Prop :=
  decode_encode : forall u : U, decode (encode u) = Some u.

(** ** The [DB] object *)

Module DB.
Section Users.
Context {U : Type} `{Stored U}.

(** [JSON.parse(text)] at an annotated type. *)
Definition read {A : Type} (view : json -> option A) (text : string) : outcome A :=
  match JSON.parse text with
  | Malformed => Throws SyntaxError
  | Unrepresented => Unmodelled
  | Parsed v =>
      match view v with
      | Some a => Returns a
      | None => Untyped v
      end
  end.

(** [getUsers: (): User[] => JSON.parse(localStorage.getItem('mp_users') || '[]')] *)
Definition getUsers (ls : localStorage) : outcome (list U) :=
  read (as_array decode) (item_or (getItem "mp_users" ls) "[]").

(** [saveUser]: read the list, replace at the index [findIndex] gives or
    push, and write the whole list back. *)
Definition saveUser (user : U) (ls : localStorage) : outcome localStorage :=
  outcome_bind (getUsers ls) (fun users =>
  let index := findIndex (fun u => String.eqb (identity u) (identity user)) users in
  let users' :=
    if index >? -1 then <[Z.to_nat index := user]> users
    else users ++ [user] in
  Returns (setItem "mp_users" (JSON.stringify (JArr (encode <$> users'))) ls)).

(** [getCurrentUser: (): User | null =>
     JSON.parse(localStorage.getItem('mp_current_user') || 'null')] *)
Definition getCurrentUser (ls : localStorage) : outcome (option U) :=
  read (as_nullable decode) (item_or (getItem "mp_current_user" ls) "null").

(** [setCurrentUser: (user: User | null) =>
     localStorage.setItem('mp_current_user', JSON.stringify(user))] *)
Definition setCurrentUser (user : option U) (ls : localStorage) : localStorage :=
  setItem "mp_current_user"
    (JSON.stringify (match user with Some u => encode u | None => JNull end)) ls.

End Users.
End DB.

(** The record the store holds for a user: the first entry of the user list
    with that identity, which is the entry [saveUser] replaces. *)
Definition persisted {U : Type} `{Stored U} (who : string) (ls : localStorage) : option U :=
  match DB.getUsers ls with
  | Returns users => find_first (fun u => String.eqb (identity u) who) users
  | _ => None
  end.

(** [saveUser] as the specification words it: replace the entry with the
    same identity if there is one, else append. *)
Fixpoint upsert {U : Type} `{Stored U} (user : U) (users : list U) : list U :=
  match users with
  | [] => [user]
  | u :: rest =>
      if String.eqb (identity u) (identity user) then user :: rest
      else u :: upsert user rest
  end.

(** ** Quiz questions and grading ([types.ts], [geminiService.ts]) *)

Module Quiz.

Inductive QuestionType : Type := multiple_choice | short_answer | explain.

Record QuizQuestion : Type := {
  q_id : string;
  type : QuestionType;
  question : string;
  options : option (list string);
  correctAnswer : string;
  hint : option string;
  conceptId : string
}.

Record QuizFeedback : Type := {
  isCorrect : bool;
  message : string;
  correction : option string;
  memoryTip : option string
}.

(** How the promise of [gradeAnswer] settles: the request and the model
    behind it are outside the program. *)
Inductive grading : Type :=
  | Graded (result : QuizFeedback)
  | GradingFailed.

(** What the user does in the quiz view. *)
Inductive event : Type :=
  | TypeAnswer (text : string)   (* textarea change, or a click on an option *)
  | Submit (g : grading)         (* the submit button, with the way the call settles *)
  | Next                         (* the next / finish button *)
  | Tick.                        (* one second of the exam countdown *)

(** A graded answer, as the specification names it: the concept of the
    question and whether the answer was judged correct. *)
Abbreviation answered := (string * bool)%type.

Definition correct_count (log : list answered) : Z :=
  Z.of_nat (length (filter (fun o => snd o = true) log)).

End Quiz.

Import Quiz.

(** ** First generation: users keyed by name, scores only *)

Module Basic.

(** An element of [quizHistory]. *)
Record QuizRecord : Type := {
  date : string;
  score : Z;
  total : Z
}.

Record User : Type := {
  id : string;
  username : string;
  weakAreas : list string;
  quizHistory : list QuizRecord
}.

Inductive AppMode : Type :=
  | Landing | Processing | Dashboard | QuizMode | ExamMode | Auth.

Definition encode_record (r : QuizRecord) : json :=
  JObj [("date", JStr (date r)); ("score", JNum (score r)); ("total", JNum (total r))].

Definition decode_record (v : json) : option QuizRecord :=
  match v with
  | JObj ms =>
      d ← required "date" as_string ms;
      s ← required "score" as_number ms;
      t ← required "total" as_number ms;
      Some {| date := d; score := s; total := t |}
  | _ => None
  end.

Definition encode_user (u : User) : json :=
  JObj [("id", JStr (id u));
        ("username", JStr (username u));
        ("weakAreas", JArr (JStr <$> weakAreas u));
        ("quizHistory", JArr (encode_record <$> quizHistory u))].

Definition decode_user (v : json) : option User :=
  match v with
  | JObj ms =>
      i ← required "id" as_string ms;
      n ← required "username" as_string ms;
      w ← required "weakAreas" (as_array as_string) ms;
      h ← required "quizHistory" (as_array decode_record) ms;
      Some {| id := i; username := n; weakAreas := w; quizHistory := h |}
  | _ => None
  end.

(** [users.findIndex(u => u.username === user.username)] *)
#[global] Instance stored_user : Stored User :=
  {| encode := encode_user; decode := decode_user; identity := username |}.

(** *** The [QuizView] component *)

Module QuizView.

Record State : Type := {
  currentIdx : nat;
  userAnswer : string;
  feedback : option QuizFeedback;
  loadingFeedback : bool;
  score : Z;
  timeLeft : Z
}.

(** [useState(isExam ? questions.length * 45 : 0)] *)
Definition initial (questions : list QuizQuestion) (isExam : bool) : State :=
  {| currentIdx := 0; userAnswer := EmptyString; feedback := None;
     loadingFeedback := false; score := 0;
     timeLeft := if isExam then Z.of_nat (length questions) * 45 else 0 |}.

Definition currentQ (questions : list QuizQuestion) (st : State) : option QuizQuestion :=
  questions !! currentIdx st.

Definition setUserAnswer (text : string) (st : State) : State :=
  {| currentIdx := currentIdx st; userAnswer := text; feedback := feedback st;
     loadingFeedback := loadingFeedback st; score := score st;
     timeLeft := timeLeft st |}.

(** [handleSubmit]: a rejected call is logged and leaves no feedback. *)
Definition handleSubmit (questions : list QuizQuestion) (g : grading) (st : State) : State :=
  if blank (userAnswer st) then st
  else
    match currentQ questions st, g with
    | Some _, Graded res =>
        {| currentIdx := currentIdx st; userAnswer := userAnswer st;
           feedback := Some res; loadingFeedback := false;
           score := if isCorrect res then score st + 1 else score st;
           timeLeft := timeLeft st |}
    | _, _ =>
        {| currentIdx := currentIdx st; userAnswer := userAnswer st;
           feedback := feedback st; loadingFeedback := false;
           score := score st; timeLeft := timeLeft st |}
    end.

(** [handleNext]: the new state and, on the last question, the argument of
    [onComplete(score)]. *)
Definition handleNext (questions : list QuizQuestion) (st : State) : State * option Z :=
  if Z.of_nat (currentIdx st) <? Z.of_nat (length questions) - 1 then
    ({| currentIdx := S (currentIdx st); userAnswer := EmptyString; feedback := None;
        loadingFeedback := loadingFeedback st; score := score st;
        timeLeft := timeLeft st |},
     None)
  else (st, Some (score st)).

(** One firing of the exam countdown's interval. *)
Definition tick (isExam : bool) (st : State) : State * option Z :=
  if isExam && (0 <? timeLeft st) then
    if timeLeft st <=? 1 then
      ({| currentIdx := currentIdx st; userAnswer := userAnswer st;
          feedback := feedback st; loadingFeedback := loadingFeedback st;
          score := score st; timeLeft := 0 |},
       Some (score st))
    else
      ({| currentIdx := currentIdx st; userAnswer := userAnswer st;
          feedback := feedback st; loadingFeedback := loadingFeedback st;
          score := score st; timeLeft := timeLeft st - 1 |},
       None)
  else (st, None).

(** The inputs are disabled once there is feedback; the submit button is
    rendered while there is none and is disabled on a blank answer or a
    pending call; the next button replaces it once there is feedback. *)
Definition can_submit (questions : list QuizQuestion) (st : State) : bool :=
  match currentQ questions st, feedback st with
  | Some _, None => negb (blank (userAnswer st) || loadingFeedback st)
  | _, _ => false
  end.

Definition step (questions : list QuizQuestion) (isExam : bool) (ev : event)
    (st : State) : State * option Z :=
  match currentQ questions st with
  | None => (st, None)
  | Some _ =>
      match ev with
      | TypeAnswer text =>
          match feedback st with
          | None => (setUserAnswer text st, None)
          | Some _ => (st, None)
          end
      | Submit g =>
          if can_submit questions st then (handleSubmit questions g st, None)
          else (st, None)
      | Next =>
          match feedback st with
          | Some _ => handleNext questions st
          | None => (st, None)
          end
      | Tick => tick isExam st
      end
  end.

Fixpoint run (questions : list QuizQuestion) (isExam : bool) (evs : list event)
    (st : State) : State * option Z :=
  match evs with
  | [] => (st, None)
  | ev :: evs' =>
      match step questions isExam ev st with
      | (st', None) => run questions isExam evs' st'
      | (st', Some done) => (st', Some done)
      end
  end.

Definition observed (questions : list QuizQuestion) (ev : event) (st : State)
    : list answered :=
  match ev, currentQ questions st with
  | Submit (Graded res), Some cur =>
      if can_submit questions st then [(conceptId cur, isCorrect res)] else []
  | _, _ => []
  end.

Fixpoint outcomes (questions : list QuizQuestion) (isExam : bool) (evs : list event)
    (st : State) : list answered :=
  match evs with
  | [] => []
  | ev :: evs' =>
      observed questions ev st ++
      match step questions isExam ev st with
      | (st', None) => outcomes questions isExam evs' st'
      | (_, Some _) => []
      end
  end.

Definition session (questions : list QuizQuestion) (isExam : bool) (evs : list event)
    : option Z :=
  snd (run questions isExam evs (initial questions isExam)).

Definition session_outcomes (questions : list QuizQuestion) (isExam : bool)
    (evs : list event) : list answered :=
  outcomes questions isExam evs (initial questions isExam).

End QuizView.

(** *** The application *)

Record App : Type := {
  mode : AppMode;
  user : option User;
  questions : list QuizQuestion;
  finalScore : option (Z * Z)
}.

Definition updated (now : string) (s : Z) (nquestions : nat) (u : User) : User :=
  {| id := id u; username := username u; weakAreas := weakAreas u;
     quizHistory :=
       quizHistory u ++ [{| date := now; score := s; total := Z.of_nat nquestions |}] |}.

(** [finishQuiz]; [now] is [new Date().toISOString()].  As in the second
    generation, the pushed record is visible through [user] even when
    [DB.saveUser] throws. *)
Definition finishQuiz (now : string) (s : Z) (app : App) (ls : localStorage)
    : App * outcome localStorage :=
  let final := Some (s, Z.of_nat (length (questions app))) in
  match user app with
  | Some u =>
      let updatedUser := updated now s (length (questions app)) u in
      match DB.saveUser updatedUser ls with
      | Returns ls' =>
          ({| mode := Dashboard; user := Some updatedUser;
              questions := questions app; finalScore := final |},
           Returns (DB.setCurrentUser (Some updatedUser) ls'))
      | failure =>
          ({| mode := mode app; user := Some updatedUser;
              questions := questions app; finalScore := finalScore app |},
           failure)
      end
  | None =>
      ({| mode := Dashboard; user := None;
          questions := questions app; finalScore := final |},
       Returns ls)
  end.

Definition quiz_mounted (app : App) : bool :=
  match mode app with
  | QuizMode | ExamMode => true
  | _ => false
  end.

Definition isExam (app : App) : bool :=
  match mode app with ExamMode => true | _ => false end.

Definition quiz_session (now : string) (evs : list event) (app : App)
    (ls : localStorage) : option (App * outcome localStorage) :=
  if quiz_mounted app then
    match QuizView.session (questions app) (isExam app) evs with
    | Some s => Some (finishQuiz now s app ls)
    | None => None
    end
  else None.

(** The sign-out button. *)
Definition logout (app : App) (ls : localStorage) : App * localStorage :=
  ({| mode := Landing; user := None;
      questions := questions app; finalScore := finalScore app |},
   DB.setCurrentUser (U := User) None ls).

(** [AuthMode.handleSubmit]; [fresh] is the random id drawn for a new user. *)
Definition handleAuth (fresh name : string) (app : App) (ls : localStorage)
    : App * outcome localStorage :=
  if String.eqb name EmptyString then (app, Returns ls)
  else
    match DB.getUsers ls with
    | Returns users =>
        match find_first (fun u => String.eqb (username u) name) users with
        | Some u =>
            ({| mode := Landing; user := Some u;
                questions := questions app; finalScore := finalScore app |},
             Returns (DB.setCurrentUser (Some u) ls))
        | None =>
            let u := {| id := fresh; username := name;
                        weakAreas := []; quizHistory := [] |} in
            match DB.saveUser u ls with
            | Returns ls' =>
                ({| mode := Landing; user := Some u;
                    questions := questions app; finalScore := finalScore app |},
                 Returns (DB.setCurrentUser (Some u) ls'))
            | failure => (app, failure)
            end
        end
    | Throws e => (app, Throws e)
    | Untyped v => (app, Untyped v)
    | Unmodelled => (app, Unmodelled)
    end.

End Basic.

(** ** Second generation: profiles, sheet ids and concept mastery *)

Module Extended.

Inductive LearningStyle : Type := visual | verbal | mixed.
Inductive MnemonicPref : Type := acronyms | stories | images | diagrams.

Record UserProfile : Type := {
  subject : string;
  academicLevel : string;
  learningStyle : LearningStyle;
  mnemonicPref : MnemonicPref;
  examDate : option string;
  dailyTimeLimit : option Z
}.

(** An element of [quizHistory]. *)
Record QuizRecord : Type := {
  date : string;
  score : Z;
  total : Z;
  sheetId : string
}.

Record User : Type := {
  id : string;
  username : string;
  profile : UserProfile;
  weakAreas : list string;
  quizHistory : list QuizRecord;
  library : list string;
  conceptMastery : gmap string JS.level
}.

(** The part of a sheet the quiz callbacks read. *)
Record StudyData : Type := {
  sd_id : string;
  sd_title : string
}.

Inductive AppMode : Type :=
  | Landing | Processing | Dashboard | QuizMode | ExamMode | Auth | Profile | Network.

(** *** JSON form of a user, in the property order of the object literals
    that create it *)

Definition style_name (s : LearningStyle) : string :=
  match s with visual => "visual" | verbal => "verbal" | mixed => "mixed" end.

Definition as_style (v : json) : option LearningStyle :=
  match v with
  | JStr s =>
      if String.eqb s "visual" then Some visual
      else if String.eqb s "verbal" then Some verbal
      else if String.eqb s "mixed" then Some mixed
      else None
  | _ => None
  end.

Definition pref_name (p : MnemonicPref) : string :=
  match p with
  | acronyms => "acronyms" | stories => "stories"
  | images => "images" | diagrams => "diagrams"
  end.

Definition as_pref (v : json) : option MnemonicPref :=
  match v with
  | JStr s =>
      if String.eqb s "acronyms" then Some acronyms
      else if String.eqb s "stories" then Some stories
      else if String.eqb s "images" then Some images
      else if String.eqb s "diagrams" then Some diagrams
      else None
  | _ => None
  end.

Definition encode_profile (p : UserProfile) : json :=
  JObj ([("subject", JStr (subject p));
         ("academicLevel", JStr (academicLevel p));
         ("learningStyle", JStr (style_name (learningStyle p)));
         ("mnemonicPref", JStr (pref_name (mnemonicPref p)))]
        ++ match examDate p with Some d => [("examDate", JStr d)] | None => [] end
        ++ match dailyTimeLimit p with Some n => [("dailyTimeLimit", JNum n)] | None => [] end).

Definition decode_profile (v : json) : option UserProfile :=
  match v with
  | JObj ms =>
      s ← required "subject" as_string ms;
      a ← required "academicLevel" as_string ms;
      l ← required "learningStyle" as_style ms;
      m ← required "mnemonicPref" as_pref ms;
      e ← optional "examDate" as_string ms;
      d ← optional "dailyTimeLimit" as_number ms;
      Some {| subject := s; academicLevel := a; learningStyle := l;
              mnemonicPref := m; examDate := e; dailyTimeLimit := d |}
  | _ => None
  end.

Definition encode_record (r : QuizRecord) : json :=
  JObj [("date", JStr (date r)); ("score", JNum (score r));
        ("total", JNum (total r)); ("sheetId", JStr (sheetId r))].

Definition decode_record (v : json) : option QuizRecord :=
  match v with
  | JObj ms =>
      d ← required "date" as_string ms;
      s ← required "score" as_number ms;
      t ← required "total" as_number ms;
      i ← required "sheetId" as_string ms;
      Some {| date := d; score := s; total := t; sheetId := i |}
  | _ => None
  end.

Definition encode_user (u : User) : json :=
  JObj [("id", JStr (id u));
        ("username", JStr (username u));
        ("profile", encode_profile (profile u));
        ("weakAreas", JArr (JStr <$> weakAreas u));
        ("quizHistory", JArr (encode_record <$> quizHistory u));
        ("library", JArr (JStr <$> library u));
        ("conceptMastery", of_record (conceptMastery u))].

Definition decode_user (v : json) : option User :=
  match v with
  | JObj ms =>
      i ← required "id" as_string ms;
      n ← required "username" as_string ms;
      p ← required "profile" decode_profile ms;
      w ← required "weakAreas" (as_array as_string) ms;
      h ← required "quizHistory" (as_array decode_record) ms;
      l ← required "library" (as_array as_string) ms;
      c ← required "conceptMastery" as_record ms;
      Some {| id := i; username := n; profile := p; weakAreas := w;
              quizHistory := h; library := l; conceptMastery := c |}
  | _ => None
  end.

(** [users.findIndex(u => u.id === user.id)] *)
#[global] Instance stored_user : Stored User :=
  {| encode := encode_user; decode := decode_user; identity := id |}.

(** [user.conceptMastery[concept.id] || 0],
    [updatedUser.conceptMastery[cid] || 0] *)
Definition reading (m : gmap string JS.level) (cid : string) : JS.value :=
  JS.or_zero (JS.get JS.level_value m cid).

(** *** The [QuizView] component *)

Module QuizView.

Record State : Type := {
  index : nat;
  score : Z;
  answer : string;
  feedback : option QuizFeedback;
  loading : bool;
  masteries : gmap string JS.value
}.

Definition initial : State :=
  {| index := 0; score := 0; answer := EmptyString; feedback := None;
     loading := false; masteries := ∅ |}.

(** [const current = questions[index]] *)
Definition current (questions : list QuizQuestion) (st : State) : option QuizQuestion :=
  questions !! index st.

Definition setAnswer (text : string) (st : State) : State :=
  {| index := index st; score := score st; answer := text;
     feedback := feedback st; loading := loading st; masteries := masteries st |}.

(** [prev[current.conceptId] || 0] *)
Definition running (prev : gmap string JS.value) (cid : string) : JS.value :=
  JS.or_zero (JS.get (fun v => v) prev cid).

(** The two updaters passed to [setMasteries]; the object literal gives the
    new object a property of its own under the computed key. *)
Definition raised (cid : string) (prev : gmap string JS.value) : gmap string JS.value :=
  <[cid := JS.add (running prev cid) (JS.Num 10)]> prev.

Definition lowered (cid : string) (prev : gmap string JS.value) : gmap string JS.value :=
  <[cid := JS.max0 (JS.sub (running prev cid) (JS.Num 5))]> prev.

Definition could_not_grade : QuizFeedback :=
  {| isCorrect := false; message := "Could not grade answer.";
     correction := None; memoryTip := Some EmptyString |}.

(** [handleSubmit], with the way the awaited [gradeAnswer] call settles.
    Without a current question the call rejects on [question.question]. *)
Definition handleSubmit (questions : list QuizQuestion) (g : grading) (st : State) : State :=
  if blank (answer st) || loading st then st
  else
    match current questions st, g with
    | Some cur, Graded result =>
        if isCorrect result then
          {| index := index st; score := score st + 1; answer := answer st;
             feedback := Some result; loading := false;
             masteries := raised (conceptId cur) (masteries st) |}
        else
          {| index := index st; score := score st; answer := answer st;
             feedback := Some result; loading := false;
             masteries := lowered (conceptId cur) (masteries st) |}
    | _, _ =>
        {| index := index st; score := score st; answer := answer st;
           feedback := Some could_not_grade; loading := false;
           masteries := masteries st |}
    end.

(** [next]: the new state and, on the last question, the arguments of
    [onComplete(score, masteries)]. *)
Definition next (questions : list QuizQuestion) (st : State)
    : State * option (Z * gmap string JS.value) :=
  if Z.of_nat (index st) <? Z.of_nat (length questions) - 1 then
    ({| index := S (index st); score := score st; answer := EmptyString;
        feedback := None; loading := loading st; masteries := masteries st |},
     None)
  else (st, Some (score st, masteries st)).

(** The submit button is rendered while there is no feedback and is
    disabled on a blank answer or a pending call; the next button is
    rendered once there is feedback; nothing is rendered without a current
    question. *)
Definition can_submit (questions : list QuizQuestion) (st : State) : bool :=
  match current questions st, feedback st with
  | Some _, None => negb (blank (answer st) || loading st)
  | _, _ => false
  end.

Definition step (questions : list QuizQuestion) (ev : event) (st : State)
    : State * option (Z * gmap string JS.value) :=
  match current questions st with
  | None => (st, None)
  | Some _ =>
      match ev with
      | TypeAnswer text => (setAnswer text st, None)
      | Submit g =>
          if can_submit questions st then (handleSubmit questions g st, None)
          else (st, None)
      | Next =>
          match feedback st with
          | Some _ => next questions st
          | None => (st, None)
          end
      | Tick => (st, None)
      end
  end.

(** The component from one state on, until it calls [onComplete]. *)
Fixpoint run (questions : list QuizQuestion) (evs : list event) (st : State)
    : State * option (Z * gmap string JS.value) :=
  match evs with
  | [] => (st, None)
  | ev :: evs' =>
      match step questions ev st with
      | (st', None) => run questions evs' st'
      | (st', Some done) => (st', Some done)
      end
  end.

(** The graded answers of a run, in order. *)
Definition observed (questions : list QuizQuestion) (ev : event) (st : State)
    : list answered :=
  match ev, current questions st with
  | Submit (Graded result), Some cur =>
      if can_submit questions st then [(conceptId cur, isCorrect result)] else []
  | _, _ => []
  end.

Fixpoint outcomes (questions : list QuizQuestion) (evs : list event) (st : State)
    : list answered :=
  match evs with
  | [] => []
  | ev :: evs' =>
      observed questions ev st ++
      match step questions ev st with
      | (st', None) => outcomes questions evs' st'
      | (_, Some _) => []
      end
  end.

(** A whole session: what [onComplete] receives, if the run reaches it. *)
Definition session (questions : list QuizQuestion) (evs : list event)
    : option (Z * gmap string JS.value) :=
  snd (run questions evs initial).

Definition session_outcomes (questions : list QuizQuestion) (evs : list event)
    : list answered :=
  outcomes questions evs initial.

(** The session's adjustment map as a function of the graded answers. *)
Definition adjust (m : gmap string JS.value) (o : answered) : gmap string JS.value :=
  if snd o then raised (fst o) m else lowered (fst o) m.

Definition tally (log : list answered) : gmap string JS.value :=
  fold_left adjust log ∅.

End QuizView.

(** *** The application *)

Record App : Type := {
  mode : AppMode;
  user : option User;
  studyData : option StudyData;
  questions : list QuizQuestion
}.

(** The [forEach] over [Object.entries(masteries)] in [onComplete]. *)
Definition merge_mastery (masteries : gmap string JS.value)
    (conceptMastery : gmap string JS.level) : gmap string JS.level :=
  map_fold
    (fun cid increase cm =>
       JS.set cid (JS.min100 (JS.add (reading cm cid) increase)) cm)
    conceptMastery masteries.

Definition updated (now : string) (s : Z) (masteries : gmap string JS.value)
    (nquestions : nat) (sheet : string) (u : User) : User :=
  {| id := id u; username := username u; profile := profile u;
     weakAreas := weakAreas u;
     quizHistory :=
       quizHistory u ++
       [{| date := now; score := s; total := Z.of_nat nquestions; sheetId := sheet |}];
     library := library u;
     conceptMastery := merge_mastery masteries (conceptMastery u) |}.

(** The [onComplete] callback handed to [QuizView]; [now] is
    [new Date().toISOString()].  [updatedUser] shares its history array and
    its mastery object with [user], so the user held by the component has
    them updated even when [DB.saveUser] throws before [setUser]. *)
Definition onComplete (now : string) (s : Z) (masteries : gmap string JS.value)
    (app : App) (ls : localStorage) : App * outcome localStorage :=
  match user app, studyData app with
  | Some u, Some sd =>
      let updatedUser := updated now s masteries (length (questions app)) (sd_id sd) u in
      match DB.saveUser updatedUser ls with
      | Returns ls' =>
          ({| mode := Dashboard; user := Some updatedUser;
              studyData := studyData app; questions := questions app |},
           Returns ls')
      | failure =>
          ({| mode := mode app; user := Some updatedUser;
              studyData := studyData app; questions := questions app |},
           failure)
      end
  | _, _ => (app, Throws TypeError)
  end.

(** [QuizView] is mounted in quiz or exam mode for a signed-in user with an
    open sheet. *)
Definition quiz_mounted (app : App) : bool :=
  match mode app, user app, studyData app with
  | (QuizMode | ExamMode), Some _, Some _ => true
  | _, _, _ => false
  end.

(** A quiz from mounting to completion. *)
Definition quiz_session (now : string) (evs : list event) (app : App)
    (ls : localStorage) : option (App * outcome localStorage) :=
  if quiz_mounted app then
    match QuizView.session (questions app) evs with
    | Some (s, masteries) => Some (onComplete now s masteries app ls)
    | None => None
    end
  else None.

(** The sign-out button. *)
Definition logout (app : App) (ls : localStorage) : App * localStorage :=
  ({| mode := Landing; user := None;
      studyData := studyData app; questions := questions app |},
   DB.setCurrentUser (U := User) None ls).

(** [AuthMode.handleAuth]; [fresh] is the random id drawn for a new user. *)
Definition handleAuth (fresh name : string) (app : App) (ls : localStorage)
    : App * outcome localStorage :=
  if blank name then (app, Returns ls)
  else
    match DB.getUsers ls with
    | Returns users =>
        match find_first (fun u => String.eqb (username u) name) users with
        | Some u =>
            ({| mode := Landing; user := Some u;
                studyData := studyData app; questions := questions app |},
             Returns (DB.setCurrentUser (Some u) ls))
        | None =>
            let u :=
              {| id := fresh; username := name;
                 profile := {| subject := "General"; academicLevel := "Undergraduate";
                               learningStyle := mixed; mnemonicPref := acronyms;
                               examDate := None; dailyTimeLimit := None |};
                 weakAreas := []; quizHistory := []; library := [];
                 conceptMastery := ∅ |} in
            match DB.saveUser u ls with
            | Returns ls' =>
                ({| mode := Landing; user := Some u;
                    studyData := studyData app; questions := questions app |},
                 Returns (DB.setCurrentUser (Some u) ls'))
            | failure => (app, failure)
            end
        end
    | Throws e => (app, Throws e)
    | Untyped v => (app, Untyped v)
    | Unmodelled => (app, Unmodelled)
    end.

End Extended.

(** ** Sample data for the worked examples *)

Module Samples.
Import Extended.

Definition general : UserProfile :=
  {| subject := "General"; academicLevel := "Undergraduate";
     learningStyle := mixed; mnemonicPref := acronyms;
     examDate := None; dailyTimeLimit := None |}.

(** A user who has reached 50% on concept [c1] and 95% on [c2]. *)
Definition ann : User :=
  {| id := "u1"; username := "ann"; profile := general; weakAreas := [];
     quizHistory := [{| date := "2026-01-05T09:00:00.000Z"; score := 7;
                        total := 10; sheetId := "s0" |}];
     library := [];
     conceptMastery := {["c1" := JS.Percent 50; "c2" := JS.Percent 95]} |}.

(** A user as [handleAuth] creates it. *)
Definition bob : User :=
  {| id := "u2"; username := "bob"; profile := general; weakAreas := [];
     quizHistory := []; library := []; conceptMastery := ∅ |}.

Definition sheet : StudyData := {| sd_id := "s1"; sd_title := "Thermodynamics" |}.

Definition about (cid : string) : QuizQuestion :=
  {| q_id := "q"; type := short_answer; question := "State the law.";
     options := None; correctAnswer := "dU = dQ - dW"; hint := None;
     conceptId := cid |}.

Definition right : QuizFeedback :=
  {| isCorrect := true; message := "Yes."; correction := None; memoryTip := None |}.

Definition wrong : QuizFeedback :=
  {| isCorrect := false; message := "No."; correction := Some "dU = dQ - dW";
     memoryTip := None |}.

Definition now : string := "2026-11-02T10:00:00.000Z".

(** The store with both users saved. *)
Definition store : localStorage :=
  {[ "mp_users" := JSON.stringify (JArr [encode ann; encode bob]);
     "mp_current_user" := JSON.stringify (encode ann) ]}.

Definition quiz_of (u : User) (qs : list QuizQuestion) : App :=
  {| mode := QuizMode; user := Some u; studyData := Some sheet; questions := qs |}.

Definition three_on_c1 : list QuizQuestion := [about "c1"; about "c1"; about "c1"].

(** The application and the store once a quiz has been completed and the
    user list rewritten. *)
Definition finished (u : User) (qs : list QuizQuestion) : App :=
  {| mode := Dashboard; user := Some u; studyData := Some sheet; questions := qs |}.

Definition saved (users : list User) : localStorage :=
  setItem "mp_users" (JSON.stringify (JArr (encode <$> users))) store.

(** Answer one question and move on. *)
Definition round (text : string) (g : grading) : list event :=
  [TypeAnswer text; Submit g; Next].

(** One wrong answer on [c1]. *)
Definition one_wrong : list event := round "dU = dQ" (Graded wrong).

(** Right, right, wrong on [c1]. *)
Definition right_right_wrong : list event :=
  round "a" (Graded right) ++ round "b" (Graded right) ++ round "c" (Graded wrong).

(** The first-generation user and application. *)
Definition old_ann : Basic.User :=
  {| Basic.id := "u1"; Basic.username := "ann"; Basic.weakAreas := [];
     Basic.quizHistory := [] |}.

Definition old_store : localStorage :=
  {[ "mp_users" := JSON.stringify (JArr [encode old_ann]) ]}.

Definition old_quiz : Basic.App :=
  {| Basic.mode := Basic.QuizMode; Basic.user := Some old_ann;
     Basic.questions := [about "c1"]; Basic.finalScore := None |}.

(** A value under the user-list key that is not JSON. *)
Definition corrupted : localStorage := {[ "mp_users" := "{oops" ]}.

End Samples.

(** ** The rest of the application: start-up, profile, upload, quiz start *)

Module ExtendedApp.
Import Extended.

(** The initial state of [App]: [useState<User | null>(DB.getCurrentUser())]
    and the other [useState] defaults. *)
Definition mount (ls : localStorage) : outcome App :=
  match DB.getCurrentUser ls with
  | Returns cur =>
      Returns {| mode := Landing; user := cur; studyData := None; questions := [] |}
  | Throws e => Throws e
  | Untyped v => Untyped v
  | Unmodelled => Unmodelled
  end.

(** The [onSave] handed to [ProfileView]:
    [(u) => { DB.saveUser(u); setUser(u); setMode('landing'); }] *)
Definition onSave (u : User) (app : App) (ls : localStorage)
    : App * outcome localStorage :=
  match DB.saveUser u ls with
  | Returns ls' =>
      ({| mode := Landing; user := Some u;
          studyData := studyData app; questions := questions app |},
       Returns ls')
  | failure => (app, failure)
  end.

(** [handleUpload]; [extracted] is how the reading of the file and the
    awaited [processStudyMaterial] settle.  Both happen in the [onload]
    callback, outside the [try], so a failure leaves the application in
    processing mode. *)
Definition handleUpload (extracted : option StudyData) (app : App) : App :=
  match user app with
  | None =>
      {| mode := Auth; user := None;
         studyData := studyData app; questions := questions app |}
  | Some u =>
      match extracted with
      | Some data =>
          {| mode := Dashboard; user := Some u;
             studyData := Some data; questions := questions app |}
      | None =>
          {| mode := Processing; user := Some u;
             studyData := studyData app; questions := questions app |}
      end
  end.

(** [startQuiz]; [generated] is how [generateQuizQuestions] settles. *)
Definition startQuiz (exam : bool) (generated : option (list QuizQuestion))
    (app : App) : App :=
  match studyData app with
  | None => app
  | Some _ =>
      match generated with
      | Some qs =>
          {| mode := if exam then ExamMode else QuizMode; user := user app;
             studyData := studyData app; questions := qs |}
      | None =>
          {| mode := Dashboard; user := user app;
             studyData := studyData app; questions := questions app |}
      end
  end.

End ExtendedApp.

Module BasicApp.
Import Basic.

(** The initial state of the first generation's [App]. *)
Definition mount (ls : localStorage) : outcome App :=
  match DB.getCurrentUser ls with
  | Returns cur =>
      Returns {| mode := Landing; user := cur; questions := []; finalScore := None |}
  | Throws e => Throws e
  | Untyped v => Untyped v
  | Unmodelled => Unmodelled
  end.

End BasicApp.

(** ** [ProfileView] *)

Module ProfileView.
Import Extended.

(** The two controls of the form: [setProfile({...profile, academicLevel})]
    and [setProfile({...profile, subject})]. *)
Inductive edit : Type :=
  | SetAcademicLevel (value : string)
  | SetSubject (value : string).

Definition apply_edit (p : UserProfile) (e : edit) : UserProfile :=
  match e with
  | SetAcademicLevel v =>
      {| subject := subject p; academicLevel := v;
         learningStyle := learningStyle p; mnemonicPref := mnemonicPref p;
         examDate := examDate p; dailyTimeLimit := dailyTimeLimit p |}
  | SetSubject v =>
      {| subject := v; academicLevel := academicLevel p;
         learningStyle := learningStyle p; mnemonicPref := mnemonicPref p;
         examDate := examDate p; dailyTimeLimit := dailyTimeLimit p |}
  end.

(** The form state after a series of edits, from [useState(user.profile)]. *)
Definition edited (u : User) (edits : list edit) : UserProfile :=
  fold_left apply_edit edits (profile u).

(** The update button: [onSave({ ...user, profile })]. *)
Definition submitted (u : User) (p : UserProfile) : User :=
  {| id := id u; username := username u; profile := p;
     weakAreas := weakAreas u; quizHistory := quizHistory u;
     library := library u; conceptMastery := conceptMastery u |}.

Definition update (edits : list edit) (app : App) (ls : localStorage)
    : App * outcome localStorage :=
  match mode app, user app with
  | Profile, Some u => ExtendedApp.onSave (submitted u (edited u edits)) app ls
  | _, _ => (app, Returns ls)
  end.

End ProfileView.

(** ** [Flashcards] *)

Module Flashcards.

Record State : Type := {
  index : Z;
  flipped : bool
}.

Definition initial : State := {| index := 0; flipped := false |}.

Inductive event : Type := Flip | Previous | Forward.

(** [concepts[index]] *)
Definition current {C : Type} (concepts : list C) (st : State) : option C :=
  if index st <? 0 then None else concepts !! Z.to_nat (index st).

(** [setFlipped(!flipped)] *)
Definition flip (st : State) : State :=
  {| index := index st; flipped := negb (flipped st) |}.

(** [setIndex(prev => Math.max(0, prev - 1)); setFlipped(false)] *)
Definition previous (st : State) : State :=
  {| index := Z.max 0 (index st - 1); flipped := false |}.

(** [setIndex(prev => Math.min(concepts.length - 1, prev + 1));
    setFlipped(false)] *)
Definition forward {C : Type} (concepts : list C) (st : State) : State :=
  {| index := Z.min (Z.of_nat (length concepts) - 1) (index st + 1);
     flipped := false |}.

(** Nothing is rendered without a current card ([if (!current) return
    null]); the buttons are disabled at the two ends ([index === 0],
    [index === concepts.length - 1]). *)
Definition step {C : Type} (concepts : list C) (st : State) (ev : event) : State :=
  match current concepts st with
  | None => st
  | Some _ =>
      match ev with
      | Flip => flip st
      | Previous => if index st =? 0 then st else previous st
      | Forward =>
          if index st =? Z.of_nat (length concepts) - 1 then st
          else forward concepts st
      end
  end.

Definition run {C : Type} (concepts : list C) (evs : list event) : State :=
  fold_left (step concepts) evs initial.

(** The view shows a card of the deck. *)
Definition on_a_card {C : Type} (concepts : list C) (st : State) : Prop :=
  0 <= index st < Z.of_nat (length concepts).

End Flashcards.

(** ** [ConceptsView] *)

Module ConceptsView.

Inductive Likelihood : Type := High | Medium | Low.

Record Concept : Type := {
  id : string;
  term : string;
  explanation : string;
  testLikelihood : Likelihood;
  relatedConceptIds : list string
}.

Inductive DashboardTab : Type := concepts_tab | flashcards | formulas | visuals | tutor.

(** The part of the [App] state the view works on. *)
Record Workspace : Type := {
  tab : DashboardTab;
  expandedConcept : option string
}.

(** [const isExpanded = expandedConcept === concept.id] *)
Definition isExpanded (w : Workspace) (c : Concept) : bool :=
  match expandedConcept w with
  | Some e => String.eqb e (id c)
  | None => false
  end.

(** The link buttons of an expanded concept: one per related id that
    [studyData.concepts.find(c => c.id === rid)] resolves, labelled with the
    related concept's term; an id without concept renders nothing. *)
Definition related_links (concepts : list Concept) (c : Concept)
    : list (string * string) :=
  omap (fun rid =>
          match find_first (fun x => String.eqb (id x) rid) concepts with
          | Some related => Some (rid, term related)
          | None => None
          end)
       (relatedConceptIds c).

(** [scrollToConcept]: [setTab('concepts'); setExpandedConcept(id)] *)
Definition scrollToConcept (rid : string) (w : Workspace) : Workspace :=
  {| tab := concepts_tab; expandedConcept := Some rid |}.

(** [const mastery = user.conceptMastery[concept.id] || 0] *)
Definition mastery (u : Extended.User) (c : Concept) : JS.value :=
  Extended.reading (Extended.conceptMastery u) (id c).

(** The "Subject Mastered" panel: [mastery === 100]. *)
Definition mastered (u : Extended.User) (c : Concept) : bool :=
  match mastery u c with
  | JS.Num z => z =? 100
  | _ => false
  end.

(** [MasteryProgress]: the colour of the bar.  A comparison with a value
    that is not a number is false. *)
Inductive Colour : Type := amber | indigo | emerald.

Definition colour (level : JS.value) : Colour :=
  match level with
  | JS.Num z => if z >=? 80 then emerald else if z >=? 40 then indigo else amber
  | _ => amber
  end.

Definition rank (c : Colour) : Z :=
  match c with amber => 0 | indigo => 1 | emerald => 2 end.

End ConceptsView.

(** ** Measures of a quiz run, used to state its invariants *)

Module Progress.

Definition is_tick (ev : event) : bool :=
  match ev with Tick => true | _ => false end.

(** The seconds that pass during a run. *)
Definition ticks (evs : list event) : nat := length (List.filter is_tick evs).

Definition without_ticks (evs : list event) : list event :=
  List.filter (fun ev => negb (is_tick ev)) evs.

(** The graded answers on concept [cid] judged [verdict]. *)
Definition answers_on (cid : string) (verdict : bool) (log : list answered) : Z :=
  Z.of_nat (length (filter (fun o => fst o = cid /\ snd o = verdict) log)).

(** The questions of a quiz on concept [cid]. *)
Definition questions_on (cid : string) (questions : list QuizQuestion) : Z :=
  Z.of_nat (length (filter (fun q => conceptId q = cid) questions)).

(** The questions a state of the quiz view is done with: those before the
    current one and, once there is feedback, the current one. *)
Definition dealt (st : Extended.QuizView.State) : nat :=
  (Extended.QuizView.index st
   + match Extended.QuizView.feedback st with Some _ => 1 | None => 0 end)%nat.

Definition basic_dealt (st : Basic.QuizView.State) : nat :=
  (Basic.QuizView.currentIdx st
   + match Basic.QuizView.feedback st with Some _ => 1 | None => 0 end)%nat.

End Progress.

(** ** [TutorChat] *)

Module TutorChat.
Import ConceptsView.

Inductive Role : Type := asker | ai.

Record Message : Type := {
  role : Role;
  text : string
}.

Record State : Type := {
  selectedConceptId : option string;
  messages : list Message;
  input : string;
  loading : bool
}.

(** [useState(concepts[0]?.id)] and the other defaults. *)
Definition initial (concepts : list Concept) : State :=
  {| selectedConceptId := id <$> head concepts; messages := [];
     input := EmptyString; loading := false |}.

(** How the promise of [askTutoring]'s request settles: with a response,
    whose [text] may be missing, or with a rejection. *)
Inductive reply : Type :=
  | Responded (response_text : option string)
  | Rejected.

Definition fallback : string :=
  "I'm sorry, I couldn't generate a response. Please try again.".

Definition offline : string := "Service temporarily offline. Check connection.".

(** [return response.text || fallback] *)
Definition askTutoring (response_text : option string) : string :=
  item_or response_text fallback.

Inductive event : Type :=
  | Select (cid : string)   (* a click on a topic *)
  | Type_ (value : string)  (* the input's change *)
  | Ask                     (* the form's submit *)
  | Settle (r : reply).     (* the pending call settles *)

(** [concepts.find(c => c.id === selectedConceptId)] *)
Definition selectedConcept (concepts : list Concept) (st : State) : option Concept :=
  match selectedConceptId st with
  | Some cid => find_first (fun c => String.eqb (id c) cid) concepts
  | None => None
  end.

(** [handleAsk] up to its [await]. *)
Definition handleAsk (concepts : list Concept) (st : State) : State :=
  if blank (input st) || loading st then st
  else
    match selectedConcept concepts st with
    | None => st
    | Some _ =>
        {| selectedConceptId := selectedConceptId st;
           messages := messages st ++ [{| role := asker; text := input st |}];
           input := EmptyString; loading := true |}
    end.

(** [handleAsk] from its [await] on.  A call is pending exactly while
    [loading] is set. *)
Definition settle (r : reply) (st : State) : State :=
  if loading st then
    {| selectedConceptId := selectedConceptId st;
       messages :=
         messages st ++
         [{| role := ai;
             text := match r with
                     | Responded response_text => askTutoring response_text
                     | Rejected => offline
                     end |}];
       input := input st; loading := false |}
  else st.

Definition step (concepts : list Concept) (st : State) (ev : event) : State :=
  match ev with
  | Select cid =>
      {| selectedConceptId := Some cid; messages := messages st;
         input := input st; loading := loading st |}
  | Type_ value =>
      {| selectedConceptId := selectedConceptId st; messages := messages st;
         input := value; loading := loading st |}
  | Ask => handleAsk concepts st
  | Settle r => settle r st
  end.

Definition run (concepts : list Concept) (evs : list event) : State :=
  fold_left (step concepts) evs (initial concepts).

(** The transcript alternates, the first message being a question; a call
    is pending exactly after a question; questions are not blank and
    answers are not empty. *)
Definition transcript_ok (st : State) : Prop :=
  (forall i m, messages st !! i = Some m ->
     role m = if Nat.even i then asker else ai)
  /\ loading st = Nat.odd (length (messages st))
  /\ (forall m, m ∈ messages st ->
        match role m with
        | asker => blank (text m) = false
        | ai => text m <> EmptyString
        end).

End TutorChat.

(** ** The exam clock of the first generation's [QuizView] *)

Module Clock.

(** [s < 10 ? '0' : ''] followed by [s]. *)
Definition seconds_text (s : Z) : JSON.chars :=
  (if s <? 10 then ["0"%char] else []) ++ JSON.print_Z s.

(** [formatTime]: [Math.floor(seconds / 60)], [seconds % 60] and the
    template string. *)
Definition formatTime (seconds : Z) : string :=
  let m := seconds / 60 in
  let s := Z.rem seconds 60 in
  string_of_list_ascii (JSON.print_Z m ++ ":"%char :: seconds_text s).

End Clock.

(** ** A sample sheet for the worked examples *)

Module SampleSheet.
Import ConceptsView.

(** A concept that links to a concept of the sheet and to one that the
    sheet does not have. *)
Definition heat : Concept :=
  {| id := "c1"; term := "Heat"; explanation := "Energy in transit.";
     testLikelihood := High; relatedConceptIds := ["c2"; "c9"] |}.

Definition work : Concept :=
  {| id := "c2"; term := "Work"; explanation := "Force along a path.";
     testLikelihood := Medium; relatedConceptIds := ["c1"] |}.

Definition concepts : list Concept := [heat; work].

(** A question, an answer, a second question while the first is pending
    (ignored), and a rejected call. *)
Definition chat : list TutorChat.event :=
  [TutorChat.Type_ "Why?"; TutorChat.Ask; TutorChat.Type_ "And?"; TutorChat.Ask;
   TutorChat.Settle (TutorChat.Responded (Some "Because."));
   TutorChat.Ask; TutorChat.Settle TutorChat.Rejected].

End SampleSheet.

(** * Properties *)

(** ** The text codec: [JSON.parse] inverts [JSON.stringify] *)

Module JSONFacts.

Lemma scan_chars_of_uint (d : Decimal.uint) (rest : chars) :
  value_end rest = true ->
  scan_digits (chars_of_uint d ++ rest) = (d, rest).
Proof.
  intros Hend. induction d; simpl; try (rewrite IHd; reflexivity).
  destruct rest as [|c rest]; [reflexivity|].
  simpl in Hend. unfold is_digit in Hend. simpl.
  destruct (digit_of_char c); [discriminate | reflexivity].
Qed.

Lemma int_ok_to_uint (n : N) : int_ok (N.to_uint n) = true.
Proof.
  pose proof (DecimalN.Unsigned.to_of (N.to_uint n)) as H.
  rewrite DecimalN.Unsigned.of_to in H.
  destruct (N.to_uint n) as [|d| | | | | | | | |] eqn:E; try reflexivity.
  - exfalso. symmetry in H. revert H. apply unorm_nonnil.
  - destruct d; try reflexivity; exfalso; rewrite unorm_D0 in H;
      match type of H with
      | _ = Decimal.unorm ?u =>
          assert (Hn : (Decimal.nb_digits (Decimal.unorm u) <= Decimal.nb_digits u)%nat)
            by (apply nb_digits_unorm; discriminate);
          rewrite <- H in Hn; simpl in Hn; lia
      end.
Qed.

Lemma parse_nat_print (n : N) (rest : chars) :
  value_end rest = true ->
  parse_nat (chars_of_uint (N.to_uint n) ++ rest) = Some (n, rest).
Proof.
  intros Hend. unfold parse_nat. rewrite scan_chars_of_uint by assumption.
  rewrite int_ok_to_uint, DecimalN.Unsigned.of_to.
  destruct rest as [|c rest]; [reflexivity|].
  simpl in Hend. apply andb_prop in Hend as [_ Hend].
  simpl. rewrite Hend. reflexivity.
Qed.

Lemma uint_head_not_minus (d : Decimal.uint) (rest : chars) :
  int_ok d = true ->
  exists c tl, chars_of_uint d ++ rest = c :: tl /\ is_digit c = true.
Proof.
  destruct d; simpl; try discriminate; intros _; eexists _, _; split; reflexivity.
Qed.

Lemma parse_number_print (z : Z) (rest : chars) :
  value_end rest = true ->
  parse_number (print_Z z ++ rest) = Some (z, rest).
Proof.
  intros Hend. unfold print_Z.
  destruct (Z.ltb_spec z 0) as [Hneg|Hpos]; simpl.
  - rewrite parse_nat_print by assumption. f_equal. f_equal. lia.
  - destruct (uint_head_not_minus (N.to_uint (Z.abs_N z)) rest (int_ok_to_uint _))
      as (c & tl & Heq & Hdig).
    pose proof (parse_nat_print (Z.abs_N z) rest Hend) as Hp.
    rewrite Heq in *. unfold parse_number.
    destruct (Ascii.eqb_spec c "-"%char) as [->|Hne]; [discriminate|].
    assert (Hc : forall (A : Type) (x y : A),
      match c with "-"%char => x | _ => y end = y).
    { intros A x y.
      destruct c as [[] [] [] [] [] [] [] []]; try reflexivity. congruence. }
    rewrite Hc, Hp. f_equal. f_equal. lia.
Qed.

Lemma parse_escape_char (c : ascii) (tail : chars) :
  parse_string_body (escape_char c ++ tail) =
  match parse_string_body tail with
  | Some (cs, r) => Some (c :: cs, r)
  | None => None
  end.
Proof. each_ascii c; reflexivity. Qed.

Lemma parse_string_body_quote (cs : list ascii) (rest : chars) :
  parse_string_body (flat_map escape_char cs ++ dquote :: rest) = Some (cs, rest).
Proof.
  induction cs as [|c cs IH]; [reflexivity|].
  simpl flat_map. rewrite <- app_assoc, parse_escape_char, IH. reflexivity.
Qed.

Lemma quote_app (s : string) (rest : chars) :
  quote s ++ rest =
  dquote :: flat_map escape_char (list_ascii_of_string s) ++ dquote :: rest.
Proof. unfold quote. simpl. rewrite <- app_assoc. reflexivity. Qed.

Lemma is_digit_not_ws (c : ascii) : is_digit c = true -> is_ws c = false.
Proof. each_ascii c; intros H; try reflexivity; discriminate H. Qed.

Lemma print_Z_head (z : Z) (rest : chars) :
  exists c tl, print_Z z ++ rest = c :: tl /\ (c = "-"%char \/ is_digit c = true).
Proof.
  unfold print_Z. destruct (z <? 0).
  - eexists _, _. split; [reflexivity | left; reflexivity].
  - destruct (uint_head_not_minus (N.to_uint (Z.abs_N z)) rest (int_ok_to_uint _))
      as (c & tl & Heq & Hdig).
    exists c, tl. split; [assumption | right; assumption].
Qed.

Lemma print_head (v : json) (rest : chars) :
  exists c tl, print v ++ rest = c :: tl /\ value_start c = true.
Proof.
  destruct v as [| [] | z | s | elems | members];
    try (eexists _, _; split; reflexivity).
  destruct (print_Z_head z rest) as (c & tl & Heq & [-> | Hd]).
  - exists "-"%char, tl. split; [assumption | reflexivity].
  - exists c, tl. split; [assumption|].
    clear Heq. each_ascii c; try reflexivity; discriminate Hd.
Qed.

Lemma skip_ws_start (c : ascii) (tl : chars) :
  value_start c = true -> skip_ws (c :: tl) = c :: tl.
Proof.
  unfold value_start. intros H. simpl.
  destruct (is_ws c); [discriminate | reflexivity].
Qed.

Lemma parse_value_number (fuel : nat) (c : ascii) (tl : chars) :
  c = "-"%char \/ is_digit c = true ->
  parse_value (S fuel) (c :: tl) =
  match parse_number (c :: tl) with
  | Some (z, r) => Some (JNum z, r)
  | None => None
  end.
Proof.
  intros [-> | H]; [reflexivity|].
  each_ascii c; try discriminate H; reflexivity.
Qed.

Lemma parse_elements_print (vs : list json) :
  Forall reads_back vs ->
  forall v fuel rest,
    reads_back v ->
    (elements_cost (v :: vs) <= fuel)%nat ->
    parse_elements fuel
      (print v ++ flat_map (fun q => ","%char :: q) (List.map print vs)
               ++ "]"%char :: rest)
    = Some (v :: vs, rest).
Proof.
  induction 1 as [|v' vs Hv' Hvs IH]; intros v fuel rest Hv Hfuel;
    unfold elements_cost in Hfuel; simpl in Hfuel;
    (destruct fuel as [|fuel]; [lia|]); simpl parse_elements.
  - rewrite Hv by (simpl; (lia || reflexivity)). reflexivity.
  - simpl flat_map. rewrite <- !app_assoc. simpl app at 2.
    rewrite Hv by (simpl; (lia || reflexivity)).
    rewrite (skip_ws_start ","%char _ eq_refl). cbv beta iota.
    rewrite Ascii.eqb_refl.
    destruct (print_head v' (flat_map (fun q => ","%char :: q) (List.map print vs)
                               ++ "]"%char :: rest)) as (c & tl & Heq & Hc).
    rewrite Heq, (skip_ws_start _ _ Hc), <- Heq.
    rewrite IH; [reflexivity | assumption |].
    unfold elements_cost. simpl. lia.
Qed.

Lemma skip_ws_nonws (c : ascii) (tl : chars) :
  is_ws c = false -> skip_ws (c :: tl) = c :: tl.
Proof. intros H. simpl. rewrite H. reflexivity. Qed.

Lemma parse_members_step (fuel : nat) (k : string) (v : json) (tail : chars) :
  reads_back v -> (size v <= fuel)%nat -> value_end tail = true ->
  parse_members (S fuel) (print_member (k, v) ++ tail) =
  match skip_ws tail with
  | c :: r =>
      if Ascii.eqb c "," then
        match parse_members fuel (skip_ws r) with
        | Some (ms, r') => Some ((k, v) :: ms, r')
        | None => None
        end
      else if Ascii.eqb c "}" then Some ([(k, v)], r)
      else None
  | [] => None
  end.
Proof.
  intros Hv Hfuel Hend.
  unfold print_member. simpl fst. simpl snd.
  rewrite <- app_assoc, quote_app. simpl parse_members.
  rewrite parse_string_body_quote, string_of_list_ascii_of_string.
  rewrite (skip_ws_nonws ":"%char _ eq_refl). cbv beta iota.
  rewrite Ascii.eqb_refl.
  destruct (print_head v tail) as (c & tl & Heq & Hc).
  simpl app. rewrite Heq, (skip_ws_start _ _ Hc), <- Heq.
  rewrite Hv by assumption. reflexivity.
Qed.

Lemma print_member_head (kv : string * json) (rest : chars) :
  skip_ws (print_member kv ++ rest) = print_member kv ++ rest.
Proof. reflexivity. Qed.

Lemma parse_members_print (ms : list (string * json)) :
  Forall (fun kv => reads_back (snd kv)) ms ->
  forall kv fuel rest,
    reads_back (snd kv) ->
    (members_cost (kv :: ms) <= fuel)%nat ->
    parse_members fuel
      (print_member kv ++ flat_map (fun q => ","%char :: q) (List.map print_member ms)
                       ++ "}"%char :: rest)
    = Some (kv :: ms, rest).
Proof.
  induction 1 as [|kv' ms Hkv' Hms IH]; intros [k v] fuel rest Hv Hfuel;
    unfold members_cost in Hfuel; simpl in Hfuel, Hv;
    (destruct fuel as [|fuel]; [lia|]).
  - rewrite parse_members_step by (assumption || lia || reflexivity).
    reflexivity.
  - cbn [flat_map List.map app]. rewrite <- !app_assoc.
    rewrite parse_members_step by (assumption || lia || reflexivity).
    rewrite (skip_ws_nonws ","%char _ eq_refl). cbv beta iota.
    rewrite Ascii.eqb_refl, print_member_head.
    rewrite IH; [reflexivity | assumption |].
    unfold members_cost. simpl. lia.
Qed.

Lemma print_obj_cons (kv : string * json) (ms : list (string * json)) (rest : chars) :
  print (JObj (kv :: ms)) ++ rest =
  "{"%char :: print_member kv
    ++ flat_map (fun q => ","%char :: q) (List.map print_member ms)
    ++ "}"%char :: rest.
Proof.
  change (print (JObj (kv :: ms))) with
    ("{"%char :: (print_member kv
        ++ flat_map (fun q => ","%char :: q) (List.map print_member ms))
        ++ ["}"%char]).
  rewrite <- app_comm_cons. f_equal. rewrite <- !app_assoc. reflexivity.
Qed.

Lemma parse_value_obj (fuel : nat) (kv : string * json) (r : chars) :
  parse_value (S fuel) ("{"%char :: print_member kv ++ r) =
  match parse_members fuel (print_member kv ++ r) with
  | Some (ms, r') => Some (JObj ms, r')
  | None => None
  end.
Proof. reflexivity. Qed.

Theorem parse_value_print (v : json) : reads_back v.
Proof.
  induction v as [| b | z | s | elems IH | members IH] using json_ind;
    intros fuel rest Hfuel Hend;
    (destruct fuel as [|fuel]; [simpl in Hfuel; lia|]).
  - reflexivity.
  - destruct b; reflexivity.
  - simpl print.
    destruct (print_Z_head z rest) as (c & tl & Heq & Hc).
    pose proof (parse_number_print z rest Hend) as Hp.
    rewrite Heq in *. rewrite (parse_value_number _ _ _ Hc), Hp. reflexivity.
  - simpl print. rewrite quote_app. simpl parse_value.
    rewrite parse_string_body_quote, string_of_list_ascii_of_string.
    reflexivity.
  - destruct IH as [|v vs Hv Hvs]; [reflexivity|].
    simpl print. unfold join. simpl List.map. cbv beta iota.
    simpl parse_value.
    rewrite <- !app_assoc.
    match goal with
    | |- context [skip_ws (print v ++ ?r)] =>
        destruct (print_head v r) as (c & tl & Heq & Hc);
        rewrite Heq, (skip_ws_start _ _ Hc)
    end.
    assert (Hnb : Ascii.eqb c "]" = false).
    { unfold value_start in Hc. destruct (Ascii.eqb c "]"); [|reflexivity].
      rewrite andb_false_r in Hc. discriminate. }
    rewrite Hnb, <- Heq.
    simpl app.
    rewrite parse_elements_print; [reflexivity | assumption | assumption |].
    simpl in Hfuel. unfold elements_cost. simpl. lia.
  - destruct IH as [|kv ms Hkv Hms]; [reflexivity|].
    rewrite print_obj_cons, parse_value_obj.
    rewrite parse_members_print; [reflexivity | assumption | assumption |].
    simpl in Hfuel. unfold members_cost. simpl. lia.
Qed.

Lemma print_Z_nonnil (z : Z) : (1 <= length (print_Z z))%nat.
Proof.
  destruct (print_Z_head z []) as (c & tl & Heq & _).
  rewrite app_nil_r in Heq. rewrite Heq. simpl. lia.
Qed.

Lemma elements_cost_length (vs : list json) :
  Forall (fun x => (size x <= length (print x))%nat) vs ->
  (elements_cost vs <=
   length (flat_map (fun q => ","%char :: q) (List.map print vs)))%nat.
Proof.
  unfold elements_cost. induction 1 as [|v vs Hv _ IH]; [reflexivity|].
  cbn [flat_map List.map app]. simpl list_sum.
  rewrite length_cons, length_app. lia.
Qed.

Lemma members_cost_length (ms : list (string * json)) :
  Forall (fun kv => (size (snd kv) <= length (print (snd kv)))%nat) ms ->
  (members_cost ms <=
   length (flat_map (fun q => ","%char :: q) (List.map print_member ms)))%nat.
Proof.
  unfold members_cost. induction 1 as [|kv ms Hkv _ IH]; [reflexivity|].
  cbn [flat_map List.map app]. simpl list_sum.
  rewrite length_cons, length_app. unfold print_member at 1. rewrite length_app, length_cons. lia.
Qed.

Lemma size_le_length (v : json) : (size v <= length (print v))%nat.
Proof.
  induction v as [| b | z | s | elems IH | members IH] using json_ind.
  - simpl. lia.
  - destruct b; simpl; lia.
  - apply print_Z_nonnil.
  - unfold print, quote. rewrite length_cons. simpl. lia.
  - destruct IH as [|v vs Hv Hvs]; [simpl; lia|].
    pose proof (elements_cost_length vs Hvs) as Hc.
    change (print (JArr (v :: vs))) with
      ("["%char :: (print v
         ++ flat_map (fun q => ","%char :: q) (List.map print vs)) ++ ["]"%char]).
    change (size (JArr (v :: vs))) with (S (S (size v) + elements_cost vs))%nat.
    rewrite length_cons, !length_app. simpl length. lia.
  - destruct IH as [|kv ms Hkv Hms]; [simpl; lia|].
    pose proof (members_cost_length ms Hms) as Hc.
    change (print (JObj (kv :: ms))) with
      ("{"%char :: (print_member kv
         ++ flat_map (fun q => ","%char :: q) (List.map print_member ms))
         ++ ["}"%char]).
    change (size (JObj (kv :: ms))) with (S (S (size (snd kv)) + members_cost ms))%nat.
    rewrite length_cons, !length_app. unfold print_member at 1.
    rewrite length_app, length_cons. simpl length. lia.
Qed.

Lemma parse_exact_stringify (v : json) : JSON.parse_exact (JSON.stringify v) = Some v.
Proof.
  unfold JSON.parse_exact, JSON.stringify.
  rewrite list_ascii_of_string_of_list_ascii.
  destruct (print_head v []) as (c & tl & Heq & Hc).
  rewrite app_nil_r in Heq.
  assert (Hskip : skip_ws (print v) = print v)
    by (rewrite Heq; apply skip_ws_start; assumption).
  rewrite Hskip.
  pose proof (parse_value_print v (S (length (print v))) []) as Hp.
  rewrite app_nil_r in Hp. rewrite Hp; [reflexivity | | reflexivity].
  pose proof (size_le_length v). lia.
Qed.

(** [JSON.parse (JSON.stringify v)] gives back [v]. *)
Theorem parse_stringify (v : json) : JSON.parse (JSON.stringify v) = Parsed v.
Proof. unfold JSON.parse. rewrite parse_exact_stringify. reflexivity. Qed.

(** The parser on a few texts. *)
Example parse_nested :
  JSON.parse "[1, -20, true, null, [], {}, [[0]]]"
  = Parsed (JArr [JNum 1; JNum (-20); JBool true; JNull; JArr []; JObj [];
                  JArr [JArr [JNum 0]]]).
Proof. reflexivity. Qed.

Example parse_rejects :
  JSON.parse "{oops" = Malformed /\ JSON.parse "[1,,2]" = Malformed
  /\ JSON.parse "[1 2]" = Malformed /\ JSON.parse "01" = Malformed
  /\ JSON.parse "nul" = Malformed /\ JSON.parse EmptyString = Malformed
  /\ JSON.parse "[1] x" = Malformed /\ JSON.parse "1." = Malformed
  /\ JSON.parse "[1.5" = Malformed.
Proof. repeat split. Qed.

(** Texts of the grammar whose values the model does not represent. *)
Example parse_unrepresented :
  JSON.parse "[1.5]" = Unrepresented /\ JSON.parse "1e3" = Unrepresented
  /\ JSON.parse "-0.5E-2" = Unrepresented
  /\ JSON.parse (string_of_list_ascii (dquote :: lit "\u0100" ++ [dquote]))
     = Unrepresented.
Proof. repeat split. Qed.

Example stringify_record :
  JSON.stringify (Basic.encode_record (Basic.Build_QuizRecord "d" 1 3))
  = string_of_list_ascii
      (lit "{" ++ dquote :: lit "date" ++ dquote :: lit ":" ++ dquote :: lit "d"
       ++ dquote :: lit "," ++ dquote :: lit "score" ++ dquote :: lit ":1,"
       ++ dquote :: lit "total" ++ dquote :: lit ":3}").
Proof. reflexivity. Qed.

End JSONFacts.

(** ** The typed views invert the encoders *)

Module CodecFacts.

Lemma as_array_encode {A : Type} (enc : A -> json) (dec : json -> option A) (l : list A) :
  (forall x, dec (enc x) = Some x) ->
  as_array dec (JArr (enc <$> l)) = Some l.
Proof. intros Hx. simpl. apply mapM_fmap_Some. exact Hx. Qed.

Lemma as_array_strings (l : list string) : as_array as_string (JArr (JStr <$> l)) = Some l.
Proof. apply as_array_encode. reflexivity. Qed.

Lemma as_level_of_level (l : JS.level) : as_level (of_level l) = Some l.
Proof. destruct l; reflexivity. Qed.

Lemma as_record_of_record (m : gmap string JS.level) :
  as_record (of_record m) = Some m.
Proof.
  unfold as_record, of_record.
  rewrite <- fmap_reverse.
  rewrite (mapM_fmap_Some _ (fun kv : string * JS.level => (fst kv, of_level (snd kv))))
    by (intros [k l]; simpl; rewrite as_level_of_level; reflexivity).
  simpl. f_equal.
  rewrite <- (list_to_map_to_list m) at 2.
  symmetry. apply list_to_map_proper.
  - apply NoDup_fst_map_to_list.
  - symmetry. apply reverse_Permutation.
Qed.

Lemma basic_record (r : Basic.QuizRecord) :
  Basic.decode_record (Basic.encode_record r) = Some r.
Proof. destruct r. reflexivity. Qed.

Lemma basic_user_fields (i n w h : json) :
  Basic.decode_user
    (JObj [("id", i); ("username", n); ("weakAreas", w); ("quizHistory", h)]) =
  i' ← as_string i; n' ← as_string n;
  w' ← as_array as_string w; h' ← as_array Basic.decode_record h;
  Some {| Basic.id := i'; Basic.username := n';
          Basic.weakAreas := w'; Basic.quizHistory := h' |}.
Proof. reflexivity. Qed.

Lemma basic_user (u : Basic.User) : Basic.decode_user (Basic.encode_user u) = Some u.
Proof.
  destruct u as [i n w h]. unfold Basic.encode_user. rewrite basic_user_fields.
  cbn [Basic.id Basic.username Basic.weakAreas Basic.quizHistory as_string].
  rewrite as_array_strings, (as_array_encode _ _ _ basic_record). reflexivity.
Qed.

#[global] Instance basic_laws : StoredLaws Basic.User.
Proof. exact basic_user. Qed.

Lemma extended_record (r : Extended.QuizRecord) :
  Extended.decode_record (Extended.encode_record r) = Some r.
Proof. destruct r. reflexivity. Qed.

Lemma extended_profile (p : Extended.UserProfile) :
  Extended.decode_profile (Extended.encode_profile p) = Some p.
Proof. destruct p as [s a [] [] [e|] [d|]]; reflexivity. Qed.

Lemma extended_user_fields (i n p w h l c : json) :
  Extended.decode_user
    (JObj [("id", i); ("username", n); ("profile", p); ("weakAreas", w);
           ("quizHistory", h); ("library", l); ("conceptMastery", c)]) =
  i' ← as_string i; n' ← as_string n; p' ← Extended.decode_profile p;
  w' ← as_array as_string w; h' ← as_array Extended.decode_record h;
  l' ← as_array as_string l; c' ← as_record c;
  Some {| Extended.id := i'; Extended.username := n'; Extended.profile := p';
          Extended.weakAreas := w'; Extended.quizHistory := h';
          Extended.library := l'; Extended.conceptMastery := c' |}.
Proof. reflexivity. Qed.

Lemma extended_user (u : Extended.User) :
  Extended.decode_user (Extended.encode_user u) = Some u.
Proof.
  destruct u as [i n p w h l c]. unfold Extended.encode_user.
  rewrite extended_user_fields.
  cbn [Extended.id Extended.username Extended.profile Extended.weakAreas
       Extended.quizHistory Extended.library Extended.conceptMastery as_string].
  rewrite extended_profile, !as_array_strings,
    (as_array_encode _ _ _ extended_record), as_record_of_record.
  reflexivity.
Qed.

#[global] Instance extended_laws : StoredLaws Extended.User.
Proof. exact extended_user. Qed.

End CodecFacts.

(** ** The store *)

Module DBFacts.

Lemma stringify_nonempty (v : json) : String.eqb (JSON.stringify v) EmptyString = false.
Proof.
  unfold JSON.stringify.
  destruct (JSONFacts.print_head v []) as (c & tl & Heq & _).
  rewrite app_nil_r in Heq. rewrite Heq. reflexivity.
Qed.

Lemma item_or_stringify (v : json) (dflt : string) :
  item_or (Some (JSON.stringify v)) dflt = JSON.stringify v.
Proof. unfold item_or. rewrite stringify_nonempty. reflexivity. Qed.

Lemma read_stringify {A : Type} (view : json -> option A) (v : json) (a : A) :
  view v = Some a -> DB.read view (JSON.stringify v) = Returns a.
Proof.
  intros Hv. unfold DB.read. rewrite JSONFacts.parse_stringify, Hv. reflexivity.
Qed.

Lemma findIndex_lower {A : Type} (p : A -> bool) (l : list A) : -1 <= findIndex p l.
Proof.
  induction l as [|x l IH]; simpl; [lia|].
  destruct (p x); [lia|]. destruct (Z.ltb_spec (findIndex p l) 0); lia.
Qed.

Lemma findIndex_none {A : Type} (p : A -> bool) (l : list A) :
  findIndex p l = -1 <-> Forall (fun x => p x = false) l.
Proof.
  induction l as [|x l IH]; simpl.
  - split; [constructor | reflexivity].
  - pose proof (findIndex_lower p l) as Hlow.
    destruct (p x) eqn:Hp.
    + split; [lia | intros HF; inversion HF; congruence].
    + destruct (Z.ltb_spec (findIndex p l) 0) as [Hneg|Hpos].
      * split; [|reflexivity]. intros _. constructor; [assumption|].
        apply IH. lia.
      * split; [lia|]. intros HF. inversion HF; subst.
        assert (findIndex p l = -1) by (apply IH; assumption). lia.
Qed.

Section Users.
Context {U : Type} `{Stored U} `{!StoredLaws U}.

(** The predicate of [findIndex] in [saveUser]. *)
Local Abbreviation same user := (fun u : U => String.eqb (identity u) (identity user)).

Lemma getUsers_written (users : list U) (ls : localStorage) :
  DB.getUsers (setItem "mp_users" (JSON.stringify (JArr (encode <$> users))) ls)
  = Returns users.
Proof.
  unfold DB.getUsers, getItem, setItem. rewrite lookup_insert_eq.
  rewrite item_or_stringify. apply read_stringify.
  apply CodecFacts.as_array_encode. exact decode_encode.
Qed.

Lemma getUsers_frame (key value : string) (ls : localStorage) :
  key <> "mp_users" ->
  DB.getUsers (U := U) (setItem key value ls) = DB.getUsers ls.
Proof.
  intros Hne. unfold DB.getUsers, getItem, setItem.
  rewrite lookup_insert_ne by assumption. reflexivity.
Qed.

Lemma getCurrentUser_cleared (ls : localStorage) :
  DB.getCurrentUser (U := U) (DB.setCurrentUser None ls) = Returns None.
Proof.
  unfold DB.getCurrentUser, DB.setCurrentUser, getItem, setItem.
  rewrite lookup_insert_eq. reflexivity.
Qed.

Lemma upsert_code (user : U) (users : list U) :
  (if findIndex (same user) users >? -1
   then <[Z.to_nat (findIndex (same user) users) := user]> users
   else users ++ [user])
  = upsert user users.
Proof.
  induction users as [|x l IH]; [reflexivity|].
  cbn [findIndex upsert]. cbv beta.
  destruct (String.eqb (identity x) (identity user)); [reflexivity|].
  pose proof (findIndex_lower (same user) l) as Hlow.
  destruct (Z.ltb_spec (findIndex (same user) l) 0) as [Hneg|Hpos].
  - assert (Hi : findIndex (same user) l = -1) by lia.
    rewrite Hi in IH. simpl in IH. simpl. rewrite IH. reflexivity.
  - destruct (Z.gtb_spec (findIndex (same user) l) (-1)) as [_|]; [|lia].
    destruct (Z.gtb_spec (findIndex (same user) l + 1) (-1)) as [_|]; [|lia].
    rewrite Z2Nat.inj_add, Nat.add_comm by lia. simpl. rewrite IH. reflexivity.
Qed.

Lemma saveUser_upsert (user : U) (users : list U) (ls : localStorage) :
  DB.getUsers ls = Returns users ->
  DB.saveUser user ls =
  Returns (setItem "mp_users" (JSON.stringify (JArr (encode <$> upsert user users))) ls).
Proof.
  intros Hread. unfold DB.saveUser. rewrite Hread. cbn [outcome_bind].
  rewrite upsert_code. reflexivity.
Qed.

Lemma upsert_append (user : U) (users : list U) :
  Forall (fun u => identity u <> identity user) users ->
  upsert user users = users ++ [user].
Proof.
  induction 1 as [|x l Hx _ IH]; [reflexivity|].
  simpl. apply String.eqb_neq in Hx. rewrite Hx, IH. reflexivity.
Qed.

Lemma upsert_replace (user x : U) (pre post : list U) :
  Forall (fun u => identity u <> identity user) pre ->
  identity x = identity user ->
  upsert user (pre ++ x :: post) = pre ++ user :: post.
Proof.
  intros Hpre Hx. induction Hpre as [|y l Hy _ IH]; simpl.
  - rewrite Hx, String.eqb_refl. reflexivity.
  - apply String.eqb_neq in Hy. rewrite Hy, IH. reflexivity.
Qed.

Lemma upsert_idempotent (user : U) (users : list U) :
  upsert user (upsert user users) = upsert user users.
Proof.
  induction users as [|x l IH]; simpl.
  - rewrite String.eqb_refl. reflexivity.
  - destruct (String.eqb (identity x) (identity user)) eqn:E; simpl.
    + rewrite String.eqb_refl. reflexivity.
    + rewrite E, IH. reflexivity.
Qed.

Lemma find_upsert (user : U) (users : list U) :
  find_first (fun u => String.eqb (identity u) (identity user)) (upsert user users)
  = Some user.
Proof.
  unfold find_first. induction users as [|x l IH]; simpl.
  - rewrite String.eqb_refl. reflexivity.
  - destruct (String.eqb (identity x) (identity user)) eqn:E; simpl.
    + rewrite String.eqb_refl. reflexivity.
    + rewrite E. exact IH.
Qed.

(** After a successful save the store holds the saved record. *)
Lemma persisted_saved (user : U) (ls ls' : localStorage) :
  DB.saveUser user ls = Returns ls' ->
  persisted (identity user) ls' = Some user.
Proof.
  unfold DB.saveUser. destruct (DB.getUsers ls) as [users| | |] eqn:Hread;
    cbn [outcome_bind]; [|discriminate..].
  rewrite upsert_code. intros [= <-].
  unfold persisted. rewrite getUsers_written. apply find_upsert.
Qed.

(** A save goes through exactly when the user list can be read. *)
Lemma saveUser_returns (user : U) (ls : localStorage) (users : list U) :
  DB.getUsers ls = Returns users -> exists ls', DB.saveUser user ls = Returns ls'.
Proof. intros Hread. rewrite (saveUser_upsert _ _ _ Hread). eauto. Qed.

End Users.

End DBFacts.

(** ** The quiz view: score and adjustments as functions of the graded answers *)

Module QuizFacts.

Lemma correct_count_app (l1 l2 : list answered) :
  correct_count (l1 ++ l2) = correct_count l1 + correct_count l2.
Proof. unfold correct_count. rewrite filter_app, length_app. lia. Qed.


(** Closes the cases of a handler that leave the tallies as they are. *)
Ltac settle :=
  intros; simpl; unfold correct_count; simpl; repeat split; intros;
  simplify_eq/=; first [reflexivity | lia].

Section Extended.
Import Extended Extended.QuizView.
Variable questions : list QuizQuestion.

Lemma step_tally (ev : event) (st st' : State) (done : option (Z * gmap string JS.value)) :
  step questions ev st = (st', done) ->
  score st' = score st + correct_count (observed questions ev st)
  /\ masteries st' = fold_left adjust (observed questions ev st) (masteries st)
  /\ (forall s m, done = Some (s, m) -> s = score st' /\ m = masteries st').
Proof.
  unfold step, observed, can_submit, handleSubmit, next.
  destruct (current questions st) as [cur|] eqn:Hcur.
  - destruct ev as [text | [result|] | | ].
    + intros [= <- <-]. settle.
    + destruct (feedback st); simpl; [intros [= <- <-]; settle|].
      destruct (blank (answer st) || loading st); simpl; [intros [= <- <-]; settle|].
      unfold adjust. destruct (isCorrect result); intros [= <- <-]; settle.
    + destruct (feedback st); simpl; [intros [= <- <-]; settle|].
      destruct (blank (answer st) || loading st); simpl; intros [= <- <-]; settle.
    + destruct (feedback st); [|intros [= <- <-]; settle].
      destruct (Z.of_nat (index st) <? Z.of_nat (length questions) - 1);
        intros [= <- <-]; settle.
    + intros [= <- <-]. settle.
  - destruct ev as [text | [result|] | | ]; intros [= <- <-]; settle.
Qed.

Lemma run_tally (evs : list event) :
  forall (st st' : State) (done : option (Z * gmap string JS.value)),
    run questions evs st = (st', done) ->
    score st' = score st + correct_count (outcomes questions evs st)
    /\ masteries st' = fold_left adjust (outcomes questions evs st) (masteries st)
    /\ (forall s m, done = Some (s, m) -> s = score st' /\ m = masteries st').
Proof.
  induction evs as [|ev evs IH]; intros st st' done; simpl.
  - intros [= <- <-]. settle.
  - destruct (step questions ev st) as [st1 [d1|]] eqn:Hstep;
      destruct (step_tally _ _ _ _ Hstep) as (Hs & Hm & Hd).
    + intros [= <- <-]. rewrite app_nil_r. split; [|split]; assumption.
    + intros Hrun. destruct (IH _ _ _ Hrun) as (Hs' & Hm' & Hd').
      rewrite correct_count_app, fold_left_app, <- Hm.
      split; [|split]; (assumption || lia).
Qed.

Lemma session_tally (evs : list event) (s : Z) (m : gmap string JS.value) :
  session questions evs = Some (s, m) ->
  s = correct_count (session_outcomes questions evs)
  /\ m = tally (session_outcomes questions evs).
Proof.
  unfold session, session_outcomes, tally.
  destruct (run questions evs initial) as [st' done] eqn:Hrun. simpl.
  intros ->. destruct (run_tally _ _ _ _ Hrun) as (Hs & Hm & Hd).
  destruct (Hd s m eq_refl) as [-> ->]. split; [exact Hs | exact Hm].
Qed.

End Extended.

Section Basic.
Import Basic Basic.QuizView.
Variable questions : list QuizQuestion.
Variable isExam : bool.

Lemma basic_step_score (ev : event) (st st' : State) (done : option Z) :
  step questions isExam ev st = (st', done) ->
  score st' = score st + correct_count (observed questions ev st)
  /\ (forall s, done = Some s -> s = score st').
Proof.
  unfold step, observed, can_submit, handleSubmit, handleNext, tick.
  destruct (currentQ questions st) as [cur|] eqn:Hcur.
  - destruct ev as [text | [res|] | | ].
    + destruct (feedback st); intros [= <- <-]; settle.
    + destruct (feedback st); simpl; [intros [= <- <-]; settle|].
      destruct (blank (userAnswer st)) eqn:Hb; simpl; [intros [= <- <-]; settle|].
      destruct (loadingFeedback st); simpl; [intros [= <- <-]; settle|].
      destruct (isCorrect res); intros [= <- <-]; settle.
    + destruct (feedback st); simpl; [intros [= <- <-]; settle|].
      destruct (blank (userAnswer st)) eqn:Hb; simpl; [intros [= <- <-]; settle|].
      destruct (loadingFeedback st); simpl; intros [= <- <-]; settle.
    + destruct (feedback st); [|intros [= <- <-]; settle].
      destruct (Z.of_nat (currentIdx st) <? Z.of_nat (length questions) - 1);
        intros [= <- <-]; settle.
    + destruct (isExam && (0 <? timeLeft st)); [|intros [= <- <-]; settle].
      destruct (timeLeft st <=? 1); intros [= <- <-]; settle.
  - destruct ev as [text | [res|] | | ]; intros [= <- <-]; settle.
Qed.

Lemma basic_run_score (evs : list event) :
  forall (st st' : State) (done : option Z),
    run questions isExam evs st = (st', done) ->
    score st' = score st + correct_count (outcomes questions isExam evs st)
    /\ (forall s, done = Some s -> s = score st').
Proof.
  induction evs as [|ev evs IH]; intros st st' done; simpl.
  - intros [= <- <-]. settle.
  - destruct (step questions isExam ev st) as [st1 [d1|]] eqn:Hstep;
      destruct (basic_step_score _ _ _ _ Hstep) as (Hs & Hd).
    + intros [= <- <-]. rewrite app_nil_r. split; assumption.
    + intros Hrun. destruct (IH _ _ _ Hrun) as (Hs' & Hd').
      rewrite correct_count_app. split; (assumption || lia).
Qed.

Lemma basic_session_score (evs : list event) (s : Z) :
  session questions isExam evs = Some s ->
  s = correct_count (session_outcomes questions isExam evs).
Proof.
  unfold session, session_outcomes.
  destruct (run questions isExam evs (initial questions isExam)) as [st' done] eqn:Hrun.
  simpl. intros ->. destruct (basic_run_score _ _ _ _ Hrun) as (Hs & Hd).
  rewrite (Hd s eq_refl). simpl in Hs. exact Hs.
Qed.

End Basic.

End QuizFacts.

(** ** Mastery: the session's adjustments and their merge into the user *)

Module MasteryFacts.
Import Extended Extended.QuizView.

(** The value under [cid] counts answers: it is a number that is not
    negative. *)
Local Abbreviation counted m cid :=
  (forall v : JS.value, m !! cid = Some v -> exists z, v = JS.Num z /\ 0 <= z).

Lemma proto_inherited : "__proto__" ∈ JS.inherited.
Proof. unfold JS.inherited. do 11 right. left. Qed.

Lemma ordinary_not_proto (cid : string) : cid ∉ JS.inherited -> cid <> "__proto__".
Proof. intros Hn ->. apply Hn, proto_inherited. Qed.

(** *** Reads *)

Lemma reading_ext (m1 m2 : gmap string JS.level) (cid : string) :
  m1 !! cid = m2 !! cid -> reading m1 cid = reading m2 cid.
Proof. intros Heq. unfold reading, JS.get. rewrite Heq. reflexivity. Qed.

(** Under a name that no object inherits, the stored mastery reads as a
    number: its value, or 0 when it is absent or not a number. *)
Lemma reading_ordinary (cm : gmap string JS.level) (cid : string) :
  cid ∉ JS.inherited ->
  reading cm cid =
  JS.Num match cm !! cid with
         | Some (JS.Percent z) => z
         | _ => 0
         end.
Proof.
  intros Hord. unfold reading, JS.get.
  destruct (cm !! cid) as [[z|]|]; [reflexivity..|].
  rewrite bool_decide_eq_false_2 by assumption. reflexivity.
Qed.

Lemma running_ordinary (m : gmap string JS.value) (cid : string) :
  cid ∉ JS.inherited -> counted m cid ->
  exists z,
    running m cid = JS.Num z /\ 0 <= z
    /\ m !! cid = (if bool_decide (m !! cid = None) then None else Some (JS.Num z))
    /\ (m !! cid = None -> z = 0).
Proof.
  intros Hord Hm. unfold running, JS.get.
  destruct (m !! cid) as [v|] eqn:E.
  - destruct (Hm v eq_refl) as (z & -> & Hz). exists z.
    rewrite bool_decide_eq_false_2 by discriminate.
    repeat split; [assumption | discriminate].
  - rewrite bool_decide_eq_false_2 by assumption. exists 0.
    rewrite bool_decide_eq_true_2 by reflexivity. repeat split; lia.
Qed.

(** *** The assignment of [onComplete] *)

Lemma lookup_set (key cid : string) (v : JS.level) (cm : gmap string JS.level) :
  JS.set key v cm !! cid =
  if decide (key = cid) then
    if String.eqb key "__proto__" && bool_decide (cm !! key = None) then None
    else Some v
  else cm !! cid.
Proof.
  unfold JS.set.
  destruct (String.eqb key "__proto__" && bool_decide (cm !! key = None)) eqn:E.
  - destruct (decide (key = cid)) as [<-|Hne]; [|reflexivity].
    apply andb_true_iff in E as [_ E]. apply bool_decide_eq_true in E. exact E.
  - rewrite lookup_insert. destruct (decide (key = cid)); reflexivity.
Qed.

Lemma lookup_set_ne (key cid : string) (v : JS.level) (cm : gmap string JS.level) :
  key <> cid -> JS.set key v cm !! cid = cm !! cid.
Proof. intros Hne. rewrite lookup_set. destruct (decide (key = cid)); congruence. Qed.

Lemma lookup_set_ordinary (cid : string) (v : JS.level) (cm : gmap string JS.level) :
  cid <> "__proto__" -> JS.set cid v cm !! cid = Some v.
Proof.
  intros Hne. rewrite lookup_set. destruct (decide (cid = cid)); [|congruence].
  apply String.eqb_neq in Hne. rewrite Hne. reflexivity.
Qed.

Lemma set_ext (key : string) (v : JS.level) (m1 m2 : gmap string JS.level) :
  m1 !! key = m2 !! key -> JS.set key v m1 !! key = JS.set key v m2 !! key.
Proof. intros Heq. rewrite !lookup_set, Heq. reflexivity. Qed.

Lemma set_commute (j1 j2 : string) (v1 v2 : JS.level) (cm : gmap string JS.level) :
  j1 <> j2 -> JS.set j1 v1 (JS.set j2 v2 cm) = JS.set j2 v2 (JS.set j1 v1 cm).
Proof.
  intros Hne. apply map_eq. intros i.
  destruct (decide (j1 = i)) as [<-|H1]; [|destruct (decide (j2 = i)) as [<-|H2]].
  - rewrite (lookup_set j1 j1 v1 (JS.set j2 v2 cm)).
    rewrite (lookup_set_ne j2 j1 v2 cm) by congruence.
    rewrite (lookup_set_ne j2 j1 v2 (JS.set j1 v1 cm)) by congruence.
    rewrite lookup_set. reflexivity.
  - rewrite (lookup_set_ne j1 j2 v1 (JS.set j2 v2 cm)) by congruence.
    rewrite (lookup_set j2 j2 v2 (JS.set j1 v1 cm)).
    rewrite (lookup_set_ne j1 j2 v1 cm) by congruence.
    rewrite lookup_set. reflexivity.
  - rewrite !lookup_set_ne by assumption. reflexivity.
Qed.

Lemma merge_step_commute (j1 j2 : string) (z1 z2 : JS.value) (cm : gmap string JS.level) :
  j1 <> j2 ->
  JS.set j1
    (JS.min100
       (JS.add (reading (JS.set j2 (JS.min100 (JS.add (reading cm j2) z2)) cm) j1) z1))
    (JS.set j2 (JS.min100 (JS.add (reading cm j2) z2)) cm)
  = JS.set j2
      (JS.min100
         (JS.add (reading (JS.set j1 (JS.min100 (JS.add (reading cm j1) z1)) cm) j2) z2))
      (JS.set j1 (JS.min100 (JS.add (reading cm j1) z1)) cm).
Proof.
  intros Hne.
  rewrite (reading_ext (JS.set j2 _ cm) cm j1) by (apply lookup_set_ne; congruence).
  rewrite (reading_ext (JS.set j1 _ cm) cm j2) by (apply lookup_set_ne; congruence).
  apply set_commute, Hne.
Qed.

(** The merge, concept by concept. *)
Lemma merge_mastery_lookup (masteries : gmap string JS.value)
    (cm : gmap string JS.level) (cid : string) :
  merge_mastery masteries cm !! cid =
  match masteries !! cid with
  | Some increase =>
      JS.set cid (JS.min100 (JS.add (reading cm cid) increase)) cm !! cid
  | None => cm !! cid
  end.
Proof.
  unfold merge_mastery.
  induction masteries as [|k x m Hk IH] using map_ind.
  - rewrite map_fold_empty, lookup_empty. reflexivity.
  - rewrite map_fold_insert_L;
      [| intros; apply merge_step_commute; assumption | assumption].
    destruct (decide (k = cid)) as [->|Hne].
    + rewrite Hk in IH. rewrite lookup_insert_eq.
      rewrite (reading_ext _ cm cid IH). apply set_ext, IH.
    + rewrite lookup_set_ne, lookup_insert_ne by assumption. rewrite IH.
      destruct (m !! cid); [|reflexivity].
      rewrite !lookup_set. destruct (decide (cid = cid)); [reflexivity | congruence].
Qed.

(** Under a name that no object inherits, the merge stores the capped sum
    of two numbers. *)
Lemma merge_mastery_ordinary (masteries : gmap string JS.value)
    (cm : gmap string JS.level) (cid : string) :
  cid ∉ JS.inherited ->
  merge_mastery masteries cm !! cid =
  match masteries !! cid with
  | Some increase => Some (JS.min100 (JS.add (reading cm cid) increase))
  | None => cm !! cid
  end.
Proof.
  intros Hord. rewrite merge_mastery_lookup.
  destruct (masteries !! cid); [|reflexivity].
  apply lookup_set_ordinary, ordinary_not_proto, Hord.
Qed.

(** *** The session's adjustments *)

Lemma adjust_lookup (m : gmap string JS.value) (o : answered) (cid : string) :
  adjust m o !! cid =
  if decide (fst o = cid) then
    Some (if snd o then JS.add (running m cid) (JS.Num 10)
          else JS.max0 (JS.sub (running m cid) (JS.Num 5)))
  else m !! cid.
Proof.
  destruct o as [c b]. unfold adjust, raised, lowered. simpl.
  destruct b; rewrite lookup_insert; destruct (decide (c = cid)); subst; reflexivity.
Qed.

Lemma adjust_counted (m : gmap string JS.value) (o : answered) (cid : string) :
  cid ∉ JS.inherited -> counted m cid -> counted (adjust m o) cid.
Proof.
  intros Hord Hm v. rewrite adjust_lookup.
  destruct (decide (fst o = cid)) as [_|_]; [|apply Hm].
  destruct (running_ordinary m cid Hord Hm) as (z & -> & Hz & _).
  destruct (snd o); intros [= <-]; simpl; eexists; (split; [reflexivity | lia]).
Qed.

Lemma fold_adjust_counted (log : list answered) (cid : string) :
  cid ∉ JS.inherited ->
  forall m : gmap string JS.value, counted m cid -> counted (fold_left adjust log m) cid.
Proof.
  intros Hord. induction log as [|o log IH]; intros m Hm; simpl; [assumption|].
  apply IH, adjust_counted; assumption.
Qed.

(** Under a name that no object inherits, the adjustment of a session is a
    number that is not negative. *)
Lemma tally_counted (log : list answered) (cid : string) :
  cid ∉ JS.inherited -> counted (tally log) cid.
Proof.
  intros Hord. apply fold_adjust_counted; [assumption|].
  intros v Hv. rewrite lookup_empty in Hv. discriminate.
Qed.

Lemma fold_adjust_untouched (log : list answered) (m : gmap string JS.value)
    (cid : string) :
  cid ∉ (fst <$> log) -> fold_left adjust log m !! cid = m !! cid.
Proof.
  revert m. induction log as [|o log IH]; intros m Hnot; simpl; [reflexivity|].
  rewrite fmap_cons, not_elem_of_cons in Hnot. destruct Hnot as [Hne Hnot].
  rewrite IH by assumption. rewrite adjust_lookup.
  destruct (decide (fst o = cid)); [congruence | reflexivity].
Qed.

(** A concept without a graded answer has no adjustment. *)
Lemma tally_untouched (log : list answered) (cid : string) :
  cid ∉ (fst <$> log) -> tally log !! cid = None.
Proof.
  intros Hnot. unfold tally. rewrite fold_adjust_untouched by assumption.
  apply lookup_empty.
Qed.

End MasteryFacts.

(** ** Completing a quiz *)

Module SessionFacts.
Import Extended.

Lemma onComplete_saved (now : string) (s : Z) (masteries : gmap string JS.value)
    (app app' : App) (ls ls' : localStorage) (u : User) :
  user app = Some u ->
  onComplete now s masteries app ls = (app', Returns ls') ->
  exists sd,
    studyData app = Some sd
    /\ user app' = Some (updated now s masteries (length (questions app)) (sd_id sd) u)
    /\ persisted (id u) ls'
       = Some (updated now s masteries (length (questions app)) (sd_id sd) u).
Proof.
  intros Hu. unfold onComplete. rewrite Hu.
  destruct (studyData app) as [sd|]; [|discriminate].
  destruct (DB.saveUser _ ls) as [ls1| | |] eqn:Hsave; intros [= <- <-].
  exists sd. split; [reflexivity|]. split; [reflexivity|].
  apply (DBFacts.persisted_saved _ _ _ Hsave).
Qed.

Lemma quiz_session_saved (now : string) (evs : list event)
    (app app' : App) (ls ls' : localStorage) (u : User) :
  user app = Some u ->
  quiz_session now evs app ls = Some (app', Returns ls') ->
  exists sd s m,
    studyData app = Some sd
    /\ QuizView.session (questions app) evs = Some (s, m)
    /\ s = correct_count (QuizView.session_outcomes (questions app) evs)
    /\ m = QuizView.tally (QuizView.session_outcomes (questions app) evs)
    /\ user app' = Some (updated now s m (length (questions app)) (sd_id sd) u)
    /\ persisted (id u) ls'
       = Some (updated now s m (length (questions app)) (sd_id sd) u).
Proof.
  intros Hu. unfold quiz_session.
  destruct (quiz_mounted app); [|discriminate].
  destruct (QuizView.session (questions app) evs) as [[s m]|] eqn:Hs; [|discriminate].
  intros [= Hc].
  destruct (onComplete_saved _ _ _ _ _ _ _ _ Hu Hc) as (sd & Hsd & Hu' & Hp).
  destruct (QuizFacts.session_tally _ _ _ _ Hs) as [Hscore Hm].
  exists sd, s, m. repeat split; assumption.
Qed.

End SessionFacts.

(** * The mastery tracker *)

Section MasteryTracker.
Import Extended.





End MasteryTracker.



(** C7, evaluated.  Ann stands at 50 on [c1] and 95 on [c2].  A session of
    right, right, wrong on [c1] stores 65 for [c1]; [onComplete] does not
    write the current-user item, so the application that is mounted again
    holds the record from before that session; a second session with one
    answer, on [c2], then stores 50 for [c1], a concept it did not adjust. *)
Theorem held_copy_resets_other_concept :
  exists app1 ls1 reloaded app2 ls2 before after,
    Extended.quiz_session Samples.now Samples.right_right_wrong
      (Samples.quiz_of Samples.ann Samples.three_on_c1) Samples.store
    = Some (app1, Returns ls1)
    /\ ExtendedApp.mount ls1 = Returns reloaded
    /\ Extended.quiz_session Samples.now Samples.one_wrong
         (ExtendedApp.startQuiz false (Some [Samples.about "c2"])
            (ExtendedApp.handleUpload (Some Samples.sheet) reloaded))
         ls1
       = Some (app2, Returns ls2)
    /\ ("c1" ∉ (fst <$> Extended.QuizView.session_outcomes
                          [Samples.about "c2"] Samples.one_wrong))
    /\ persisted "u1" ls1 = Some before
    /\ Extended.conceptMastery before !! "c1" = Some (JS.Percent 65)
    /\ persisted "u1" ls2 = Some after
    /\ Extended.conceptMastery after !! "c1" = Some (JS.Percent 50).
Proof.
  exists (Samples.finished
            (Extended.updated Samples.now 2 {["c1" := JS.Num 15]} 3 "s1" Samples.ann)
            Samples.three_on_c1),
         (Samples.saved
            [Extended.updated Samples.now 2 {["c1" := JS.Num 15]} 3 "s1" Samples.ann;
             Samples.bob]),
         (Extended.Build_App Extended.Landing (Some Samples.ann) None []),
         (Samples.finished
            (Extended.updated Samples.now 0 {["c2" := JS.Num 0]} 1 "s1" Samples.ann)
            [Samples.about "c2"]),
         (Samples.saved
            [Extended.updated Samples.now 0 {["c2" := JS.Num 0]} 1 "s1" Samples.ann;
             Samples.bob]),
         (Extended.updated Samples.now 2 {["c1" := JS.Num 15]} 3 "s1" Samples.ann),
         (Extended.updated Samples.now 0 {["c2" := JS.Num 0]} 1 "s1" Samples.ann).
  split; [vm_compute; reflexivity|].
  split; [vm_compute; reflexivity|].
  split; [vm_compute; reflexivity|].
  split.
  { vm_compute. intros Hin. apply list_elem_of_singleton in Hin. discriminate. }
  split; [vm_compute; reflexivity|].
  split; [vm_compute; reflexivity|].
  split; [vm_compute; reflexivity|].
  vm_compute. reflexivity.
Qed.

(** C1, as stated, fails: Ann stands at 50 on concept [c1]; a session with
    one wrong answer on [c1] completes, and the stored record still says 50,
    not 45. *)
Lemma wrong_answer_keeps_stored_mastery :
  persisted "u1" Samples.store = Some Samples.ann
  /\ Extended.reading (Extended.conceptMastery Samples.ann) "c1" = JS.Num 50
  /\ Extended.QuizView.session_outcomes [Samples.about "c1"] Samples.one_wrong
     = [("c1", false)]
  /\ exists app' ls' u',
       Extended.quiz_session Samples.now Samples.one_wrong
         (Samples.quiz_of Samples.ann [Samples.about "c1"]) Samples.store
       = Some (app', Returns ls')
       /\ persisted "u1" ls' = Some u'
       /\ Extended.reading (Extended.conceptMastery u') "c1" = JS.Num 50
       /\ Extended.reading (Extended.conceptMastery u') "c1"
          <> JS.max0 (JS.sub (Extended.reading (Extended.conceptMastery Samples.ann) "c1")
                        (JS.Num 5)).
Proof.
  split; [vm_compute; reflexivity|].
  split; [reflexivity|]. split; [reflexivity|].
  exists (Samples.finished
            (Extended.updated Samples.now 0 {["c1" := JS.Num 0]} 1 "s1" Samples.ann)
            [Samples.about "c1"]),
         (Samples.saved
            [Extended.updated Samples.now 0 {["c1" := JS.Num 0]} 1 "s1" Samples.ann;
             Samples.bob]),
         (Extended.updated Samples.now 0 {["c1" := JS.Num 0]} 1 "s1" Samples.ann).
  split; [vm_compute; reflexivity|].
  split; [vm_compute; reflexivity|].
  split; [vm_compute; reflexivity|]. vm_compute. discriminate.
Qed.

Section WrongAnswers.
Import Extended Extended.QuizView.

(** C1, amended.  A wrong answer lowers the session's adjustment for the
    concept, when that reads as a number (0 when there is none yet), by 5,
    not below 0, and leaves the score and the other adjustments alone.  On
    completion, for a user whose stored record is the one the application
    holds and a concept whose id is not the name of a member every object
    inherits, the stored mastery is the previous stored value (0 when
    absent) plus the session's adjustment, which is not negative, capped at
    100, and is unchanged for a concept without adjustment. *)
Theorem wrong_answer_lowers_adjustment :
  (forall questions st cur result z,
     current questions st = Some cur ->
     can_submit questions st = true ->
     isCorrect result = false ->
     running (masteries st) (conceptId cur) = JS.Num z ->
     let st' := handleSubmit questions (Graded result) st in
     masteries st' !! conceptId cur = Some (JS.Num (Z.max 0 (z - 5)))
     /\ (forall cid, cid <> conceptId cur -> masteries st' !! cid = masteries st !! cid)
     /\ score st' = score st)
  /\ (forall now evs app app' ls ls' u,
        user app = Some u ->
        persisted (id u) ls = Some u ->
        quiz_session now evs app ls = Some (app', Returns ls') ->
        exists u' s m,
          session (Extended.questions app) evs = Some (s, m)
          /\ user app' = Some u'
          /\ persisted (id u) ls' = Some u'
          /\ forall cid, cid ∉ JS.inherited ->
               exists previous,
                 reading (conceptMastery u) cid = JS.Num previous
                 /\ match m !! cid with
                    | Some adjustment =>
                        exists a,
                          adjustment = JS.Num a /\ 0 <= a
                          /\ conceptMastery u' !! cid
                             = Some (JS.Percent (Z.min 100 (previous + a)))
                    | None => conceptMastery u' !! cid = conceptMastery u !! cid
                    end).
Proof.
  split.
  - intros questions st cur result z Hcur Hcan Hwrong Hz.
    unfold can_submit in Hcan. rewrite Hcur in Hcan.
    destruct (feedback st); [discriminate|].
    apply negb_true_iff in Hcan.
    unfold handleSubmit. rewrite Hcan, Hcur, Hwrong. cbn [masteries score].
    unfold lowered. rewrite Hz. split; [apply lookup_insert_eq|].
    split; [|reflexivity].
    intros cid Hne. apply lookup_insert_ne. congruence.
  - intros now evs app app' ls ls' u Hu _ Hdone.
    destruct (SessionFacts.quiz_session_saved _ _ _ _ _ _ _ Hu Hdone)
      as (sd & s & m & _ & Hs & _ & Hm & Hu' & Hp).
    eexists _, s, m. split; [exact Hs|]. split; [exact Hu'|]. split; [exact Hp|].
    intros cid Hcid. cbn [updated conceptMastery].
    eexists. split; [apply MasteryFacts.reading_ordinary, Hcid|].
    rewrite (MasteryFacts.merge_mastery_ordinary _ _ _ Hcid).
    destruct (m !! cid) as [adjustment|] eqn:Hadj; [|reflexivity].
    destruct (MasteryFacts.tally_counted
                (session_outcomes (Extended.questions app) evs) cid Hcid adjustment)
      as (a & -> & Ha); [rewrite <- Hm; exact Hadj|].
    exists a. split; [reflexivity|]. split; [exact Ha|].
    rewrite (MasteryFacts.reading_ordinary _ _ Hcid). reflexivity.
Qed.

End WrongAnswers.

Lemma wrong_answer_lowers_adjustment_witness :
  (let st' :=
     Extended.QuizView.handleSubmit [Samples.about "c1"] (Graded Samples.wrong)
       (Extended.QuizView.Build_State 0 2 "dU = dQ" None false {["c1" := JS.Num 20]}) in
   Extended.QuizView.masteries st' !! "c1" = Some (JS.Num 15)
   /\ Extended.QuizView.score st' = 2)
  /\ exists u',
       persisted "u1"
         (Samples.saved
            [Extended.updated Samples.now 2 {["c1" := JS.Num 15]} 3 "s1" Samples.ann;
             Samples.bob])
       = Some u'
       /\ Extended.conceptMastery u' !! "c1" = Some (JS.Percent 65)
       /\ Extended.conceptMastery u' !! "c2" = Some (JS.Percent 95).
Proof.
  split.
  - destruct (proj1 wrong_answer_lowers_adjustment [Samples.about "c1"]
                (Extended.QuizView.Build_State 0 2 "dU = dQ" None false
                   {["c1" := JS.Num 20]})
                (Samples.about "c1") Samples.wrong 20 eq_refl eq_refl eq_refl)
      as (Hc1 & _ & Hscore).
    + vm_compute. reflexivity.
    + split; [exact Hc1 | exact Hscore].
  - assert (Hsync : persisted "u1" Samples.store = Some Samples.ann)
      by (vm_compute; reflexivity).
    destruct (proj2 wrong_answer_lowers_adjustment Samples.now Samples.right_right_wrong
                (Samples.quiz_of Samples.ann Samples.three_on_c1)
                (Samples.finished
                   (Extended.updated Samples.now 2 {["c1" := JS.Num 15]} 3 "s1" Samples.ann)
                   Samples.three_on_c1)
                Samples.store
                (Samples.saved
                   [Extended.updated Samples.now 2 {["c1" := JS.Num 15]} 3 "s1" Samples.ann;
                    Samples.bob])
                Samples.ann eq_refl Hsync)
      as (u' & s & m & Hs & _ & Hp & Hmerge).
    + vm_compute. reflexivity.
    + exists u'. split; [exact Hp|].
      assert (Hm : m = {["c1" := JS.Num 15]}).
      { vm_compute in Hs. injection Hs as _ Hm. rewrite <- Hm. reflexivity. }
      assert (Hord : forall cid : string, cid = "c1" \/ cid = "c2" -> cid ∉ JS.inherited).
      { intros cid Hc Hin.
        repeat (apply elem_of_cons in Hin as [Hin|Hin]; [destruct Hc; congruence|]).
        inversion Hin. }
      split.
      * destruct (Hmerge "c1" (Hord _ (or_introl eq_refl))) as (p & Hprev & Hnew).
        rewrite Hm in Hnew. vm_compute in Hprev. injection Hprev as <-.
        change ({["c1" := JS.Num 15]} !! "c1") with (Some (JS.Num 15)) in Hnew.
        destruct Hnew as (a & [= <-] & _ & Hnew). exact Hnew.
      * destruct (Hmerge "c2" (Hord _ (or_intror eq_refl))) as (p & _ & Hnew).
        rewrite Hm in Hnew.
        change ({["c1" := JS.Num 15]} !! "c2") with (@None JS.value) in Hnew.
        rewrite Hnew. reflexivity.
Defined.

(** * The session score *)



(** C10. When the grading call fails, [handleSubmit] leaves the score (and,
    in the second generation, the adjustments) as they were, and the failed
    submission does not count as a graded answer. *)
Theorem grading_failure_changes_no_tally :
  (forall questions st,
     let st' := Extended.QuizView.handleSubmit questions GradingFailed st in
     Extended.QuizView.score st' = Extended.QuizView.score st
     /\ Extended.QuizView.masteries st' = Extended.QuizView.masteries st
     /\ Extended.QuizView.observed questions (Submit GradingFailed) st = [])
  /\ (forall questions st,
        let st' := Basic.QuizView.handleSubmit questions GradingFailed st in
        Basic.QuizView.score st' = Basic.QuizView.score st
        /\ Basic.QuizView.observed questions (Submit GradingFailed) st = []).
Proof.
  split.
  - intros questions st. unfold Extended.QuizView.handleSubmit.
    destruct (blank _ || _); [repeat split|].
    destruct (Extended.QuizView.current questions st); repeat split.
  - intros questions st. unfold Basic.QuizView.handleSubmit.
    destruct (blank _); [repeat split|].
    destruct (Basic.QuizView.currentQ questions st); repeat split.
Qed.

(** * The store *)

Section Store.
Context {U : Type} `{Stored U} `{!StoredLaws U}.

(** C6. [saveUser] replaces the first entry that has the user's identity
    ([username] in the first generation, [id] in the second) where it
    stands, or appends the user when there is none; saving the same
    record again leaves the store as it is. *)
Theorem saveUser_upserts_and_is_idempotent (user : U) (users : list U)
    (ls : localStorage) :
  DB.getUsers ls = Returns users ->
  exists ls',
    DB.saveUser user ls = Returns ls'
    /\ DB.getUsers ls' = Returns (upsert user users)
    /\ (Forall (fun u => identity u <> identity user) users ->
        upsert user users = users ++ [user])
    /\ (forall pre x post,
          users = pre ++ x :: post ->
          Forall (fun u => identity u <> identity user) pre ->
          identity x = identity user ->
          upsert user users = pre ++ user :: post)
    /\ DB.saveUser user ls' = Returns ls'.
Proof.
  intros Hread. eexists. split; [apply DBFacts.saveUser_upsert, Hread|].
  split; [apply DBFacts.getUsers_written|].
  split; [apply DBFacts.upsert_append|].
  split; [intros pre x post ->; apply DBFacts.upsert_replace|].
  rewrite (DBFacts.saveUser_upsert user (upsert user users))
    by apply DBFacts.getUsers_written.
  rewrite DBFacts.upsert_idempotent.
  unfold setItem. rewrite insert_insert_eq. reflexivity.
Qed.

(** C4, amended.  [getUsers] returns the empty list when the key is
    absent or holds the empty string, returns the users when the key holds
    the text [saveUser] writes for them, and throws [SyntaxError] when the
    key holds a non-empty text that is not JSON, that is, a text
    [JSON.parse] finds malformed. *)
Theorem getUsers_reads_or_throws (ls : localStorage) :
  (getItem "mp_users" ls = None \/ getItem "mp_users" ls = Some EmptyString ->
   DB.getUsers (U := U) ls = Returns [])
  /\ (forall users : list U,
        getItem "mp_users" ls = Some (JSON.stringify (JArr (encode <$> users))) ->
        DB.getUsers ls = Returns users)
  /\ (forall text,
        getItem "mp_users" ls = Some text -> text <> EmptyString ->
        JSON.parse text = Malformed ->
        DB.getUsers (U := U) ls = Throws SyntaxError).
Proof.
  unfold DB.getUsers. split; [|split].
  - intros [-> | ->]; reflexivity.
  - intros users ->. rewrite DBFacts.item_or_stringify.
    apply DBFacts.read_stringify, CodecFacts.as_array_encode. exact decode_encode.
  - intros text -> Hne Hparse. unfold item_or.
    apply String.eqb_neq in Hne. rewrite Hne. unfold DB.read.
    rewrite Hparse. reflexivity.
Qed.

End Store.

Lemma saveUser_upserts_and_is_idempotent_witness :
  exists ls',
    DB.saveUser Samples.bob Samples.store = Returns ls'
    /\ DB.getUsers ls' = Returns [Samples.ann; Samples.bob]
    /\ DB.saveUser Samples.bob ls' = Returns ls'.
Proof.
  destruct (saveUser_upserts_and_is_idempotent Samples.bob
              [Samples.ann; Samples.bob] Samples.store)
    as (ls' & Hsave & Hread & _ & _ & Hagain).
  - vm_compute. reflexivity.
  - exists ls'. repeat split; assumption.
Defined.

Lemma getUsers_reads_or_throws_witness :
  DB.getUsers (U := Extended.User) ∅ = Returns []
  /\ DB.getUsers Samples.store = Returns [Samples.ann; Samples.bob]
  /\ DB.getUsers (U := Extended.User) Samples.corrupted = Throws SyntaxError.
Proof.
  split; [|split].
  - apply (proj1 (getUsers_reads_or_throws ∅)). left. reflexivity.
  - apply (proj1 (proj2 (getUsers_reads_or_throws Samples.store))
             [Samples.ann; Samples.bob]).
    reflexivity.
  - apply (proj2 (proj2 (getUsers_reads_or_throws Samples.corrupted)) "{oops").
    + reflexivity.
    + discriminate.
    + vm_compute. reflexivity.
Defined.

(** C4, as stated, fails: with a text that is not JSON under the user-list
    key, the read throws in both generations instead of returning the empty
    list. *)
Lemma getUsers_throws_on_corrupted_store :
  getItem "mp_users" Samples.corrupted = Some "{oops"
  /\ JSON.parse "{oops" = Malformed
  /\ DB.getUsers (U := Extended.User) Samples.corrupted = Throws SyntaxError
  /\ DB.getUsers (U := Basic.User) Samples.corrupted = Throws SyntaxError
  /\ DB.getUsers (U := Extended.User) Samples.corrupted <> Returns [].
Proof. repeat split; try (vm_compute; reflexivity). discriminate. Qed.

(** C8. Signing out writes [null] under the current-user key and nothing
    else: whatever the store held, the user list reads as before and the
    current user reads as absent, and the application holds no user. *)
Theorem logout_clears_session_only :
  (forall app ls,
     Extended.user (fst (Extended.logout app ls)) = None
     /\ DB.getUsers (U := Extended.User) (snd (Extended.logout app ls)) = DB.getUsers ls
     /\ getItem "mp_users" (snd (Extended.logout app ls)) = getItem "mp_users" ls
     /\ DB.getCurrentUser (U := Extended.User) (snd (Extended.logout app ls))
        = Returns None)
  /\ (forall app ls,
        Basic.user (fst (Basic.logout app ls)) = None
        /\ DB.getUsers (U := Basic.User) (snd (Basic.logout app ls)) = DB.getUsers ls
        /\ getItem "mp_users" (snd (Basic.logout app ls)) = getItem "mp_users" ls
        /\ DB.getCurrentUser (U := Basic.User) (snd (Basic.logout app ls))
           = Returns None).
Proof.
  split; intros app ls; cbn [fst snd Extended.logout Basic.logout
                              Extended.user Basic.user];
    (split; [reflexivity|]);
    (split; [apply DBFacts.getUsers_frame; discriminate|]);
    (split; [unfold DB.setCurrentUser, getItem, setItem;
             apply lookup_insert_ne; discriminate|]);
    apply DBFacts.getCurrentUser_cleared.
Qed.

(** * The quiz history *)

(** C9, as stated, fails in the first generation: the record [finishQuiz]
    appends holds a date, a score and a total, and no sheet id. *)
Lemma finishQuiz_record_has_no_sheet_id :
  persisted "ann" Samples.old_store = Some Samples.old_ann
  /\ exists app' ls' u' r,
    Basic.quiz_session Samples.now (Samples.round "x" (Graded Samples.right))
      Samples.old_quiz Samples.old_store
    = Some (app', Returns ls')
    /\ getItem "mp_users" ls'
       = Some (JSON.stringify
                 (JArr [JObj [("id", JStr "u1"); ("username", JStr "ann");
                              ("weakAreas", JArr []);
                              ("quizHistory",
                               JArr [JObj [("date", JStr "2026-11-02T10:00:00.000Z");
                                           ("score", JNum 1); ("total", JNum 1)]])]]))
    /\ persisted "ann" ls' = Some u'
    /\ Basic.quizHistory u' = Basic.quizHistory Samples.old_ann ++ [r]
    /\ has_property "sheetId" (Basic.encode_record r) = false.
Proof.
  split; [vm_compute; reflexivity|].
  exists (Basic.Build_App Basic.Dashboard
            (Some (Basic.updated Samples.now 1 1 Samples.old_ann))
            [Samples.about "c1"] (Some (1, 1))),
         (DB.setCurrentUser (Some (Basic.updated Samples.now 1 1 Samples.old_ann))
            (setItem "mp_users"
               (JSON.stringify (JArr [encode (Basic.updated Samples.now 1 1 Samples.old_ann)]))
               Samples.old_store)),
         (Basic.updated Samples.now 1 1 Samples.old_ann),
         (Basic.Build_QuizRecord Samples.now 1 1).
  split; [vm_compute; reflexivity|].
  split; [vm_compute; reflexivity|].
  split; [vm_compute; reflexivity|].
  split; reflexivity.
Qed.

(** C9, amended.  For a user whose stored record is the one the
    application holds, completing a quiz appends exactly one record to the
    end of the user's stored history and keeps the entries before it: date,
    score, number of questions and sheet id in the second generation; date,
    score and number of questions in the first. *)
Theorem completion_appends_one_record :
  (forall now s masteries app app' ls ls' u,
     Extended.user app = Some u ->
     persisted (Extended.id u) ls = Some u ->
     Extended.onComplete now s masteries app ls = (app', Returns ls') ->
     exists sd u',
       Extended.studyData app = Some sd
       /\ Extended.user app' = Some u'
       /\ persisted (Extended.id u) ls' = Some u'
       /\ Extended.quizHistory u' =
          Extended.quizHistory u ++
          [{| Extended.date := now; Extended.score := s;
              Extended.total := Z.of_nat (length (Extended.questions app));
              Extended.sheetId := Extended.sd_id sd |}])
  /\ (forall now s app app' ls ls' u,
        Basic.user app = Some u ->
        persisted (Basic.username u) ls = Some u ->
        Basic.finishQuiz now s app ls = (app', Returns ls') ->
        exists u',
          Basic.user app' = Some u'
          /\ persisted (Basic.username u) ls' = Some u'
          /\ Basic.quizHistory u' =
             Basic.quizHistory u ++
             [{| Basic.date := now; Basic.score := s;
                 Basic.total := Z.of_nat (length (Basic.questions app)) |}]).
Proof.
  split.
  - intros now s masteries app app' ls ls' u Hu _ Hdone.
    destruct (SessionFacts.onComplete_saved _ _ _ _ _ _ _ _ Hu Hdone)
      as (sd & Hsd & Hu' & Hp).
    exists sd. eexists. split; [exact Hsd|]. split; [exact Hu'|].
    split; [exact Hp | reflexivity].
  - intros now s app app' ls ls' u Hu _. unfold Basic.finishQuiz. rewrite Hu.
    destruct (DB.saveUser _ ls) as [ls1| | |] eqn:Hsave; intros [= <- <-].
    eexists. split; [reflexivity|]. split; [|reflexivity].
    pose proof (DBFacts.persisted_saved _ _ _ Hsave) as Hp.
    unfold persisted in *. unfold DB.setCurrentUser.
    rewrite DBFacts.getUsers_frame by discriminate. exact Hp.
Qed.

Lemma completion_appends_one_record_witness :
  (exists sd u',
     Some Samples.sheet = Some sd
     /\ Some (Extended.updated Samples.now 0 {["c1" := JS.Num 0]} 1 "s1" Samples.ann) = Some u'
     /\ persisted "u1"
          (Samples.saved
             [Extended.updated Samples.now 0 {["c1" := JS.Num 0]} 1 "s1" Samples.ann;
              Samples.bob])
        = Some u'
     /\ Extended.quizHistory u' =
        Extended.quizHistory Samples.ann ++
        [{| Extended.date := Samples.now; Extended.score := 0;
            Extended.total := 1; Extended.sheetId := Extended.sd_id sd |}]).
Proof.
  apply (proj1 completion_appends_one_record Samples.now 0 {["c1" := JS.Num 0]}
           (Samples.quiz_of Samples.ann [Samples.about "c1"])
           (Samples.finished
              (Extended.updated Samples.now 0 {["c1" := JS.Num 0]} 1 "s1" Samples.ann)
              [Samples.about "c1"])
           Samples.store _ Samples.ann).
  - reflexivity.
  - vm_compute. reflexivity.
  - vm_compute. reflexivity.
Defined.

(** * A first visit, worked through *)

(** Bob signs in on an empty store, which creates and saves his record;
    signing out clears the current user and keeps the record. *)
Example sign_in_then_out :
  let empty := Extended.Build_App Extended.Auth None None [] in
  exists app ls,
    Extended.handleAuth "u2" "bob" empty ∅ = (app, Returns ls)
    /\ Extended.user app = Some Samples.bob
    /\ DB.getUsers ls = Returns [Samples.bob]
    /\ DB.getCurrentUser ls = Returns (Some Samples.bob)
    /\ DB.getUsers (snd (Extended.logout app ls)) = Returns [Samples.bob]
    /\ DB.getCurrentUser (U := Extended.User) (snd (Extended.logout app ls))
       = Returns None.
Proof.
  eexists _, _. split; [reflexivity|].
  repeat split; vm_compute; reflexivity.
Qed.

(** * Further properties *)

(** * More about the store *)

Module StoreFacts.
Section Users.
Context {U : Type} `{Stored U} `{!StoredLaws U}.

Lemma find_upsert_other (user : U) (users : list U) (who : string) :
  who <> identity user ->
  find_first (fun u => String.eqb (identity u) who) (upsert user users)
  = find_first (fun u => String.eqb (identity u) who) users.
Proof.
  intros Hne. unfold find_first. induction users as [|x l IH]; simpl.
  - apply String.eqb_neq in Hne. rewrite String.eqb_sym, Hne. reflexivity.
  - destruct (String.eqb (identity x) (identity user)) eqn:E; simpl.
    + apply String.eqb_eq in E.
      assert (Hx : String.eqb (identity x) who = false)
        by (apply String.eqb_neq; congruence).
      assert (Hu : String.eqb (identity user) who = false)
        by (apply String.eqb_neq; congruence).
      rewrite Hx, Hu. reflexivity.
    + destruct (String.eqb (identity x) who); [reflexivity | exact IH].
Qed.

Lemma identities_upsert (user : U) (users : list U) :
  identity <$> upsert user users =
  if decide (identity user ∈ identity <$> users) then identity <$> users
  else (identity <$> users) ++ [identity user].
Proof.
  induction users as [|x l IH].
  - destruct (decide (identity user ∈ identity <$> [])) as [Hin|_]; [|reflexivity].
    apply elem_of_nil in Hin. contradiction.
  - cbn [upsert]. destruct (String.eqb (identity x) (identity user)) eqn:E.
    + apply String.eqb_eq in E. rewrite !fmap_cons, E.
      destruct (decide (identity user ∈ identity user :: (identity <$> l)))
        as [_|Hnin]; [reflexivity|].
      exfalso. apply Hnin. left.
    + apply String.eqb_neq in E. rewrite !fmap_cons, IH.
      destruct (decide (identity user ∈ identity <$> l)) as [Hin|Hnin];
        destruct (decide (identity user ∈ identity x :: (identity <$> l)))
          as [Hin'|Hnin']; try reflexivity; exfalso.
      * apply Hnin'. right. exact Hin.
      * apply elem_of_cons in Hin' as [Heq|Hin']; [congruence | contradiction].
Qed.

Lemma length_upsert (user : U) (users : list U) :
  length (upsert user users) =
  if decide (identity user ∈ identity <$> users) then length users
  else S (length users).
Proof.
  rewrite <- (length_fmap identity (upsert user users)), identities_upsert.
  destruct (decide _); rewrite ?length_app, !length_fmap; simpl; lia.
Qed.

Lemma persisted_other (user : U) (ls ls' : localStorage) (who : string) :
  DB.saveUser user ls = Returns ls' -> who <> identity user ->
  persisted who ls' = persisted who ls.
Proof.
  unfold DB.saveUser.
  destruct (DB.getUsers ls) as [users| | |] eqn:Hread; cbn [outcome_bind]; [|discriminate..].
  rewrite DBFacts.upsert_code. intros [= <-] Hne. unfold persisted.
  rewrite DBFacts.getUsers_written, Hread. apply find_upsert_other, Hne.
Qed.

End Users.

Lemma extended_current (cur : option Extended.User) (ls : localStorage) :
  DB.getCurrentUser (DB.setCurrentUser cur ls) = Returns cur.
Proof.
  unfold DB.getCurrentUser, DB.setCurrentUser, getItem, setItem.
  rewrite lookup_insert_eq, DBFacts.item_or_stringify.
  apply DBFacts.read_stringify. destruct cur as [u|]; [|reflexivity].
  change (as_nullable decode (encode u))
    with (Some <$> Extended.decode_user (Extended.encode_user u)).
  rewrite CodecFacts.extended_user. reflexivity.
Qed.

Lemma basic_current (cur : option Basic.User) (ls : localStorage) :
  DB.getCurrentUser (DB.setCurrentUser cur ls) = Returns cur.
Proof.
  unfold DB.getCurrentUser, DB.setCurrentUser, getItem, setItem.
  rewrite lookup_insert_eq, DBFacts.item_or_stringify.
  apply DBFacts.read_stringify. destruct cur as [u|]; [|reflexivity].
  change (as_nullable decode (encode u))
    with (Some <$> Basic.decode_user (Basic.encode_user u)).
  rewrite CodecFacts.basic_user. reflexivity.
Qed.

Lemma current_frame {U : Type} `{Stored U} (cur : option U) (ls : localStorage) :
  DB.getUsers (U := U) (DB.setCurrentUser cur ls) = DB.getUsers ls.
Proof.
  unfold DB.getUsers, DB.setCurrentUser, getItem, setItem.
  rewrite lookup_insert_ne by discriminate. reflexivity.
Qed.

End StoreFacts.

Section StoreMore.
Context {U : Type} `{Stored U} `{!StoredLaws U}.

(** X1. A save rewrites the user-list item and nothing else: every other
    item of the store is as before, the record of every other identity reads
    as before, and the saved identity reads as the saved record. *)
Theorem saveUser_touches_one_record (user : U) (ls ls' : localStorage) :
  DB.saveUser user ls = Returns ls' ->
  (forall key, key <> "mp_users" -> getItem key ls' = getItem key ls)
  /\ (forall who, who <> identity user -> persisted who ls' = persisted who ls)
  /\ persisted (identity user) ls' = Some user.
Proof.
  intros Hsave. pose proof (DBFacts.persisted_saved _ _ _ Hsave) as Hp.
  unfold DB.saveUser in Hsave.
  destruct (DB.getUsers ls) as [users| | |] eqn:Hread; cbn [outcome_bind] in Hsave;
    [|discriminate..].
  rewrite DBFacts.upsert_code in Hsave. injection Hsave as <-.
  split; [|split; [|exact Hp]].
  - intros key Hne. unfold getItem, setItem. apply lookup_insert_ne. congruence.
  - intros who Hne. unfold persisted.
    rewrite DBFacts.getUsers_written, Hread. apply StoreFacts.find_upsert_other, Hne.
Qed.

(** X2. A save never duplicates an identity: if the identities in the user
    list are pairwise different before, they are after; the list keeps its
    length when the identity was present and grows by one when it was not. *)
Theorem saveUser_keeps_identities_unique (user : U) (users : list U)
    (ls : localStorage) :
  DB.getUsers ls = Returns users ->
  NoDup (identity <$> users) ->
  exists ls',
    DB.saveUser user ls = Returns ls'
    /\ DB.getUsers ls' = Returns (upsert user users)
    /\ NoDup (identity <$> upsert user users)
    /\ identity user ∈ identity <$> upsert user users
    /\ length (upsert user users) =
       if decide (identity user ∈ identity <$> users) then length users
       else S (length users).
Proof.
  intros Hread Hnd. eexists. split; [apply DBFacts.saveUser_upsert, Hread|].
  split; [apply DBFacts.getUsers_written|].
  rewrite StoreFacts.identities_upsert, StoreFacts.length_upsert.
  destruct (decide (identity user ∈ identity <$> users)) as [Hin|Hnin].
  - repeat split; assumption.
  - split; [|split; [|reflexivity]].
    + apply NoDup_app. split; [assumption|]. split; [|apply NoDup_singleton].
      intros x Hx Hx'. apply list_elem_of_singleton in Hx'. subst. contradiction.
    + apply elem_of_app. right. left.
Qed.

End StoreMore.

Lemma saveUser_touches_one_record_witness :
  (forall key, key <> "mp_users" ->
     getItem key (Samples.saved [Samples.ann; Samples.bob]) = getItem key Samples.store)
  /\ (forall who, who <> identity Samples.bob ->
        persisted who (Samples.saved [Samples.ann; Samples.bob])
        = persisted (U := Extended.User) who Samples.store)
  /\ persisted (identity Samples.bob) (Samples.saved [Samples.ann; Samples.bob])
     = Some Samples.bob.
Proof.
  apply (saveUser_touches_one_record Samples.bob Samples.store
           (Samples.saved [Samples.ann; Samples.bob])).
  vm_compute. reflexivity.
Defined.

Lemma saveUser_keeps_identities_unique_witness :
  exists ls',
    DB.saveUser Samples.bob Samples.store = Returns ls'
    /\ DB.getUsers ls' = Returns (upsert Samples.bob [Samples.ann; Samples.bob])
    /\ NoDup (identity <$> upsert Samples.bob [Samples.ann; Samples.bob])
    /\ identity Samples.bob ∈ identity <$> upsert Samples.bob [Samples.ann; Samples.bob]
    /\ length (upsert Samples.bob [Samples.ann; Samples.bob]) =
       if decide (identity Samples.bob ∈ identity <$> [Samples.ann; Samples.bob])
       then length [Samples.ann; Samples.bob]
       else S (length [Samples.ann; Samples.bob]).
Proof.
  apply (saveUser_keeps_identities_unique Samples.bob [Samples.ann; Samples.bob]
           Samples.store).
  - vm_compute. reflexivity.
  - apply NoDup_cons_2; [|apply NoDup_singleton].
    intros Hin. apply list_elem_of_singleton in Hin. discriminate Hin.
Defined.

(** X3. What [setCurrentUser] writes, [getCurrentUser] reads back, for a
    user of either generation and for [null]; the user list is not
    touched. *)
Theorem current_user_round_trip :
  (forall (cur : option Extended.User) ls,
     DB.getCurrentUser (DB.setCurrentUser cur ls) = Returns cur
     /\ DB.getUsers (U := Extended.User) (DB.setCurrentUser cur ls) = DB.getUsers ls)
  /\ (forall (cur : option Basic.User) ls,
        DB.getCurrentUser (DB.setCurrentUser cur ls) = Returns cur
        /\ DB.getUsers (U := Basic.User) (DB.setCurrentUser cur ls) = DB.getUsers ls).
Proof.
  split; intros cur ls; split;
    first [ apply StoreFacts.extended_current | apply StoreFacts.basic_current
          | apply StoreFacts.current_frame ].
Qed.

(** * Signing in *)

Module AuthFacts.

Lemma find_first_none {A : Type} (key : A -> string) (name : string) (l : list A) :
  find_first (fun u => String.eqb (key u) name) l = None <-> name ∉ key <$> l.
Proof.
  unfold find_first. induction l as [|x l IH]; simpl.
  - split; [intros _; apply not_elem_of_nil | reflexivity].
  - rewrite not_elem_of_cons. destruct (String.eqb_spec (key x) name) as [->|Hne].
    + split; [discriminate | intros [Hc _]; congruence].
    + rewrite IH. split; [intros Hn; split; [congruence | exact Hn] | intros [_ Hn]; exact Hn].
Qed.

Lemma find_first_some {A : Type} (key : A -> string) (name : string) (l : list A) (u : A) :
  find_first (fun u => String.eqb (key u) name) l = Some u -> key u = name /\ u ∈ l.
Proof.
  unfold find_first. induction l as [|x l IH]; simpl; [discriminate|].
  destruct (String.eqb_spec (key x) name) as [Heq|Hne].
  - intros [= <-]. split; [exact Heq | left].
  - intros Hf. destruct (IH Hf) as [Hk Hin]. split; [exact Hk | right; exact Hin].
Qed.

(** What [find] returns is the first element with the key. *)
Lemma find_first_split {A : Type} (key : A -> string) (name : string) (l : list A) (u : A) :
  find_first (fun u => String.eqb (key u) name) l = Some u ->
  exists before after, l = before ++ u :: after /\ Forall (fun x => key x <> name) before.
Proof.
  unfold find_first. induction l as [|x l IH]; simpl; [discriminate|].
  destruct (String.eqb_spec (key x) name) as [Heq|Hne].
  - intros [= <-]. exists [], l. split; [reflexivity | constructor].
  - intros Hf. destruct (IH Hf) as (before & after & -> & Hall).
    exists (x :: before), after. split; [reflexivity|]. constructor; assumption.
Qed.

(** Users of the second generation are looked up by name and saved by id. *)
Lemma names_upsert (new : Extended.User) (users : list Extended.User) :
  Extended.username new ∉ Extended.username <$> users ->
  NoDup (Extended.username <$> users) ->
  NoDup (Extended.username <$> upsert new users)
  /\ (forall n, n ∈ Extended.username <$> upsert new users ->
        n = Extended.username new \/ n ∈ Extended.username <$> users)
  /\ find_first (fun u => String.eqb (Extended.username u) (Extended.username new))
       (upsert new users) = Some new.
Proof.
  unfold find_first.
  induction users as [|x l IH]; intros Hnew Hnd.
  - cbn. rewrite String.eqb_refl. split; [apply NoDup_singleton|].
    split; [|reflexivity]. intros n Hn. apply list_elem_of_singleton in Hn. left. exact Hn.
  - rewrite fmap_cons in Hnew, Hnd. apply not_elem_of_cons in Hnew as [Hne Hnew].
    apply NoDup_cons in Hnd as [Hx Hnd].
    cbn [upsert identity Extended.stored_user].
    destruct (String.eqb (Extended.id x) (Extended.id new)).
    + rewrite fmap_cons. cbn [List.find]. rewrite String.eqb_refl.
      split; [apply NoDup_cons; split; assumption|].
      split; [|reflexivity].
      intros n Hn. apply elem_of_cons in Hn as [->|Hn]; [left; reflexivity|].
      right. right. exact Hn.
    + destruct (IH Hnew Hnd) as (IHnd & IHin & IHfind).
      rewrite fmap_cons. cbn [List.find].
      assert (Hxn : String.eqb (Extended.username x) (Extended.username new) = false)
        by (apply String.eqb_neq; congruence).
      rewrite Hxn. split; [|split; [|exact IHfind]].
      * apply NoDup_cons. split; [|exact IHnd].
        intros Hin. destruct (IHin _ Hin) as [Heq|Hin']; [congruence | contradiction].
      * intros n Hn. apply elem_of_cons in Hn as [->|Hn]; [right; left|].
        destruct (IHin _ Hn) as [->|Hin']; [left; reflexivity | right; right; exact Hin'].
Qed.


(** The record [handleAuth] creates for a new name. *)
Lemma handleAuth_extended_new (fresh name : string) (app : Extended.App)
    (ls : localStorage) (users : list Extended.User) :
  blank name = false ->
  DB.getUsers ls = Returns users ->
  find_first (fun u => String.eqb (Extended.username u) name) users = None ->
  let u := Extended.Build_User fresh name Samples.general [] [] [] ∅ in
  Extended.handleAuth fresh name app ls =
  ({| Extended.mode := Extended.Landing; Extended.user := Some u;
      Extended.studyData := Extended.studyData app;
      Extended.questions := Extended.questions app |},
   Returns (DB.setCurrentUser (Some u)
              (setItem "mp_users" (JSON.stringify (JArr (encode <$> upsert u users))) ls))).
Proof.
  intros Hb Hread Hfind u. unfold Extended.handleAuth.
  rewrite Hb, Hread, Hfind.
  rewrite (DBFacts.saveUser_upsert _ _ _ Hread). reflexivity.
Qed.

Lemma handleAuth_basic_new (fresh name : string) (app : Basic.App)
    (ls : localStorage) (users : list Basic.User) :
  name <> EmptyString ->
  DB.getUsers ls = Returns users ->
  find_first (fun u => String.eqb (Basic.username u) name) users = None ->
  let u := Basic.Build_User fresh name [] [] in
  Basic.handleAuth fresh name app ls =
  ({| Basic.mode := Basic.Landing; Basic.user := Some u;
      Basic.questions := Basic.questions app;
      Basic.finalScore := Basic.finalScore app |},
   Returns (DB.setCurrentUser (Some u)
              (setItem "mp_users" (JSON.stringify (JArr (encode <$> upsert u users))) ls))).
Proof.
  intros Hb Hread Hfind u. unfold Basic.handleAuth.
  apply String.eqb_neq in Hb. rewrite Hb, Hread, Hfind.
  rewrite (DBFacts.saveUser_upsert _ _ _ Hread). reflexivity.
Qed.

Lemma extended_auth_users (fresh name : string) (app app' : Extended.App)
    (ls ls' : localStorage) (users : list Extended.User) :
  DB.getUsers ls = Returns users ->
  Extended.handleAuth fresh name app ls = (app', Returns ls') ->
  DB.getUsers ls' = Returns users
  \/ (find_first (fun u => String.eqb (Extended.username u) name) users = None
      /\ DB.getUsers ls'
         = Returns (upsert (Extended.Build_User fresh name Samples.general [] [] [] ∅)
                      users)).
Proof.
  intros Hread. destruct (blank name) eqn:Hb.
  { unfold Extended.handleAuth. rewrite Hb. intros Heq.
    assert (ls' = ls) by congruence. subst ls'. left. exact Hread. }
  destruct (find_first (fun u => String.eqb (Extended.username u) name) users)
    as [u|] eqn:Hfind.
  - unfold Extended.handleAuth. rewrite Hb, Hread, Hfind. intros Heq.
    assert (ls' = DB.setCurrentUser (Some u) ls) by congruence. subst ls'.
    left. rewrite StoreFacts.current_frame. exact Hread.
  - rewrite (handleAuth_extended_new _ _ _ _ _ Hb Hread Hfind). intros Heq.
    right. split; [reflexivity|].
    match type of Heq with
    | (_, Returns ?x) = _ => assert (Hls : ls' = x) by congruence
    end.
    rewrite Hls, StoreFacts.current_frame. apply DBFacts.getUsers_written.
Qed.

Lemma basic_auth_users (fresh name : string) (app app' : Basic.App)
    (ls ls' : localStorage) (users : list Basic.User) :
  DB.getUsers ls = Returns users ->
  Basic.handleAuth fresh name app ls = (app', Returns ls') ->
  DB.getUsers ls' = Returns users
  \/ (find_first (fun u => String.eqb (Basic.username u) name) users = None
      /\ DB.getUsers ls'
         = Returns (upsert (Basic.Build_User fresh name [] []) users)).
Proof.
  intros Hread. destruct (String.eqb_spec name EmptyString) as [Hb|Hb].
  { unfold Basic.handleAuth. rewrite Hb. cbn [String.eqb]. intros Heq.
    assert (ls' = ls) by congruence. subst ls'. left. exact Hread. }
  destruct (find_first (fun u => String.eqb (Basic.username u) name) users)
    as [u|] eqn:Hfind.
  - unfold Basic.handleAuth. apply String.eqb_neq in Hb. rewrite Hb, Hread, Hfind.
    intros Heq.
    assert (ls' = DB.setCurrentUser (Some u) ls) by congruence. subst ls'.
    left. rewrite StoreFacts.current_frame. exact Hread.
  - rewrite (handleAuth_basic_new _ _ _ _ _ Hb Hread Hfind). intros Heq.
    right. split; [reflexivity|].
    match type of Heq with
    | (_, Returns ?x) = _ => assert (Hls : ls' = x) by congruence
    end.
    rewrite Hls, StoreFacts.current_frame. apply DBFacts.getUsers_written.
Qed.

End AuthFacts.

(** X4. Signing in under a name the user list already has creates nothing:
    the user is the stored record, the list is as before, and the current
    user reads as that record (both generations). *)
Theorem sign_in_returning_user :
  (forall fresh name app ls users u,
     blank name = false ->
     DB.getUsers ls = Returns users ->
     find_first (fun x => String.eqb (Extended.username x) name) users = Some u ->
     exists app' ls',
       Extended.handleAuth fresh name app ls = (app', Returns ls')
       /\ Extended.user app' = Some u
       /\ Extended.mode app' = Extended.Landing
       /\ DB.getUsers ls' = Returns users
       /\ DB.getCurrentUser ls' = Returns (Some u))
  /\ (forall fresh name app ls users u,
        name <> EmptyString ->
        DB.getUsers ls = Returns users ->
        find_first (fun x => String.eqb (Basic.username x) name) users = Some u ->
        exists app' ls',
          Basic.handleAuth fresh name app ls = (app', Returns ls')
          /\ Basic.user app' = Some u
          /\ Basic.mode app' = Basic.Landing
          /\ DB.getUsers ls' = Returns users
          /\ DB.getCurrentUser ls' = Returns (Some u)).
Proof.
  split; intros fresh name app ls users u Hb Hread Hfind.
  - unfold Extended.handleAuth. rewrite Hb, Hread, Hfind.
    eexists _, _. split; [reflexivity|]. split; [reflexivity|]. split; [reflexivity|].
    split; [rewrite StoreFacts.current_frame; exact Hread
           | apply StoreFacts.extended_current].
  - unfold Basic.handleAuth. apply String.eqb_neq in Hb. rewrite Hb, Hread, Hfind.
    eexists _, _. split; [reflexivity|]. split; [reflexivity|]. split; [reflexivity|].
    split; [rewrite StoreFacts.current_frame; exact Hread
           | apply StoreFacts.basic_current].
Qed.


(** X6. Signing in keeps user names unique: if no two records of the user
    list share a name before [handleAuth], none do after, whatever the name
    and the drawn id (both generations). *)
Theorem sign_in_keeps_names_unique :
  (forall fresh name app app' ls ls' users,
     DB.getUsers ls = Returns users ->
     NoDup (Extended.username <$> users) ->
     Extended.handleAuth fresh name app ls = (app', Returns ls') ->
     exists users',
       DB.getUsers ls' = Returns users'
       /\ NoDup (Extended.username <$> users'))
  /\ (forall fresh name app app' ls ls' users,
        DB.getUsers ls = Returns users ->
        NoDup (Basic.username <$> users) ->
        Basic.handleAuth fresh name app ls = (app', Returns ls') ->
        exists users',
          DB.getUsers ls' = Returns users'
          /\ NoDup (Basic.username <$> users')).
Proof.
  split; intros fresh name app app' ls ls' users Hread Hnd Hauth.
  - destruct (AuthFacts.extended_auth_users _ _ _ _ _ _ _ Hread Hauth)
      as [Hsame | [Hfind Hnew]].
    + exists users. split; assumption.
    + eexists. split; [exact Hnew|].
      apply AuthFacts.find_first_none in Hfind.
      apply (AuthFacts.names_upsert
               (Extended.Build_User fresh name Samples.general [] [] [] ∅));
        assumption.
  - destruct (AuthFacts.basic_auth_users _ _ _ _ _ _ _ Hread Hauth)
      as [Hsame | [Hfind Hnew]].
    + exists users. split; assumption.
    + eexists. split; [exact Hnew|].
      apply AuthFacts.find_first_none in Hfind.
      change (NoDup (identity <$> upsert (Basic.Build_User fresh name [] []) users)).
      rewrite StoreFacts.identities_upsert.
      destruct (decide (identity (Basic.Build_User fresh name [] [])
                          ∈ identity <$> users)) as [Hin|_]; [contradiction|].
      apply NoDup_app. split; [exact Hnd|]. split; [|apply NoDup_singleton].
      intros x Hx Hx'. apply list_elem_of_singleton in Hx'. subst x. contradiction.
Qed.

Lemma sign_in_returning_user_witness :
  exists app' ls',
    Extended.handleAuth "zz" "ann" (Samples.quiz_of Samples.bob []) Samples.store
    = (app', Returns ls')
    /\ Extended.user app' = Some Samples.ann
    /\ Extended.mode app' = Extended.Landing
    /\ DB.getUsers ls' = Returns [Samples.ann; Samples.bob]
    /\ DB.getCurrentUser ls' = Returns (Some Samples.ann).
Proof.
  apply (proj1 sign_in_returning_user "zz" "ann" (Samples.quiz_of Samples.bob [])
           Samples.store [Samples.ann; Samples.bob] Samples.ann).
  - reflexivity.
  - vm_compute. reflexivity.
  - reflexivity.
Defined.


Lemma sign_in_keeps_names_unique_witness :
  exists users',
    DB.getUsers (DB.setCurrentUser (Some Samples.ann) Samples.store) = Returns users'
    /\ NoDup (Extended.username <$> users').
Proof.
  apply (proj1 sign_in_keeps_names_unique "zz" "ann" (Samples.quiz_of Samples.bob [])
           (Extended.Build_App Extended.Landing (Some Samples.ann)
              (Some Samples.sheet) [])
           Samples.store _ [Samples.ann; Samples.bob]).
  - vm_compute. reflexivity.
  - apply NoDup_cons_2; [|apply NoDup_singleton].
    intros Hin. apply list_elem_of_singleton in Hin. discriminate Hin.
  - vm_compute. reflexivity.
Defined.

(** * Reloading the page, and the items the handlers write *)

Module ReloadFacts.

Lemma saveUser_item {U : Type} `{Stored U} (user : U) (ls ls' : localStorage)
    (key : string) :
  DB.saveUser user ls = Returns ls' -> key <> "mp_users" ->
  getItem key ls' = getItem key ls.
Proof.
  unfold DB.saveUser. destruct (DB.getUsers ls); cbn [outcome_bind]; [|discriminate..].
  intros [= <-] Hne. unfold getItem, setItem. apply lookup_insert_ne. congruence.
Qed.

Lemma setCurrentUser_item {U : Type} `{Stored U} (cur : option U) (ls : localStorage)
    (key : string) :
  key <> "mp_current_user" -> getItem key (DB.setCurrentUser cur ls) = getItem key ls.
Proof.
  intros Hne. unfold DB.setCurrentUser, getItem, setItem.
  apply lookup_insert_ne. congruence.
Qed.

Lemma getCurrentUser_item {U : Type} `{Stored U} (ls ls' : localStorage) :
  getItem "mp_current_user" ls' = getItem "mp_current_user" ls ->
  DB.getCurrentUser (U := U) ls' = DB.getCurrentUser ls.
Proof. intros Heq. unfold DB.getCurrentUser. rewrite Heq. reflexivity. Qed.

Lemma onComplete_item (now : string) (s : Z) (m : gmap string JS.value)
    (app app' : Extended.App) (ls ls' : localStorage) (key : string) :
  Extended.onComplete now s m app ls = (app', Returns ls') ->
  key <> "mp_users" -> getItem key ls' = getItem key ls.
Proof.
  unfold Extended.onComplete.
  destruct (Extended.user app) as [u|]; [|discriminate].
  destruct (Extended.studyData app) as [sd|]; [|discriminate].
  destruct (DB.saveUser _ ls) as [ls1| | |] eqn:Hsave; intros [= <- <-] Hne.
  apply (saveUser_item _ _ _ _ Hsave Hne).
Qed.

Lemma edited_keeps (u : Extended.User) (edits : list ProfileView.edit) :
  Extended.learningStyle (ProfileView.edited u edits)
    = Extended.learningStyle (Extended.profile u)
  /\ Extended.mnemonicPref (ProfileView.edited u edits)
     = Extended.mnemonicPref (Extended.profile u)
  /\ Extended.examDate (ProfileView.edited u edits)
     = Extended.examDate (Extended.profile u)
  /\ Extended.dailyTimeLimit (ProfileView.edited u edits)
     = Extended.dailyTimeLimit (Extended.profile u).
Proof.
  unfold ProfileView.edited. generalize (Extended.profile u) as p.
  induction edits as [|e edits IH]; intros p; [repeat split|].
  cbn [fold_left]. destruct (IH (ProfileView.apply_edit p e)) as (H1 & H2 & H3 & H4).
  rewrite H1, H2, H3, H4. destruct e; repeat split.
Qed.

End ReloadFacts.

Section Reload.
Import Extended.

(** X7. In the second generation a completed quiz is written to the user
    list only: the current-user item keeps the user as signed in, so after a
    reload the application starts from that older user, and the next
    completed quiz stores a record built from it, in which the history entry
    and the mastery of the earlier session are missing. *)
Theorem completion_is_lost_on_reload (now : string) (s : Z) (m : gmap string JS.value)
    (app app' : App) (ls ls' : localStorage) (u : User) :
  user app = Some u ->
  DB.getCurrentUser ls = Returns (Some u) ->
  onComplete now s m app ls = (app', Returns ls') ->
  getItem "mp_current_user" ls' = getItem "mp_current_user" ls
  /\ ExtendedApp.mount ls'
     = Returns {| mode := Landing; user := Some u; studyData := None; questions := [] |}
  /\ (exists sd,
        studyData app = Some sd
        /\ persisted (id u) ls'
           = Some (updated now s m (length (questions app)) (sd_id sd) u))
  /\ forall now2 s2 m2 app2 app3 ls3,
       user app2 = Some u ->
       onComplete now2 s2 m2 app2 ls' = (app3, Returns ls3) ->
       exists sd2 u3,
         studyData app2 = Some sd2
         /\ persisted (id u) ls3 = Some u3
         /\ quizHistory u3 =
            quizHistory u ++
            [{| date := now2; score := s2;
                total := Z.of_nat (length (questions app2)); sheetId := sd_id sd2 |}]
         /\ conceptMastery u3 = merge_mastery m2 (conceptMastery u).
Proof.
  intros Hu Hcur Hdone.
  assert (Hitem : getItem "mp_current_user" ls' = getItem "mp_current_user" ls)
    by (apply (ReloadFacts.onComplete_item _ _ _ _ _ _ _ _ Hdone); discriminate).
  split; [exact Hitem|]. split; [|split].
  - unfold ExtendedApp.mount.
    rewrite (ReloadFacts.getCurrentUser_item _ _ Hitem), Hcur. reflexivity.
  - destruct (SessionFacts.onComplete_saved _ _ _ _ _ _ _ _ Hu Hdone)
      as (sd & Hsd & _ & Hp).
    exists sd. split; assumption.
  - intros now2 s2 m2 app2 app3 ls3 Hu2 Hdone2.
    destruct (SessionFacts.onComplete_saved _ _ _ _ _ _ _ _ Hu2 Hdone2)
      as (sd2 & Hsd2 & _ & Hp2).
    exists sd2. eexists. split; [exact Hsd2|]. split; [exact Hp2|].
    split; reflexivity.
Qed.

End Reload.

Section BasicReload.
Import Basic.

(** X8. In the first generation [finishQuiz] also rewrites the current-user
    item, so a reload starts from the user with the new history record, and
    the user list holds the same record. *)
Theorem basic_completion_survives_reload (now : string) (s : Z)
    (app app' : App) (ls ls' : localStorage) (u : User) :
  user app = Some u ->
  finishQuiz now s app ls = (app', Returns ls') ->
  user app' = Some (updated now s (length (questions app)) u)
  /\ BasicApp.mount ls'
     = Returns {| mode := Landing;
                  user := Some (updated now s (length (questions app)) u);
                  questions := []; finalScore := None |}
  /\ persisted (username u) ls' = Some (updated now s (length (questions app)) u).
Proof.
  intros Hu. unfold finishQuiz. rewrite Hu.
  destruct (DB.saveUser _ ls) as [ls1| | |] eqn:Hsave; intros [= <- <-].
  split; [reflexivity|]. split.
  - unfold BasicApp.mount. rewrite StoreFacts.basic_current. reflexivity.
  - unfold persisted. rewrite StoreFacts.current_frame.
    apply (DBFacts.persisted_saved _ _ _ Hsave).
Qed.

End BasicReload.

Section ProfileUpdate.
Import Extended.

(** X9. For a user whose stored record is the one the application holds,
    updating the profile changes the subject and the academic level and
    nothing else: the record stored and held afterwards has the identity,
    name, history, mastery, library and weak areas of the user, and the
    learning style, mnemonic preference, exam date and time limit of its
    profile; the records of the other users and the current-user item are
    as before, and the application is back on the landing page. *)
Theorem profile_update_changes_profile_only (edits : list ProfileView.edit)
    (app app' : App) (ls ls' : localStorage) (u : User) :
  mode app = Profile ->
  user app = Some u ->
  persisted (id u) ls = Some u ->
  ProfileView.update edits app ls = (app', Returns ls') ->
  exists u',
    user app' = Some u'
    /\ mode app' = Landing
    /\ persisted (id u) ls' = Some u'
    /\ profile u' = ProfileView.edited u edits
    /\ (id u' = id u /\ username u' = username u /\ weakAreas u' = weakAreas u
        /\ quizHistory u' = quizHistory u /\ library u' = library u
        /\ conceptMastery u' = conceptMastery u)
    /\ (learningStyle (profile u') = learningStyle (profile u)
        /\ mnemonicPref (profile u') = mnemonicPref (profile u)
        /\ examDate (profile u') = examDate (profile u)
        /\ dailyTimeLimit (profile u') = dailyTimeLimit (profile u))
    /\ (forall who, who <> id u -> persisted who ls' = persisted who ls)
    /\ getItem "mp_current_user" ls' = getItem "mp_current_user" ls.
Proof.
  intros Hmode Hu _. unfold ProfileView.update, ExtendedApp.onSave. rewrite Hmode, Hu.
  destruct (DB.saveUser _ ls) as [ls1| | |] eqn:Hsave; intros [= <- <-].
  exists (ProfileView.submitted u (ProfileView.edited u edits)).
  split; [reflexivity|]. split; [reflexivity|].
  split; [apply (DBFacts.persisted_saved _ _ _ Hsave)|].
  split; [reflexivity|]. split; [repeat split|].
  split; [apply ReloadFacts.edited_keeps|]. split.
  - intros who Hne. apply (StoreFacts.persisted_other _ _ _ _ Hsave Hne).
  - apply (ReloadFacts.saveUser_item _ _ _ _ Hsave). discriminate.
Qed.

End ProfileUpdate.

(** X10. The handlers write the user list and the current user and no other
    item of the store: whatever else the store holds, among it the shared
    library under [mp_network], is the same after signing in, completing a
    quiz, updating the profile and signing out, in both generations. *)
Theorem handlers_write_two_items_only (key : string) :
  key <> "mp_users" -> key <> "mp_current_user" ->
  (forall fresh name app app' ls ls',
     Extended.handleAuth fresh name app ls = (app', Returns ls') ->
     getItem key ls' = getItem key ls)
  /\ (forall now s m app app' ls ls',
        Extended.onComplete now s m app ls = (app', Returns ls') ->
        getItem key ls' = getItem key ls)
  /\ (forall edits app app' ls ls',
        ProfileView.update edits app ls = (app', Returns ls') ->
        getItem key ls' = getItem key ls)
  /\ (forall app ls, getItem key (snd (Extended.logout app ls)) = getItem key ls)
  /\ (forall fresh name app app' ls ls',
        Basic.handleAuth fresh name app ls = (app', Returns ls') ->
        getItem key ls' = getItem key ls)
  /\ (forall now s app app' ls ls',
        Basic.finishQuiz now s app ls = (app', Returns ls') ->
        getItem key ls' = getItem key ls)
  /\ (forall app ls, getItem key (snd (Basic.logout app ls)) = getItem key ls).
Proof.
  intros Hu Hc. repeat apply conj.
  - intros fresh name app app' ls ls'. unfold Extended.handleAuth.
    destruct (blank name); [intros [= _ <-]; reflexivity|].
    destruct (DB.getUsers ls) as [users| | |]; [|discriminate..].
    destruct (find_first _ users) as [u|].
    + intros [= _ <-]. apply ReloadFacts.setCurrentUser_item, Hc.
    + destruct (DB.saveUser _ ls) as [ls1| | |] eqn:Hsave; intros [= _ <-].
      rewrite ReloadFacts.setCurrentUser_item by exact Hc.
      apply (ReloadFacts.saveUser_item _ _ _ _ Hsave Hu).
  - intros now s m app app' ls ls' Hdone.
    apply (ReloadFacts.onComplete_item _ _ _ _ _ _ _ _ Hdone Hu).
  - intros edits app app' ls ls'. unfold ProfileView.update, ExtendedApp.onSave.
    destruct (Extended.mode app); try (intros [= _ <-]; reflexivity).
    destruct (Extended.user app) as [u|]; [|intros [= _ <-]; reflexivity].
    destruct (DB.saveUser _ ls) as [ls1| | |] eqn:Hsave; intros [= _ <-].
    apply (ReloadFacts.saveUser_item _ _ _ _ Hsave Hu).
  - intros app ls. apply ReloadFacts.setCurrentUser_item, Hc.
  - intros fresh name app app' ls ls'. unfold Basic.handleAuth.
    destruct (String.eqb name EmptyString); [intros [= _ <-]; reflexivity|].
    destruct (DB.getUsers ls) as [users| | |]; [|discriminate..].
    destruct (find_first _ users) as [u|].
    + intros [= _ <-]. apply ReloadFacts.setCurrentUser_item, Hc.
    + destruct (DB.saveUser _ ls) as [ls1| | |] eqn:Hsave; intros [= _ <-].
      rewrite ReloadFacts.setCurrentUser_item by exact Hc.
      apply (ReloadFacts.saveUser_item _ _ _ _ Hsave Hu).
  - intros now s app app' ls ls'. unfold Basic.finishQuiz.
    destruct (Basic.user app) as [u|]; [|intros [= _ <-]; reflexivity].
    destruct (DB.saveUser _ ls) as [ls1| | |] eqn:Hsave; intros [= _ <-].
    rewrite ReloadFacts.setCurrentUser_item by exact Hc.
    apply (ReloadFacts.saveUser_item _ _ _ _ Hsave Hu).
  - intros app ls. apply ReloadFacts.setCurrentUser_item, Hc.
Qed.

Lemma completion_is_lost_on_reload_witness :
  ExtendedApp.mount
    (Samples.saved
       [Extended.updated Samples.now 0 {["c1" := JS.Num 0]} 1 "s1" Samples.ann; Samples.bob])
  = Returns (Extended.Build_App Extended.Landing (Some Samples.ann) None [])
  /\ exists sd,
       Some Samples.sheet = Some sd
       /\ persisted "u1"
            (Samples.saved
               [Extended.updated Samples.now 0 {["c1" := JS.Num 0]} 1 "s1" Samples.ann;
                Samples.bob])
          = Some (Extended.updated Samples.now 0 {["c1" := JS.Num 0]} 1
                    (Extended.sd_id sd) Samples.ann).
Proof.
  destruct (completion_is_lost_on_reload Samples.now 0 {["c1" := JS.Num 0]}
              (Samples.quiz_of Samples.ann [Samples.about "c1"])
              (Samples.finished
                 (Extended.updated Samples.now 0 {["c1" := JS.Num 0]} 1 "s1" Samples.ann)
                 [Samples.about "c1"])
              Samples.store
              (Samples.saved
                 [Extended.updated Samples.now 0 {["c1" := JS.Num 0]} 1 "s1" Samples.ann;
                  Samples.bob])
              Samples.ann)
    as (_ & Hmount & Hstored & _).
  - reflexivity.
  - vm_compute. reflexivity.
  - vm_compute. reflexivity.
  - split; [exact Hmount | exact Hstored].
Defined.

Lemma basic_completion_survives_reload_witness :
  BasicApp.mount
    (DB.setCurrentUser (Some (Basic.updated Samples.now 1 1 Samples.old_ann))
       (setItem "mp_users"
          (JSON.stringify (JArr [encode (Basic.updated Samples.now 1 1 Samples.old_ann)]))
          Samples.old_store))
  = Returns (Basic.Build_App Basic.Landing
               (Some (Basic.updated Samples.now 1 1 Samples.old_ann)) [] None).
Proof.
  apply (basic_completion_survives_reload Samples.now 1 Samples.old_quiz
           (Basic.Build_App Basic.Dashboard
              (Some (Basic.updated Samples.now 1 1 Samples.old_ann))
              [Samples.about "c1"] (Some (1, 1)))
           Samples.old_store _ Samples.old_ann).
  - reflexivity.
  - vm_compute. reflexivity.
Defined.

Lemma profile_update_changes_profile_only_witness :
  exists u',
    persisted "u1"
      (Samples.saved
         [ProfileView.submitted Samples.ann
            (ProfileView.edited Samples.ann
               [ProfileView.SetSubject "Physics";
                ProfileView.SetAcademicLevel "High School"]);
          Samples.bob])
    = Some u'
    /\ Extended.profile u'
       = ProfileView.edited Samples.ann
           [ProfileView.SetSubject "Physics"; ProfileView.SetAcademicLevel "High School"]
    /\ Extended.quizHistory u' = Extended.quizHistory Samples.ann
    /\ Extended.conceptMastery u' = Extended.conceptMastery Samples.ann.
Proof.
  destruct (profile_update_changes_profile_only
              [ProfileView.SetSubject "Physics"; ProfileView.SetAcademicLevel "High School"]
              (Extended.Build_App Extended.Profile (Some Samples.ann) None [])
              (Extended.Build_App Extended.Landing
                 (Some (ProfileView.submitted Samples.ann
                          (ProfileView.edited Samples.ann
                             [ProfileView.SetSubject "Physics";
                              ProfileView.SetAcademicLevel "High School"])))
                 None [])
              Samples.store
              (Samples.saved
                 [ProfileView.submitted Samples.ann
                    (ProfileView.edited Samples.ann
                       [ProfileView.SetSubject "Physics";
                        ProfileView.SetAcademicLevel "High School"]);
                  Samples.bob])
              Samples.ann)
    as (u' & _ & _ & Hp & Hprof & (_ & _ & _ & Hh & _ & Hm) & _).
  - reflexivity.
  - reflexivity.
  - vm_compute. reflexivity.
  - vm_compute. reflexivity.
  - exists u'. repeat split; assumption.
Defined.

Lemma handlers_write_two_items_only_witness :
  getItem "mp_network"
    (Samples.saved
       [Extended.updated Samples.now 0 {["c1" := JS.Num 0]} 1 "s1" Samples.ann; Samples.bob])
  = getItem "mp_network" Samples.store.
Proof.
  destruct (handlers_write_two_items_only "mp_network") as (_ & Hdone & _).
  - discriminate.
  - discriminate.
  - apply (Hdone Samples.now 0 {["c1" := JS.Num 0]}
             (Samples.quiz_of Samples.ann [Samples.about "c1"])
             (Samples.finished
                (Extended.updated Samples.now 0 {["c1" := JS.Num 0]} 1 "s1" Samples.ann)
                [Samples.about "c1"])
             Samples.store).
    vm_compute. reflexivity.
Defined.

(** * The quiz view: what a run can and cannot do *)

Module ProgressFacts.
Import Progress.

Lemma drop_sublist_le {A : Type} (l : list A) (n m : nat) :
  (n <= m)%nat -> drop m l `sublist_of` drop n l.
Proof.
  intros Hle. replace m with (n + (m - n))%nat by lia.
  rewrite <- drop_drop. apply sublist_drop.
Qed.

Section Extended.
Import Extended Extended.QuizView.
Variable questions : list QuizQuestion.

(** One event either grades the question the view is at, or grades nothing
    and does not go back. *)
Lemma step_progress (ev : event) (st st' : State) (done : option (Z * gmap string JS.value)) :
  step questions ev st = (st', done) ->
  (observed questions ev st = [] /\ (dealt st <= dealt st')%nat)
  \/ (exists cur b,
        observed questions ev st = [(conceptId cur, b)]
        /\ questions !! dealt st = Some cur
        /\ dealt st' = S (dealt st)).
Proof.
  unfold step, observed, can_submit, handleSubmit, next, dealt.
  destruct (current questions st) as [cur|] eqn:Hcur.
  - unfold current in Hcur. destruct ev as [text | [result|] | | ].
    + intros [= <- <-]. left. split; [reflexivity | simpl; lia].
    + destruct (feedback st) eqn:Hfb; simpl;
        [intros [= <- <-]; left; rewrite Hfb; split; [reflexivity | lia]|].
      destruct (blank (answer st) || loading st); simpl;
        [intros [= <- <-]; left; rewrite Hfb; split; [reflexivity | lia]|].
      intros [= <- <-]. right. exists cur, (isCorrect result).
      rewrite Nat.add_0_r. split; [reflexivity|]. split; [exact Hcur|].
      destruct (isCorrect result); simpl; lia.
    + destruct (feedback st) eqn:Hfb; simpl;
        [intros [= <- <-]; left; rewrite Hfb; split; [reflexivity | lia]|].
      destruct (blank (answer st) || loading st); simpl;
        intros [= <- <-]; left; rewrite ?Hfb; simpl; split; (reflexivity || lia).
    + destruct (feedback st) eqn:Hfb;
        [|intros [= <- <-]; left; rewrite Hfb; split; [reflexivity | lia]].
      destruct (Z.of_nat (index st) <? Z.of_nat (length questions) - 1);
        intros [= <- <-]; left; rewrite ?Hfb; simpl; split; (reflexivity || lia).
    + intros [= <- <-]. left. split; [reflexivity | lia].
  - destruct ev as [text | [result|] | | ]; intros [= <- <-]; left;
      (split; [reflexivity | lia]).
Qed.

Lemma outcomes_sublist (evs : list event) :
  forall st : State,
    fst <$> outcomes questions evs st
    `sublist_of` conceptId <$> drop (dealt st) questions.
Proof.
  induction evs as [|ev evs IH]; intros st; simpl; [apply sublist_nil_l|].
  destruct (step questions ev st) as [st1 d1] eqn:Hstep.
  assert (Hrest :
    fst <$> match d1 with
            | Some _ => []
            | None => outcomes questions evs st1
            end
    `sublist_of` conceptId <$> drop (dealt st1) questions).
  { destruct d1; [apply sublist_nil_l | apply IH]. }
  rewrite fmap_app.
  destruct (step_progress _ _ _ _ Hstep) as [[-> Hle] | (cur & b & -> & Hcur & Hnext)].
  - simpl. etransitivity; [exact Hrest|].
    apply fmap_sublist, drop_sublist_le, Hle.
  - rewrite (drop_S _ _ _ Hcur), <- Hnext. simpl.
    apply sublist_skip. exact Hrest.
Qed.

Lemma tally_key (log : list answered) (cid : string) (v : JS.value) :
  tally log !! cid = Some v -> cid ∈ fst <$> log.
Proof.
  intros Hv. destruct (decide (cid ∈ fst <$> log)) as [Hin|Hnin]; [exact Hin|].
  rewrite (MasteryFacts.tally_untouched _ _ Hnin) in Hv. discriminate.
Qed.

Lemma step_tick (st : State) : step questions Tick st = (st, None).
Proof. unfold step. destruct (current questions st); reflexivity. Qed.

Lemma run_without_ticks (evs : list event) :
  forall st : State,
    run questions (without_ticks evs) st = run questions evs st
    /\ outcomes questions (without_ticks evs) st = outcomes questions evs st.
Proof.
  induction evs as [|ev evs IH]; intros st; [split; reflexivity|].
  destruct ev as [text | g | | ]; cbn [without_ticks List.filter is_tick negb run outcomes];
    fold (without_ticks evs).
  4: { rewrite step_tick. unfold observed. simpl. apply IH. }
  all: destruct (step questions _ st) as [st1 [d1|]]; [split; reflexivity|];
       destruct (IH st1) as [-> ->]; split; reflexivity.
Qed.

End Extended.

Section Basic.
Import Basic Basic.QuizView.
Variable questions : list QuizQuestion.
Variable isExam : bool.

Lemma basic_step_progress (ev : event) (st st' : State) (done : option Z) :
  step questions isExam ev st = (st', done) ->
  (observed questions ev st = []
   /\ basic_dealt st' = basic_dealt st
   /\ (forall s, done = Some s -> isExam = false ->
         (length questions <= basic_dealt st)%nat))
  \/ (done = None
      /\ exists cur b,
           observed questions ev st = [(conceptId cur, b)]
           /\ questions !! basic_dealt st = Some cur
           /\ basic_dealt st' = S (basic_dealt st)).
Proof.
  unfold step, observed, can_submit, handleSubmit, handleNext, tick, basic_dealt.
  destruct (currentQ questions st) as [cur|] eqn:Hcur.
  - unfold currentQ in Hcur. destruct ev as [text | [res|] | | ].
    + destruct (feedback st) eqn:Hfb; intros [= <- <-]; left; simpl; rewrite ?Hfb;
        (split; [reflexivity|]; split; [reflexivity | discriminate]).
    + destruct (feedback st) eqn:Hfb; simpl;
        [intros [= <- <-]; left; rewrite Hfb;
         split; [reflexivity|]; split; [reflexivity | discriminate]|].
      destruct (blank (userAnswer st)) eqn:Hb; simpl;
        [intros [= <- <-]; left; rewrite Hfb;
         split; [reflexivity|]; split; [reflexivity | discriminate]|].
      destruct (loadingFeedback st); simpl;
        [intros [= <- <-]; left; rewrite Hfb;
         split; [reflexivity|]; split; [reflexivity | discriminate]|].
      intros [= <- <-]. right. split; [reflexivity|]. exists cur, (isCorrect res).
      rewrite Nat.add_0_r. split; [reflexivity|]. split; [exact Hcur|]. simpl. lia.
    + destruct (feedback st) eqn:Hfb; simpl;
        [intros [= <- <-]; left; rewrite Hfb;
         split; [reflexivity|]; split; [reflexivity | discriminate]|].
      destruct (blank (userAnswer st)) eqn:Hb; simpl;
        [intros [= <- <-]; left; rewrite Hfb;
         split; [reflexivity|]; split; [reflexivity | discriminate]|].
      destruct (loadingFeedback st); simpl; intros [= <- <-]; left; simpl; rewrite ?Hfb;
        (split; [reflexivity|]; split; [reflexivity | discriminate]).
    + destruct (feedback st) eqn:Hfb;
        [|intros [= <- <-]; left; rewrite Hfb;
          split; [reflexivity|]; split; [reflexivity | discriminate]].
      destruct (Z.ltb_spec (Z.of_nat (currentIdx st)) (Z.of_nat (length questions) - 1));
        intros [= <- <-]; left; simpl; rewrite ?Hfb;
        (split; [reflexivity|]; split; [lia|]); [discriminate|].
      intros _ _ _. lia.
    + destruct isExam; simpl.
      * destruct (0 <? timeLeft st); [|intros [= <- <-]; left;
          split; [reflexivity|]; split; [reflexivity | discriminate]].
        destruct (timeLeft st <=? 1); intros [= <- <-]; left; simpl;
          (split; [reflexivity|]; split; [reflexivity | discriminate]).
      * intros [= <- <-]. left. split; [reflexivity|]. split; [reflexivity | discriminate].
  - destruct ev as [text | [res|] | | ]; intros [= <- <-]; left;
      (split; [reflexivity|]; split; [reflexivity | discriminate]).
Qed.

Lemma basic_outcomes_sublist (evs : list event) :
  forall st : State,
    fst <$> outcomes questions isExam evs st
    `sublist_of` conceptId <$> drop (basic_dealt st) questions.
Proof.
  induction evs as [|ev evs IH]; intros st; simpl; [apply sublist_nil_l|].
  destruct (step questions isExam ev st) as [st1 d1] eqn:Hstep.
  assert (Hrest :
    fst <$> match d1 with
            | Some _ => []
            | None => outcomes questions isExam evs st1
            end
    `sublist_of` conceptId <$> drop (basic_dealt st1) questions).
  { destruct d1; [apply sublist_nil_l | apply IH]. }
  rewrite fmap_app.
  destruct (basic_step_progress _ _ _ _ Hstep)
    as [(-> & Heq & _) | (_ & cur & b & -> & Hcur & Hnext)].
  - simpl. rewrite <- Heq. exact Hrest.
  - rewrite (drop_S _ _ _ Hcur), <- Hnext. simpl.
    apply sublist_skip. exact Hrest.
Qed.

End Basic.

Section Practice.
Import Basic Basic.QuizView.
Variable questions : list QuizQuestion.

(** Outside exam mode a run that completes has graded every question it
    was not yet done with. *)
Lemma practice_outcomes (evs : list event) :
  forall (st st' : State) (s : Z),
    run questions false evs st = (st', Some s) ->
    fst <$> outcomes questions false evs st
    = conceptId <$> drop (basic_dealt st) questions.
Proof.
  induction evs as [|ev evs IH]; intros st st' s; simpl; [discriminate|].
  destruct (step questions false ev st) as [st1 d1] eqn:Hstep.
  rewrite fmap_app.
  destruct (basic_step_progress _ _ _ _ _ _ Hstep)
    as [(-> & Heq & Hdone) | (-> & cur & b & -> & Hcur & Hnext)].
  - destruct d1 as [s1|].
    + intros _. simpl. rewrite drop_ge; [reflexivity|].
      apply (Hdone s1); reflexivity.
    + intros Hrun. simpl. rewrite <- Heq. apply (IH _ _ _ Hrun).
  - intros Hrun. rewrite (drop_S _ _ _ Hcur), <- Hnext. simpl.
    f_equal. apply (IH _ _ _ Hrun).
Qed.

Lemma basic_step_tick (st : State) : step questions false Tick st = (st, None).
Proof. unfold step. destruct (currentQ questions st); reflexivity. Qed.

Lemma practice_without_ticks (evs : list event) :
  forall st : State,
    run questions false (without_ticks evs) st = run questions false evs st
    /\ outcomes questions false (without_ticks evs) st = outcomes questions false evs st.
Proof.
  induction evs as [|ev evs IH]; intros st; [split; reflexivity|].
  destruct ev as [text | g | | ]; cbn [without_ticks List.filter is_tick negb run outcomes];
    fold (without_ticks evs).
  4: { rewrite basic_step_tick. unfold observed. simpl. apply IH. }
  all: destruct (step questions false _ st) as [st1 [d1|]]; [split; reflexivity|];
       destruct (IH st1) as [-> ->]; split; reflexivity.
Qed.

End Practice.

Section Exam.
Import Basic Basic.QuizView.
Variable questions : list QuizQuestion.

(** While the exam goes on there is a current question, and the time left
    goes down by one on a tick and stays on any other event. *)
Lemma exam_step (ev : event) (st st' : State) (cur : QuizQuestion) :
  currentQ questions st = Some cur ->
  0 < timeLeft st ->
  step questions true ev st = (st', None) ->
  (exists cur', currentQ questions st' = Some cur')
  /\ timeLeft st' = (if is_tick ev then timeLeft st - 1 else timeLeft st)
  /\ 0 < timeLeft st'.
Proof.
  intros Hcur Hpos. unfold step. rewrite Hcur.
  unfold currentQ in *. destruct ev as [text | g | | ]; simpl.
  - destruct (feedback st); intros [= <-]; simpl; eauto.
  - destruct (can_submit questions st); intros [= <-]; [|eauto].
    unfold handleSubmit, currentQ. destruct (blank (userAnswer st)); [eauto|].
    rewrite Hcur. destruct g; simpl; eauto.
  - destruct (feedback st); [|intros [= <-]; eauto].
    unfold handleNext.
    destruct (Z.ltb_spec (Z.of_nat (currentIdx st)) (Z.of_nat (length questions) - 1));
      [|discriminate].
    intros [= <-]. simpl. split; [|split; [reflexivity | assumption]].
    apply lookup_lt_is_Some. lia.
  - unfold tick. simpl. destruct (Z.ltb_spec 0 (timeLeft st)); [|lia].
    destruct (Z.leb_spec (timeLeft st) 1); [discriminate|].
    intros [= <-]. simpl. split; [eauto|]. split; [reflexivity | lia].
Qed.

Lemma exam_runs_out (evs : list event) :
  forall (st : State) (cur : QuizQuestion),
    currentQ questions st = Some cur ->
    0 < timeLeft st ->
    timeLeft st <= Z.of_nat (ticks evs) ->
    exists s, snd (run questions true evs st) = Some s.
Proof.
  induction evs as [|ev evs IH]; intros st cur Hcur Hpos Hticks.
  - unfold ticks in Hticks. simpl in Hticks. lia.
  - cbn [run]. destruct (step questions true ev st) as [st1 [s1|]] eqn:Hstep.
    + exists s1. reflexivity.
    + destruct (exam_step _ _ _ _ Hcur Hpos Hstep) as ((cur' & Hcur') & Htime & Hpos').
      apply (IH st1 cur' Hcur' Hpos').
      rewrite Htime. unfold ticks in *. cbn [List.filter] in Hticks.
      destruct (is_tick ev); simpl in Hticks; lia.
Qed.

End Exam.

Lemma score_bound (questions : list QuizQuestion) (evs : list event) (s : Z)
    (m : gmap string JS.value) :
  Extended.QuizView.session questions evs = Some (s, m) ->
  0 <= s <= Z.of_nat (length questions).
Proof.
  intros Hs. destruct (QuizFacts.session_tally _ _ _ _ Hs) as [-> _].
  pose proof (sublist_length _ _
                (outcomes_sublist questions evs Extended.QuizView.initial)) as Hlen.
  rewrite !length_fmap, length_drop in Hlen.
  unfold correct_count, Extended.QuizView.session_outcomes.
  pose proof (length_filter (fun o : answered => snd o = true)
                (Extended.QuizView.outcomes questions evs Extended.QuizView.initial)).
  lia.
Qed.

Lemma basic_score_bound (questions : list QuizQuestion) (isExam : bool)
    (evs : list event) (s : Z) :
  Basic.QuizView.session questions isExam evs = Some s ->
  0 <= s <= Z.of_nat (length questions).
Proof.
  intros Hs. rewrite (QuizFacts.basic_session_score _ _ _ _ Hs).
  pose proof (sublist_length _ _
                (basic_outcomes_sublist questions isExam evs
                   (Basic.QuizView.initial questions isExam))) as Hlen.
  rewrite !length_fmap, length_drop in Hlen.
  unfold correct_count, Basic.QuizView.session_outcomes.
  pose proof (length_filter (fun o : answered => snd o = true)
                (Basic.QuizView.outcomes questions isExam evs
                   (Basic.QuizView.initial questions isExam))).
  lia.
Qed.

(** *** Counting answers *)

Lemma sublist_filter_mono {A : Type} (P : A -> Prop) `{!forall x, Decision (P x)}
    (l1 l2 : list A) :
  l1 `sublist_of` l2 -> filter P l1 `sublist_of` filter P l2.
Proof.
  induction 1 as [|x l1 l2 _ IH|x l1 l2 _ IH]; [constructor| |].
  - rewrite !filter_cons. destruct (decide (P x)); [apply sublist_skip|]; exact IH.
  - rewrite filter_cons. destruct (decide (P x)); [apply sublist_cons|]; exact IH.
Qed.

Lemma count_fmap {A : Type} (f : A -> string) (cid : string) (l : list A) :
  length (filter (fun x => f x = cid) l) = length (filter (fun y => y = cid) (f <$> l)).
Proof.
  induction l as [|x l IH]; [reflexivity|].
  rewrite fmap_cons, !filter_cons.
  destruct (decide (f x = cid)); simpl; rewrite IH; reflexivity.
Qed.

Lemma answers_on_cons (cid : string) (b : bool) (o : answered) (log : list answered) :
  answers_on cid b (o :: log) =
  (if decide (fst o = cid /\ snd o = b) then 1 else 0) + answers_on cid b log.
Proof.
  unfold answers_on. rewrite filter_cons.
  destruct (decide (fst o = cid /\ snd o = b)); simpl length; lia.
Qed.

Lemma answers_on_total (cid : string) (log : list answered) :
  answers_on cid true log + answers_on cid false log
  = Z.of_nat (length (filter (fun o : answered => fst o = cid) log)).
Proof.
  induction log as [|o log IH]; [reflexivity|].
  rewrite !answers_on_cons, filter_cons.
  destruct o as [c [|]]; simpl fst; simpl snd;
    destruct (decide (c = cid)) as [->|Hne];
    repeat match goal with
           | |- context [decide (?P /\ ?Q)] =>
               destruct (decide (P /\ Q)) as [[? ?]|?]
           end;
    try congruence; try tauto; simpl length; lia.
Qed.

Lemma answers_on_questions (questions : list QuizQuestion) (log : list answered)
    (cid : string) :
  fst <$> log `sublist_of` conceptId <$> questions ->
  answers_on cid true log + answers_on cid false log <= questions_on cid questions.
Proof.
  intros Hsub. rewrite answers_on_total. unfold questions_on.
  rewrite (count_fmap fst), (count_fmap conceptId).
  apply Nat2Z.inj_le, sublist_length, sublist_filter_mono, Hsub.
Qed.

Section Adjustments.
Import Extended Extended.QuizView.

Lemma running_adjust (m : gmap string JS.value) (o : answered) (cid : string) (z : Z) :
  running m cid = JS.Num z ->
  running (adjust m o) cid =
  JS.Num (if decide (fst o = cid) then
            if snd o then z + 10 else Z.max 0 (z - 5)
          else z).
Proof.
  intros Hz. unfold running at 1. unfold JS.get.
  rewrite MasteryFacts.adjust_lookup.
  destruct (decide (fst o = cid)) as [Heq|Hne].
  - rewrite Hz. destruct (snd o); reflexivity.
  - exact Hz.
Qed.

Lemma fold_adjust_bounds (log : list answered) (cid : string) :
  forall (m : gmap string JS.value) (z : Z),
    running m cid = JS.Num z -> 0 <= z ->
    exists z',
      running (fold_left adjust log m) cid = JS.Num z'
      /\ z + 10 * answers_on cid true log - 5 * answers_on cid false log
           <= z' <= z + 10 * answers_on cid true log
      /\ 0 <= z'.
Proof.
  induction log as [|o log IH]; intros m z Hz Hpos.
  - exists z. split; [exact Hz|]. unfold answers_on. simpl. lia.
  - cbn [fold_left]. rewrite !answers_on_cons.
    pose proof (running_adjust m o cid z Hz) as Hstep.
    destruct o as [c b]. simpl fst in *. simpl snd in *.
    destruct (IH _ _ Hstep) as (z' & Hz' & [Hlow Hup] & Hpos').
    { destruct (decide (c = cid)); [destruct b|]; lia. }
    exists z'. split; [exact Hz'|]. split; [|exact Hpos'].
    destruct (decide (c = cid)) as [->|Hne].
    + destruct b;
        repeat match goal with
               | |- context [decide (?P /\ ?Q)] =>
                   destruct (decide (P /\ Q)) as [[? ?]|?]
               end;
        try congruence; try tauto; lia.
    + repeat match goal with
             | |- context [decide (?P /\ ?Q)] =>
                 destruct (decide (P /\ Q)) as [[? ?]|?]
             end;
        try congruence; lia.
Qed.

Lemma tally_bounds (log : list answered) (cid : string) :
  cid ∉ JS.inherited ->
  exists a,
    running (tally log) cid = JS.Num a
    /\ 10 * answers_on cid true log - 5 * answers_on cid false log
         <= a <= 10 * answers_on cid true log
    /\ 0 <= a.
Proof.
  intros Hcid.
  assert (H0 : running (∅ : gmap string JS.value) cid = JS.Num 0).
  { unfold running, JS.get. rewrite lookup_empty.
    rewrite bool_decide_eq_false_2 by exact Hcid. reflexivity. }
  destruct (fold_adjust_bounds log cid ∅ 0 H0) as (a & Ha & [Hlow Hup] & Hpos); [lia|].
  exists a. split; [exact Ha|]. repeat split; lia.
Qed.

(** A concept with a graded answer has an adjustment. *)
Lemma tally_touched (log : list answered) (cid : string) :
  cid ∈ fst <$> log -> tally log !! cid <> None.
Proof.
  unfold tally. generalize (∅ : gmap string JS.value) as m0. revert cid.
  induction log as [|o rest IH]; intros cid m0 Hin.
  - apply elem_of_nil in Hin. contradiction.
  - cbn [fold_left]. destruct (decide (cid ∈ fst <$> rest)) as [Hr|Hr];
      [apply IH, Hr|].
    rewrite (MasteryFacts.fold_adjust_untouched _ _ _ Hr).
    rewrite fmap_cons in Hin. apply elem_of_cons in Hin as [->|Hin]; [|contradiction].
    rewrite MasteryFacts.adjust_lookup.
    destruct (decide (fst o = fst o)); [discriminate | contradiction].
Qed.

(** The value [running] reads is the value the session map holds. *)
Lemma running_lookup (m : gmap string JS.value) (cid : string) (v : JS.value) (a : Z) :
  m !! cid = Some v -> running m cid = JS.Num a ->
  (forall w, m !! cid = Some w -> exists z, w = JS.Num z /\ 0 <= z) ->
  v = JS.Num a.
Proof.
  intros Hv Ha Hcounted. destruct (Hcounted _ Hv) as (z & -> & _).
  unfold running, JS.get in Ha. rewrite Hv in Ha. simpl in Ha. exact Ha.
Qed.

(** The merge read through [|| 0], under a name that no object inherits. *)
Lemma reading_merge (log : list answered) (cm : gmap string JS.level) (cid : string) :
  cid ∉ JS.inherited ->
  exists old a,
    reading cm cid = JS.Num old
    /\ running (tally log) cid = JS.Num a
    /\ 0 <= a
    /\ reading (merge_mastery (tally log) cm) cid =
       JS.Num match tally log !! cid with
              | Some _ => Z.min 100 (old + a)
              | None => old
              end.
Proof.
  intros Hcid. destruct (tally_bounds log cid Hcid) as (a & Ha & _ & Hpos).
  eexists _, a. split; [apply MasteryFacts.reading_ordinary, Hcid|].
  split; [exact Ha|]. split; [exact Hpos|].
  rewrite (MasteryFacts.reading_ordinary _ _ Hcid),
    (MasteryFacts.merge_mastery_ordinary _ _ _ Hcid).
  destruct (tally log !! cid) as [v|] eqn:E; [|reflexivity].
  rewrite (running_lookup _ _ _ _ E Ha (MasteryFacts.tally_counted log cid Hcid)).
  rewrite (MasteryFacts.reading_ordinary _ _ Hcid). reflexivity.
Qed.

Lemma reading_capped (cm : gmap string JS.level) (cid : string) (old : Z) :
  map_Forall (fun _ l => forall z, l = JS.Percent z -> z <= 100) cm ->
  reading cm cid = JS.Num old -> cid ∉ JS.inherited -> old <= 100.
Proof.
  intros Hcap Hold Hcid. rewrite (MasteryFacts.reading_ordinary _ _ Hcid) in Hold.
  injection Hold as <-.
  destruct (cm !! cid) as [[z|]|] eqn:E; try lia.
  apply (Hcap _ _ E). reflexivity.
Qed.

End Adjustments.

End ProgressFacts.

(** X11. In the second generation the graded answers of a run are answers
    to the quiz's questions, each question graded at most once and in the
    order of the quiz; so a completed session reports a score between 0 and
    the number of questions, and adjusts only concepts that a question is
    about. *)
Theorem graded_answers_follow_questions (questions : list QuizQuestion)
    (evs : list event) :
  fst <$> Extended.QuizView.session_outcomes questions evs
    `sublist_of` conceptId <$> questions
  /\ forall s m,
       Extended.QuizView.session questions evs = Some (s, m) ->
       0 <= s <= Z.of_nat (length questions)
       /\ forall cid v, m !! cid = Some v -> cid ∈ conceptId <$> questions.
Proof.
  assert (Hsub : fst <$> Extended.QuizView.session_outcomes questions evs
                 `sublist_of` conceptId <$> questions)
    by apply (ProgressFacts.outcomes_sublist questions evs Extended.QuizView.initial).
  split; [exact Hsub|]. intros s m Hs.
  split; [apply (ProgressFacts.score_bound _ _ _ _ Hs)|].
  intros cid v Hv. destruct (QuizFacts.session_tally _ _ _ _ Hs) as [_ ->].
  apply (elem_of_sublist _ _ _ (ProgressFacts.tally_key _ _ _ Hv) Hsub).
Qed.

Lemma graded_answers_follow_questions_witness :
  0 <= 2 <= Z.of_nat (length Samples.three_on_c1)
  /\ forall cid v,
       ({["c1" := JS.Num 15]} : gmap string JS.value) !! cid = Some v ->
       cid ∈ conceptId <$> Samples.three_on_c1.
Proof.
  apply (proj2 (graded_answers_follow_questions Samples.three_on_c1
                  Samples.right_right_wrong) 2 {["c1" := JS.Num 15]}).
  vm_compute. reflexivity.
Defined.

(** X12. In the first generation too the graded answers follow the
    questions and the score lies between 0 and their number; outside exam
    mode a session completes only when every question has been graded, once
    each, because a failed grading leaves the question open and only a
    graded question can be left. *)
Theorem practice_session_grades_every_question (questions : list QuizQuestion)
    (isExam : bool) (evs : list event) :
  fst <$> Basic.QuizView.session_outcomes questions isExam evs
    `sublist_of` conceptId <$> questions
  /\ (forall s,
        Basic.QuizView.session questions isExam evs = Some s ->
        0 <= s <= Z.of_nat (length questions))
  /\ (forall s,
        isExam = false ->
        Basic.QuizView.session questions isExam evs = Some s ->
        fst <$> Basic.QuizView.session_outcomes questions isExam evs
        = conceptId <$> questions).
Proof.
  split; [|split].
  - apply (ProgressFacts.basic_outcomes_sublist questions isExam evs
             (Basic.QuizView.initial questions isExam)).
  - intros s Hs. apply (ProgressFacts.basic_score_bound _ _ _ _ Hs).
  - intros s -> Hs. unfold Basic.QuizView.session in Hs.
    destruct (Basic.QuizView.run questions false evs
                (Basic.QuizView.initial questions false)) as [st' d] eqn:Hrun.
    simpl in Hs. subst d.
    apply (ProgressFacts.practice_outcomes _ _ _ _ _ Hrun).
Qed.

Lemma practice_session_grades_every_question_witness :
  fst <$> Basic.QuizView.session_outcomes [Samples.about "c1"] false
            (Samples.round "x" GradingFailed ++ Samples.round "x" (Graded Samples.right))
  = conceptId <$> [Samples.about "c1"].
Proof.
  apply (proj2 (proj2 (practice_session_grades_every_question [Samples.about "c1"] false
                         (Samples.round "x" GradingFailed
                          ++ Samples.round "x" (Graded Samples.right)))) 1).
  - reflexivity.
  - vm_compute. reflexivity.
Defined.

(** X13. A first-generation exam on at least one question is over once the
    countdown has ticked 45 times per question, whatever else happened in
    between; the score it reports is between 0 and the number of
    questions. *)
Theorem exam_ends_when_time_is_up (questions : list QuizQuestion) (evs : list event) :
  questions <> [] ->
  (45 * length questions <= Progress.ticks evs)%nat ->
  exists s,
    Basic.QuizView.session questions true evs = Some s
    /\ 0 <= s <= Z.of_nat (length questions).
Proof.
  intros Hne Hticks. destruct questions as [|q rest] eqn:Hqs; [contradiction|].
  rewrite <- Hqs in *.
  destruct (ProgressFacts.exam_runs_out questions evs
              (Basic.QuizView.initial questions true) q) as [s Hs].
  - rewrite Hqs. reflexivity.
  - rewrite Hqs. simpl. lia.
  - simpl. lia.
  - exists s. split; [exact Hs|]. apply (ProgressFacts.basic_score_bound _ _ _ _ Hs).
Qed.

Lemma exam_ends_when_time_is_up_witness :
  exists s,
    Basic.QuizView.session [Samples.about "c1"] true
      (Samples.round "x" (Graded Samples.right) ++ replicate 45 Tick) = Some s
    /\ 0 <= s <= Z.of_nat (length [Samples.about "c1"]).
Proof.
  apply (exam_ends_when_time_is_up [Samples.about "c1"]
           (Samples.round "x" (Graded Samples.right) ++ replicate 45 Tick)).
  - discriminate.
  - vm_compute. lia.
Defined.

(** X14. Only the first-generation exam has a countdown: in the second
    generation, and in the first outside exam mode, the passing of time
    changes neither what a run reports nor its graded answers. *)
Theorem countdown_only_in_first_generation_exam (questions : list QuizQuestion)
    (evs : list event) :
  Extended.QuizView.session questions (Progress.without_ticks evs)
    = Extended.QuizView.session questions evs
  /\ Extended.QuizView.session_outcomes questions (Progress.without_ticks evs)
     = Extended.QuizView.session_outcomes questions evs
  /\ Basic.QuizView.session questions false (Progress.without_ticks evs)
     = Basic.QuizView.session questions false evs
  /\ Basic.QuizView.session_outcomes questions false (Progress.without_ticks evs)
     = Basic.QuizView.session_outcomes questions false evs.
Proof.
  unfold Extended.QuizView.session, Extended.QuizView.session_outcomes,
    Basic.QuizView.session, Basic.QuizView.session_outcomes.
  destruct (ProgressFacts.run_without_ticks questions evs Extended.QuizView.initial)
    as [-> ->].
  destruct (ProgressFacts.practice_without_ticks questions evs
              (Basic.QuizView.initial questions false)) as [-> ->].
  repeat split.
Qed.

Section MasteryGrowth.
Import Extended.

(** X15. For a user whose stored record is the one the application holds
    and none of whose stored masteries is above 100, a completed quiz never
    lowers what the concepts view shows for a concept whose id is not the
    name of a member every object inherits: the mastery read from the
    stored user is a number, at least what it was and at most 100, the
    colour of its bar does not move back, and a concept shown as mastered
    stays mastered. *)
Theorem completed_session_never_lowers_mastery (now : string) (evs : list event)
    (app app' : App) (ls ls' : localStorage) (u : User) :
  user app = Some u ->
  persisted (id u) ls = Some u ->
  map_Forall (fun _ l => forall z, l = JS.Percent z -> z <= 100) (conceptMastery u) ->
  quiz_session now evs app ls = Some (app', Returns ls') ->
  exists u',
    user app' = Some u'
    /\ persisted (id u) ls' = Some u'
    /\ forall c : ConceptsView.Concept,
         ConceptsView.id c ∉ JS.inherited ->
         exists old new,
           ConceptsView.mastery u c = JS.Num old
           /\ ConceptsView.mastery u' c = JS.Num new
           /\ old <= new <= 100
           /\ ConceptsView.rank (ConceptsView.colour (ConceptsView.mastery u c))
              <= ConceptsView.rank (ConceptsView.colour (ConceptsView.mastery u' c))
           /\ (ConceptsView.mastered u c = true -> ConceptsView.mastered u' c = true).
Proof.
  intros Hu _ Hcap Hdone.
  destruct (SessionFacts.quiz_session_saved _ _ _ _ _ _ _ Hu Hdone)
    as (sd & s & m & _ & _ & _ & Hm & Hu' & Hp).
  eexists. split; [exact Hu'|]. split; [exact Hp|].
  intros c Hc. unfold ConceptsView.mastered, ConceptsView.mastery.
  cbn [updated conceptMastery]. subst m.
  destruct (ProgressFacts.reading_merge
              (QuizView.session_outcomes (questions app) evs) (conceptMastery u)
              (ConceptsView.id c) Hc)
    as (old & a & Hold & _ & Ha & Hnew).
  pose proof (ProgressFacts.reading_capped _ _ _ Hcap Hold Hc) as Hle.
  rewrite Hold, Hnew.
  set (new := match QuizView.tally _ !! ConceptsView.id c with
              | Some _ => Z.min 100 (old + a)
              | None => old
              end).
  assert (Hrange : old <= new <= 100).
  { unfold new. destruct (QuizView.tally _ !! ConceptsView.id c); lia. }
  clearbody new.
  exists old, new. split; [reflexivity|]. split; [reflexivity|].
  split; [exact Hrange|]. split.
  - unfold ConceptsView.colour.
    destruct (Z.geb_spec old 80), (Z.geb_spec new 80), (Z.geb_spec old 40),
      (Z.geb_spec new 40); simpl; lia.
  - intros Hmax. apply Z.eqb_eq in Hmax. apply Z.eqb_eq. lia.
Qed.

(** X16. The adjustment a completed session reports for a concept whose id
    is not the name of a member every object inherits is a number that
    lies between 10 per correct answer minus 5 per wrong answer and 10 per
    correct answer, is never negative, equals 10 per correct answer when
    no answer on the concept was wrong, and is at most 10 per question of
    the quiz on that concept. *)
Theorem adjustment_bounds (questions : list QuizQuestion) (evs : list event)
    (s : Z) (m : gmap string JS.value) (cid : string) :
  cid ∉ JS.inherited ->
  QuizView.session questions evs = Some (s, m) ->
  let log := QuizView.session_outcomes questions evs in
  exists a,
    QuizView.running m cid = JS.Num a
    /\ (forall v, m !! cid = Some v -> v = JS.Num a)
    /\ 10 * Progress.answers_on cid true log - 5 * Progress.answers_on cid false log
         <= a <= 10 * Progress.answers_on cid true log
    /\ 0 <= a
    /\ (Progress.answers_on cid false log = 0 ->
        a = 10 * Progress.answers_on cid true log)
    /\ a <= 10 * Progress.questions_on cid questions.
Proof.
  intros Hcid Hs log. destruct (QuizFacts.session_tally _ _ _ _ Hs) as [_ ->].
  fold log. destruct (ProgressFacts.tally_bounds log cid Hcid) as (a & Ha & [Hlow Hup] & Hpos).
  pose proof (ProgressFacts.answers_on_questions questions log cid
                (ProgressFacts.outcomes_sublist questions evs QuizView.initial)) as Hq.
  assert (0 <= Progress.answers_on cid false log) by (unfold Progress.answers_on; lia).
  exists a. split; [exact Ha|]. split.
  { intros v Hv.
    apply (ProgressFacts.running_lookup _ _ _ _ Hv Ha
             (MasteryFacts.tally_counted log cid Hcid)). }
  repeat split; lia.
Qed.

(** X17. For a user whose stored record is the one the application holds:
    when every graded answer of a completed quiz on a concept, whose id is
    not the name of a member every object inherits, was correct, and there
    was at least one, the stored mastery of the concept is its previous
    value (0 when absent) plus 10 per answer, capped at 100. *)
Theorem correct_answers_raise_stored_mastery (now : string) (evs : list event)
    (app app' : App) (ls ls' : localStorage) (u : User) (cid : string) :
  user app = Some u ->
  persisted (id u) ls = Some u ->
  cid ∉ JS.inherited ->
  quiz_session now evs app ls = Some (app', Returns ls') ->
  let log := QuizView.session_outcomes (questions app) evs in
  0 < Progress.answers_on cid true log ->
  Progress.answers_on cid false log = 0 ->
  exists u' previous,
    user app' = Some u'
    /\ persisted (id u) ls' = Some u'
    /\ reading (conceptMastery u) cid = JS.Num previous
    /\ conceptMastery u' !! cid
       = Some (JS.Percent (Z.min 100 (previous + 10 * Progress.answers_on cid true log))).
Proof.
  intros Hu _ Hcid Hdone log Hright Hwrong.
  destruct (SessionFacts.quiz_session_saved _ _ _ _ _ _ _ Hu Hdone)
    as (sd & s & m & _ & _ & _ & Hm & Hu' & Hp).
  fold log in Hm.
  eexists _, _. split; [exact Hu'|]. split; [exact Hp|].
  split; [apply MasteryFacts.reading_ordinary, Hcid|].
  cbn [updated conceptMastery].
  rewrite (MasteryFacts.merge_mastery_ordinary _ _ _ Hcid).
  destruct (ProgressFacts.tally_bounds log cid Hcid) as (a & Ha & [Hlow Hup] & _).
  assert (Hin : cid ∈ fst <$> log).
  { unfold Progress.answers_on in Hright.
    destruct (filter (fun o : answered => fst o = cid /\ snd o = true) log)
      as [|o rest] eqn:E; [simpl in Hright; lia|].
    assert (Ho : o ∈ filter (fun o : answered => fst o = cid /\ snd o = true) log)
      by (rewrite E; left).
    apply list_elem_of_filter in Ho as [[<- _] Ho].
    apply list_elem_of_fmap. exists o. split; [reflexivity | exact Ho]. }
  subst m. destruct (QuizView.tally log !! cid) as [v|] eqn:E.
  - rewrite (ProgressFacts.running_lookup _ _ _ _ E Ha
               (MasteryFacts.tally_counted log cid Hcid)).
    rewrite (MasteryFacts.reading_ordinary _ _ Hcid). cbn [JS.add JS.min100].
    do 3 f_equal. lia.
  - exfalso. exact (ProgressFacts.tally_touched log cid Hin E).
Qed.

(** X24. For a user whose stored record is the one the application holds,
    completing a session merges the adjustments into the stored mastery
    map: a concept that is not in the map handed to [onComplete], that is,
    a concept without a graded answer in the session, has the same value in
    the stored record as before, whatever its id. *)
Theorem merge_keeps_other_concepts :
  (forall now s masteries app app' ls ls' u,
     user app = Some u ->
     persisted (id u) ls = Some u ->
     onComplete now s masteries app ls = (app', Returns ls') ->
     exists u',
       user app' = Some u'
       /\ persisted (id u) ls' = Some u'
       /\ forall cid, masteries !! cid = None ->
            conceptMastery u' !! cid = conceptMastery u !! cid)
  /\ (forall now evs app app' ls ls' u,
        user app = Some u ->
        persisted (id u) ls = Some u ->
        quiz_session now evs app ls = Some (app', Returns ls') ->
        exists u',
          user app' = Some u'
          /\ persisted (id u) ls' = Some u'
          /\ forall cid,
               cid ∉ (fst <$> QuizView.session_outcomes (questions app) evs) ->
               conceptMastery u' !! cid = conceptMastery u !! cid).
Proof.
  split.
  - intros now s masteries app app' ls ls' u Hu _ Hdone.
    destruct (SessionFacts.onComplete_saved _ _ _ _ _ _ _ _ Hu Hdone)
      as (sd & _ & Hu' & Hp).
    eexists. split; [exact Hu'|]. split; [exact Hp|].
    intros cid Hnone. cbn [updated conceptMastery].
    rewrite MasteryFacts.merge_mastery_lookup, Hnone. reflexivity.
  - intros now evs app app' ls ls' u Hu _ Hdone.
    destruct (SessionFacts.quiz_session_saved _ _ _ _ _ _ _ Hu Hdone)
      as (sd & s & m & _ & _ & _ & Hm & Hu' & Hp).
    eexists. split; [exact Hu'|]. split; [exact Hp|].
    intros cid Hnot. cbn [updated conceptMastery].
    rewrite MasteryFacts.merge_mastery_lookup, Hm,
      (MasteryFacts.tally_untouched _ _ Hnot).
    reflexivity.
Qed.

End MasteryGrowth.

Lemma merge_keeps_other_concepts_witness :
  exists u',
    Extended.user
      (Samples.finished
         (Extended.updated Samples.now 0 {["c1" := JS.Num 0]} 1 "s1" Samples.ann)
         [Samples.about "c1"]) = Some u'
    /\ persisted "u1"
         (Samples.saved
            [Extended.updated Samples.now 0 {["c1" := JS.Num 0]} 1 "s1" Samples.ann;
             Samples.bob])
       = Some u'
    /\ forall cid,
         cid ∉ (fst <$> Extended.QuizView.session_outcomes
                          [Samples.about "c1"] Samples.one_wrong) ->
         Extended.conceptMastery u' !! cid = Extended.conceptMastery Samples.ann !! cid.
Proof.
  apply (proj2 merge_keeps_other_concepts Samples.now Samples.one_wrong
           (Samples.quiz_of Samples.ann [Samples.about "c1"]) _
           Samples.store _ Samples.ann).
  - reflexivity.
  - vm_compute. reflexivity.
  - vm_compute. reflexivity.
Defined.

Lemma completed_session_never_lowers_mastery_witness :
  exists u',
    Extended.user
      (Samples.finished
         (Extended.updated Samples.now 2 {["c1" := JS.Num 15]} 3 "s1" Samples.ann)
         Samples.three_on_c1) = Some u'
    /\ persisted "u1"
         (Samples.saved
            [Extended.updated Samples.now 2 {["c1" := JS.Num 15]} 3 "s1" Samples.ann;
             Samples.bob])
       = Some u'
    /\ forall c : ConceptsView.Concept,
         ConceptsView.id c ∉ JS.inherited ->
         exists old new,
           ConceptsView.mastery Samples.ann c = JS.Num old
           /\ ConceptsView.mastery u' c = JS.Num new
           /\ old <= new <= 100
           /\ ConceptsView.rank (ConceptsView.colour (ConceptsView.mastery Samples.ann c))
              <= ConceptsView.rank (ConceptsView.colour (ConceptsView.mastery u' c))
           /\ (ConceptsView.mastered Samples.ann c = true ->
               ConceptsView.mastered u' c = true).
Proof.
  apply (completed_session_never_lowers_mastery Samples.now Samples.right_right_wrong
           (Samples.quiz_of Samples.ann Samples.three_on_c1) _
           Samples.store _ Samples.ann).
  - reflexivity.
  - vm_compute. reflexivity.
  - apply map_Forall_insert_2; [intros z [= <-]; lia|].
    apply map_Forall_singleton. intros z [= <-]. lia.
  - vm_compute. reflexivity.
Defined.

Lemma adjustment_bounds_witness :
  exists a,
    Extended.QuizView.running {["c1" := JS.Num 15]} "c1" = JS.Num a
    /\ 10 * 2 - 5 * 1 <= a <= 10 * 2
    /\ a <= 10 * 3.
Proof.
  destruct (adjustment_bounds Samples.three_on_c1 Samples.right_right_wrong 2
              {["c1" := JS.Num 15]} "c1") as (a & Ha & _ & Hb & _ & _ & Hq).
  - intros Hin. repeat (apply elem_of_cons in Hin as [Hin|Hin]; [discriminate|]).
    inversion Hin.
  - vm_compute. reflexivity.
  - exists a. split; [exact Ha|]. split; [exact Hb | exact Hq].
Defined.

Lemma correct_answers_raise_stored_mastery_witness :
  exists u' previous,
    Extended.user
      (Samples.finished
         (Extended.updated Samples.now 2 {["c1" := JS.Num 20]} 2 "s1" Samples.ann)
         [Samples.about "c1"; Samples.about "c1"]) = Some u'
    /\ persisted "u1"
         (Samples.saved
            [Extended.updated Samples.now 2 {["c1" := JS.Num 20]} 2 "s1" Samples.ann;
             Samples.bob])
       = Some u'
    /\ Extended.reading (Extended.conceptMastery Samples.ann) "c1" = JS.Num previous
    /\ Extended.conceptMastery u' !! "c1"
       = Some (JS.Percent (Z.min 100 (previous + 10 * 2))).
Proof.
  apply (correct_answers_raise_stored_mastery Samples.now
           (Samples.round "a" (Graded Samples.right)
            ++ Samples.round "b" (Graded Samples.right))
           (Samples.quiz_of Samples.ann [Samples.about "c1"; Samples.about "c1"]) _
           Samples.store _ Samples.ann "c1").
  - reflexivity.
  - vm_compute. reflexivity.
  - intros Hin. repeat (apply elem_of_cons in Hin as [Hin|Hin]; [discriminate|]).
    inversion Hin.
  - vm_compute. reflexivity.
  - vm_compute. reflexivity.
  - vm_compute. reflexivity.
Defined.

(** * The study views *)

Module ViewFacts.

Section Cards.
Import Flashcards.
Context {C : Type}.
Variable concepts : list C.

Lemma current_on_a_card (st : State) :
  on_a_card concepts st -> is_Some (current concepts st).
Proof.
  unfold on_a_card, current. intros Hin.
  destruct (Z.ltb_spec (index st) 0); [lia|].
  apply lookup_lt_is_Some. lia.
Qed.

Lemma step_on_a_card (st : State) (ev : event) :
  on_a_card concepts st -> on_a_card concepts (step concepts st ev).
Proof.
  unfold on_a_card, step. intros Hin.
  destruct (current concepts st); [|exact Hin].
  destruct ev; simpl; [exact Hin| |].
  - destruct (Z.eqb_spec (index st) 0); simpl; lia.
  - destruct (Z.eqb_spec (index st) (Z.of_nat (length concepts) - 1)); simpl; lia.
Qed.

Lemma fold_on_a_card (evs : list event) :
  forall st,
    on_a_card concepts st -> on_a_card concepts (fold_left (step concepts) evs st).
Proof.
  induction evs as [|ev evs IH]; intros st Hin; [exact Hin|].
  apply IH, step_on_a_card, Hin.
Qed.

End Cards.

Lemma omap_length_le {A B : Type} (f : A -> option B) (l : list A) :
  (length (omap f l) <= length l)%nat.
Proof.
  induction l as [|x l IH]; [reflexivity|].
  cbn [omap list_omap]. destruct (f x); simpl; lia.
Qed.

Section Chat.
Import TutorChat.
Variable concepts : list ConceptsView.Concept.

Lemma askTutoring_nonempty (response_text : option string) :
  askTutoring response_text <> EmptyString.
Proof.
  unfold askTutoring, item_or. destruct response_text as [s|]; [|discriminate].
  destruct (String.eqb_spec s EmptyString); [discriminate | assumption].
Qed.

Lemma snoc_transcript (st : State) (m : Message) :
  transcript_ok st ->
  role m = (if loading st then ai else asker) ->
  match role m with
  | asker => blank (text m) = false
  | ai => text m <> EmptyString
  end ->
  (forall i m', (messages st ++ [m]) !! i = Some m' ->
     role m' = if Nat.even i then asker else ai)
  /\ negb (loading st) = Nat.odd (length (messages st ++ [m]))
  /\ (forall m', m' ∈ messages st ++ [m] ->
        match role m' with
        | asker => blank (text m') = false
        | ai => text m' <> EmptyString
        end).
Proof.
  intros (Halt & Hload & Htext) Hrole Hm. split; [|split].
  - intros i m' Hi. apply lookup_app_Some in Hi as [Hi | [Hge Hi]]; [apply Halt, Hi|].
    destruct (i - length (messages st))%nat as [|k] eqn:Hk; [|destruct k; discriminate].
    injection Hi as <-. assert (i = length (messages st)) by lia. subst i.
    rewrite Hrole, Hload, <- Nat.negb_even. destruct (Nat.even _); reflexivity.
  - rewrite length_app, Nat.add_1_r, Nat.odd_succ, Hload, <- Nat.negb_even.
    destruct (Nat.even _); reflexivity.
  - intros m' Hin. apply elem_of_app in Hin as [Hin|Hin]; [apply Htext, Hin|].
    apply list_elem_of_singleton in Hin. subst m'. exact Hm.
Qed.

Lemma step_transcript (st : State) (ev : event) :
  transcript_ok st -> transcript_ok (step concepts st ev).
Proof.
  intros Hok. destruct ev as [cid | value | | r]; cbn [step].
  - exact Hok.
  - exact Hok.
  - unfold handleAsk. destruct (blank (input st)) eqn:Hb; [exact Hok|].
    destruct (loading st) eqn:Hl; [exact Hok|]. cbn [orb].
    destruct (selectedConcept concepts st); [|exact Hok].
    destruct (snoc_transcript st {| role := asker; text := input st |} Hok)
      as (H1 & H2 & H3); [rewrite Hl; reflexivity | exact Hb |].
    rewrite Hl in H2. split; [exact H1|]. split; [exact H2 | exact H3].
  - unfold settle. destruct (loading st) eqn:Hl; [|exact Hok].
    destruct (snoc_transcript st
                {| role := ai;
                   text := match r with
                           | Responded response_text => askTutoring response_text
                           | Rejected => offline
                           end |} Hok)
      as (H1 & H2 & H3).
    + rewrite Hl. reflexivity.
    + cbn [role text]. destruct r; [apply askTutoring_nonempty | discriminate].
    + rewrite Hl in H2. split; [exact H1|]. split; [exact H2 | exact H3].
Qed.

Lemma step_prefix (st : State) (ev : event) :
  messages st `prefix_of` messages (step concepts st ev).
Proof.
  destruct ev as [cid | value | | r]; cbn [step]; try reflexivity.
  - unfold handleAsk. destruct (blank (input st) || loading st); [reflexivity|].
    destruct (selectedConcept concepts st); [|reflexivity].
    apply prefix_app_r. reflexivity.
  - unfold settle. destruct (loading st); [|reflexivity].
    apply prefix_app_r. reflexivity.
Qed.

Lemma fold_transcript (evs : list event) :
  forall st,
    transcript_ok st ->
    transcript_ok (fold_left (step concepts) evs st)
    /\ messages st `prefix_of` messages (fold_left (step concepts) evs st).
Proof.
  induction evs as [|ev evs IH]; intros st Hok; [split; [exact Hok | reflexivity]|].
  cbn [fold_left]. destruct (IH _ (step_transcript st ev Hok)) as [Hok' Hpre].
  split; [exact Hok'|]. etransitivity; [apply step_prefix | exact Hpre].
Qed.

Lemma initial_transcript : transcript_ok (initial concepts).
Proof.
  split; [|split].
  - intros i m Hi. destruct i; discriminate Hi.
  - reflexivity.
  - intros m Hin. apply elem_of_nil in Hin. contradiction.
Qed.

End Chat.

End ViewFacts.

(** X18. With at least one concept, the flashcards view is always on a card
    of the deck, whatever is clicked: the index stays between 0 and the
    last position and there is a current card; a click that changes the
    card moves one step and shows the front; and away from the last card,
    going forward and back returns to the same card. *)
Theorem flashcards_stay_on_a_card {C : Type} (concepts : list C)
    (evs : list Flashcards.event) :
  concepts <> [] ->
  let st := Flashcards.run concepts evs in
  0 <= Flashcards.index st < Z.of_nat (length concepts)
  /\ is_Some (Flashcards.current concepts st)
  /\ (forall ev,
        Flashcards.index (Flashcards.step concepts st ev) <> Flashcards.index st ->
        Flashcards.flipped (Flashcards.step concepts st ev) = false
        /\ (Flashcards.index (Flashcards.step concepts st ev) = Flashcards.index st + 1
            \/ Flashcards.index (Flashcards.step concepts st ev)
               = Flashcards.index st - 1))
  /\ (Flashcards.index st < Z.of_nat (length concepts) - 1 ->
      Flashcards.index
        (Flashcards.step concepts
           (Flashcards.step concepts st Flashcards.Forward) Flashcards.Previous)
      = Flashcards.index st).
Proof.
  intros Hne st.
  assert (Hin : Flashcards.on_a_card concepts st).
  { apply ViewFacts.fold_on_a_card. unfold Flashcards.on_a_card. simpl.
    destruct concepts; [contradiction | simpl; lia]. }
  split; [exact Hin|]. split; [apply ViewFacts.current_on_a_card, Hin|].
  unfold Flashcards.on_a_card in Hin. split.
  - intros ev. unfold Flashcards.step.
    destruct (Flashcards.current concepts st); [|congruence].
    destruct ev; simpl; [congruence| |].
    + destruct (Z.eqb_spec (Flashcards.index st) 0); simpl; [congruence|].
      intros _. split; [reflexivity | right; lia].
    + destruct (Z.eqb_spec (Flashcards.index st) (Z.of_nat (length concepts) - 1));
        simpl; [congruence|].
      intros _. split; [reflexivity | left; lia].
  - intros Hlast.
    pose proof (ViewFacts.current_on_a_card concepts st Hin) as [c Hc].
    assert (Hstep : Flashcards.step concepts st Flashcards.Forward
                    = Flashcards.forward concepts st).
    { unfold Flashcards.step. rewrite Hc.
      destruct (Z.eqb_spec (Flashcards.index st) (Z.of_nat (length concepts) - 1));
        [lia | reflexivity]. }
    rewrite Hstep.
    assert (Hin' : Flashcards.on_a_card concepts (Flashcards.forward concepts st))
      by (unfold Flashcards.on_a_card; simpl; lia).
    destruct (ViewFacts.current_on_a_card concepts _ Hin') as [c' Hc'].
    unfold Flashcards.step. rewrite Hc'. simpl.
    destruct (Z.eqb_spec (Z.min (Z.of_nat (length concepts) - 1) (Flashcards.index st + 1)) 0);
      simpl; lia.
Qed.

Lemma flashcards_stay_on_a_card_witness :
  0 <= Flashcards.index
         (Flashcards.run SampleSheet.concepts
            [Flashcards.Forward; Flashcards.Flip; Flashcards.Forward; Flashcards.Forward])
    < Z.of_nat (length SampleSheet.concepts).
Proof.
  apply (flashcards_stay_on_a_card SampleSheet.concepts
           [Flashcards.Forward; Flashcards.Flip; Flashcards.Forward; Flashcards.Forward]).
  discriminate.
Defined.

Section Links.
Import ConceptsView.

(** X19. The links shown under a concept lead to concepts of the sheet:
    there are no more links than related ids, each link carries a related
    id together with the term of the first concept of the sheet with that
    id, following it switches to the concepts tab with that concept
    expanded and every concept of another id collapsed; a related id
    without concept gives no link, and every related id with a concept
    gives one. *)
Theorem related_links_lead_to_concepts (concepts : list Concept) (c : Concept) :
  (length (related_links concepts c) <= length (relatedConceptIds c))%nat
  /\ (forall rid label,
        (rid, label) ∈ related_links concepts c ->
        rid ∈ relatedConceptIds c
        /\ exists target before after,
             find_first (fun x => String.eqb (id x) rid) concepts = Some target
             /\ concepts = before ++ target :: after
             /\ Forall (fun x => id x <> rid) before
             /\ target ∈ concepts /\ id target = rid /\ term target = label
             /\ forall w,
                  tab (scrollToConcept rid w) = concepts_tab
                  /\ isExpanded (scrollToConcept rid w) target = true
                  /\ forall other,
                       id other <> rid ->
                       isExpanded (scrollToConcept rid w) other = false)
  /\ (forall rid label,
        rid ∉ id <$> concepts -> (rid, label) ∉ related_links concepts c)
  /\ (forall rid,
        rid ∈ relatedConceptIds c -> rid ∈ id <$> concepts ->
        exists label, (rid, label) ∈ related_links concepts c).
Proof.
  assert (Hlink : forall rid label,
            (rid, label) ∈ related_links concepts c ->
            rid ∈ relatedConceptIds c
            /\ exists target,
                 find_first (fun x => String.eqb (id x) rid) concepts = Some target
                 /\ term target = label).
  { intros rid label Hin. unfold related_links in Hin.
    apply list_elem_of_omap in Hin as (r & Hr & Hf).
    destruct (find_first (fun x => String.eqb (id x) r) concepts) as [target|] eqn:E;
      [|discriminate].
    injection Hf as -> <-. split; [exact Hr|]. exists target. split; [exact E | reflexivity]. }
  split; [apply ViewFacts.omap_length_le|]. split; [|split].
  - intros rid label Hin. destruct (Hlink _ _ Hin) as (Hr & target & Hfind & Hterm).
    split; [exact Hr|].
    destruct (AuthFacts.find_first_split id rid concepts target Hfind)
      as (before & after & Hsplit & Hbefore).
    exists target, before, after.
    destruct (AuthFacts.find_first_some id rid concepts target Hfind) as [Hid Hmem].
    split; [exact Hfind|]. split; [exact Hsplit|]. split; [exact Hbefore|].
    split; [exact Hmem|]. split; [exact Hid|]. split; [exact Hterm|].
    intros w. split; [reflexivity|]. unfold isExpanded, scrollToConcept. simpl. split.
    + rewrite Hid. apply String.eqb_refl.
    + intros other Hne. apply String.eqb_neq. congruence.
  - intros rid label Hnot Hin. destruct (Hlink _ _ Hin) as (_ & target & Hfind & _).
    apply (AuthFacts.find_first_none id rid concepts) in Hnot. congruence.
  - intros rid Hr Hin.
    destruct (find_first (fun x => String.eqb (id x) rid) concepts) as [target|] eqn:E.
    + exists (term target). unfold related_links. apply list_elem_of_omap.
      exists rid. split; [exact Hr|]. rewrite E. reflexivity.
    + apply (AuthFacts.find_first_none id rid concepts) in E. contradiction.
Qed.

End Links.

Lemma related_links_lead_to_concepts_witness :
  "c2" ∈ ConceptsView.relatedConceptIds SampleSheet.heat
  /\ exists target before after,
       find_first (fun x => String.eqb (ConceptsView.id x) "c2") SampleSheet.concepts
       = Some target
       /\ SampleSheet.concepts = before ++ target :: after
       /\ Forall (fun x => ConceptsView.id x <> "c2") before
       /\ target ∈ SampleSheet.concepts
       /\ ConceptsView.id target = "c2" /\ ConceptsView.term target = "Work"
       /\ forall w,
            ConceptsView.tab (ConceptsView.scrollToConcept "c2" w)
            = ConceptsView.concepts_tab
            /\ ConceptsView.isExpanded (ConceptsView.scrollToConcept "c2" w) target = true
            /\ forall other,
                 ConceptsView.id other <> "c2" ->
                 ConceptsView.isExpanded (ConceptsView.scrollToConcept "c2" w) other
                 = false.
Proof.
  apply (proj1 (proj2 (related_links_lead_to_concepts SampleSheet.concepts
                         SampleSheet.heat)) "c2" "Work").
  left.
Defined.

(** X20. The tutor chat's transcript only grows and alternates between
    question and answer, starting with a question; a call is pending
    exactly when the last message is a question, so a question asked while
    one is pending is dropped; no question is blank and no answer is empty,
    also when the service returns no text or cannot be reached. *)
Theorem tutor_chat_alternates (concepts : list ConceptsView.Concept)
    (evs : list TutorChat.event) :
  let st := TutorChat.run concepts evs in
  (forall i m,
     TutorChat.messages st !! i = Some m ->
     TutorChat.role m = if Nat.even i then TutorChat.asker else TutorChat.ai)
  /\ TutorChat.loading st = Nat.odd (length (TutorChat.messages st))
  /\ (forall m,
        m ∈ TutorChat.messages st ->
        match TutorChat.role m with
        | TutorChat.asker => blank (TutorChat.text m) = false
        | TutorChat.ai => TutorChat.text m <> EmptyString
        end)
  /\ (forall more,
        TutorChat.messages st
        `prefix_of` TutorChat.messages (TutorChat.run concepts (evs ++ more)))
  /\ (TutorChat.loading st = true ->
      TutorChat.step concepts st TutorChat.Ask = st).
Proof.
  intros st.
  destruct (ViewFacts.fold_transcript concepts evs _ (ViewFacts.initial_transcript concepts))
    as [(Halt & Hload & Htext) _].
  split; [exact Halt|]. split; [exact Hload|]. split; [exact Htext|]. split.
  - intros more. unfold TutorChat.run. rewrite fold_left_app.
    apply ViewFacts.fold_transcript.
    apply (ViewFacts.fold_transcript concepts evs _ (ViewFacts.initial_transcript concepts)).
  - intros Hl. cbn [TutorChat.step]. unfold TutorChat.handleAsk.
    rewrite Hl, orb_true_r. reflexivity.
Qed.

Lemma tutor_chat_alternates_witness :
  TutorChat.messages (TutorChat.run SampleSheet.concepts SampleSheet.chat)
  = [TutorChat.Build_Message TutorChat.asker "Why?";
     TutorChat.Build_Message TutorChat.ai "Because.";
     TutorChat.Build_Message TutorChat.asker "And?";
     TutorChat.Build_Message TutorChat.ai TutorChat.offline]
  /\ TutorChat.loading (TutorChat.run SampleSheet.concepts SampleSheet.chat)
     = Nat.odd (length (TutorChat.messages
                          (TutorChat.run SampleSheet.concepts SampleSheet.chat))).
Proof.
  split; [reflexivity|].
  apply (tutor_chat_alternates SampleSheet.concepts SampleSheet.chat).
Defined.

Section FirstQuiz.
Import Extended.

(** X21. From signing up to the first stored result: a new name signs in,
    a sheet is extracted from an upload, a quiz or exam is generated and
    completed.  Then the application is on the dashboard, and the user list
    holds for the new id a record with that name, one history entry with
    the session's score, the number of generated questions and the sheet's
    id, and the session's adjustments as mastery; the current-user item
    still holds the record as created at sign-up. *)
Theorem first_quiz_is_stored (fresh name now : string) (data : StudyData)
    (qs : list QuizQuestion) (exam : bool) (evs : list event)
    (s : Z) (m : gmap string JS.value) (ls : localStorage) (users : list User) :
  blank name = false ->
  DB.getUsers ls = Returns users ->
  name ∉ username <$> users ->
  QuizView.session qs evs = Some (s, m) ->
  let created := Build_User fresh name Samples.general [] [] [] ∅ in
  exists app1 ls1 app4 ls4 u',
    handleAuth fresh name {| mode := Auth; user := None; studyData := None;
                             questions := [] |} ls
    = (app1, Returns ls1)
    /\ quiz_session now evs
         (ExtendedApp.startQuiz exam (Some qs)
            (ExtendedApp.handleUpload (Some data) app1)) ls1
       = Some (app4, Returns ls4)
    /\ mode app4 = Dashboard
    /\ user app4 = Some u'
    /\ persisted fresh ls4 = Some u'
    /\ username u' = name
    /\ quizHistory u'
       = [{| date := now; score := s; total := Z.of_nat (length qs);
             sheetId := sd_id data |}]
    /\ conceptMastery u' = merge_mastery m ∅
    /\ DB.getCurrentUser ls4 = Returns (Some created).
Proof.
  intros Hb Hread Hnew Hs created.
  apply (AuthFacts.find_first_none username name users) in Hnew.
  pose proof (AuthFacts.handleAuth_extended_new fresh name
                {| mode := Auth; user := None; studyData := None; questions := [] |}
                ls users Hb Hread Hnew) as Hauth.
  cbv zeta in Hauth. fold created in Hauth.
  set (ls1 := DB.setCurrentUser (Some created)
                (setItem "mp_users"
                   (JSON.stringify (JArr (encode <$> upsert created users))) ls)) in *.
  assert (Hread1 : DB.getUsers ls1 = Returns (upsert created users)).
  { unfold ls1. rewrite StoreFacts.current_frame. apply DBFacts.getUsers_written. }
  set (u' := updated now s m (length qs) (sd_id data) created).
  destruct (DBFacts.saveUser_returns u' ls1 _ Hread1) as [ls4 Hsave].
  eexists _, ls1, _, ls4, u'. split; [exact Hauth|].
  cbn [ExtendedApp.handleUpload ExtendedApp.startQuiz user studyData questions mode].
  split.
  - unfold quiz_session, quiz_mounted. cbn [mode user studyData questions].
    rewrite Hs. unfold onComplete. cbn [user studyData questions].
    fold u'. rewrite Hsave. destruct exam; reflexivity.
  - split; [reflexivity|]. split; [reflexivity|].
    split; [apply (DBFacts.persisted_saved _ _ _ Hsave)|].
    split; [reflexivity|]. split; [reflexivity|]. split; [reflexivity|].
    rewrite (ReloadFacts.getCurrentUser_item ls1 ls4).
    + unfold ls1. apply StoreFacts.extended_current.
    + apply (ReloadFacts.saveUser_item _ _ _ _ Hsave). discriminate.
Qed.

End FirstQuiz.

Lemma first_quiz_is_stored_witness :
  exists ls4 u',
    persisted "u3" ls4 = Some u'
    /\ Extended.username u' = "cyd"
    /\ Extended.quizHistory u'
       = [Extended.Build_QuizRecord Samples.now 2 3 "s1"]
    /\ Extended.conceptMastery u' = Extended.merge_mastery {["c1" := JS.Num 15]} ∅.
Proof.
  destruct (first_quiz_is_stored "u3" "cyd" Samples.now Samples.sheet
              Samples.three_on_c1 false Samples.right_right_wrong 2 {["c1" := JS.Num 15]}
              Samples.store [Samples.ann; Samples.bob])
    as (app1 & ls1 & app4 & ls4 & u' & _ & _ & _ & _ & Hp & Hn & Hh & Hm & _).
  - reflexivity.
  - vm_compute. reflexivity.
  - intros Hin. cbn in Hin.
    apply elem_of_cons in Hin as [Hin|Hin]; [discriminate Hin|].
    apply list_elem_of_singleton in Hin. discriminate Hin.
  - vm_compute. reflexivity.
  - exists ls4, u'. repeat split; assumption.
Defined.

(** * The exam clock *)

Module ClockFacts.
Import Clock.

Lemma print_nonneg (z : Z) :
  0 <= z -> JSON.print_Z z = JSON.chars_of_uint (N.to_uint (Z.to_N z)).
Proof.
  intros Hz. unfold JSON.print_Z. destruct (Z.ltb_spec z 0); [lia|].
  rewrite Zabs2N.abs_N_nonneg by assumption. reflexivity.
Qed.

(** The digits before the colon read back as the minutes. *)
Lemma minutes_read_back (m : Z) (rest : JSON.chars) :
  0 <= m ->
  JSON.scan_digits (JSON.print_Z m ++ ":"%char :: rest)
  = (N.to_uint (Z.to_N m), ":"%char :: rest).
Proof.
  intros Hm. rewrite print_nonneg by assumption.
  apply JSONFacts.scan_chars_of_uint. reflexivity.
Qed.

(** The digits after the colon read back as the seconds. *)
Lemma seconds_read_back (s : Z) :
  0 <= s -> N.of_uint (fst (JSON.scan_digits (seconds_text s))) = Z.to_N s.
Proof.
  intros Hs. unfold seconds_text. rewrite print_nonneg by assumption.
  pose proof (JSONFacts.scan_chars_of_uint (N.to_uint (Z.to_N s)) [] eq_refl) as Hscan.
  rewrite app_nil_r in Hscan.
  destruct (s <? 10); cbn [app JSON.scan_digits JSON.digit_of_char]; rewrite Hscan;
    cbn [fst]; [change (N.of_uint (Decimal.D0 (N.to_uint (Z.to_N s))))
                  with (N.of_uint (N.to_uint (Z.to_N s)))|];
    apply DecimalN.Unsigned.of_to.
Qed.

Lemma seconds_two_digits (n : nat) :
  (n < 60)%nat -> length (seconds_text (Z.of_nat n)) = 2%nat.
Proof.
  intros Hn. do 60 (destruct n as [|n]; [vm_compute; reflexivity|]). lia.
Qed.

Section Countdown.
Import Basic Basic.QuizView.
Variable questions : list QuizQuestion.
Variable isExam : bool.

Lemma step_time (ev : event) (st st' : State) (done : option Z) :
  step questions isExam ev st = (st', done) ->
  0 <= timeLeft st -> 0 <= timeLeft st' <= timeLeft st.
Proof.
  unfold step, handleSubmit, handleNext, tick.
  destruct (currentQ questions st); [|intros [= <- <-]; lia].
  destruct ev as [text | g | | ].
  - destruct (feedback st); intros [= <- <-]; simpl; lia.
  - destruct (can_submit questions st); [|intros [= <- <-]; lia].
    destruct (blank (userAnswer st)); [intros [= <- <-]; lia|].
    destruct g; intros [= <- <-]; simpl; lia.
  - destruct (feedback st); [|intros [= <- <-]; lia].
    destruct (Z.of_nat (currentIdx st) <? Z.of_nat (length questions) - 1);
      intros [= <- <-]; simpl; lia.
  - destruct (isExam && (0 <? timeLeft st)); [|intros [= <- <-]; lia].
    destruct (Z.leb_spec (timeLeft st) 1); intros [= <- <-]; simpl; lia.
Qed.

Lemma run_time (evs : list event) :
  forall st : State,
    0 <= timeLeft st ->
    0 <= timeLeft (fst (run questions isExam evs st)) <= timeLeft st.
Proof.
  induction evs as [|ev evs IH]; intros st Hst; cbn [run]; [simpl; lia|].
  destruct (step questions isExam ev st) as [st1 [d1|]] eqn:Hstep;
    pose proof (step_time _ _ _ _ Hstep Hst) as H1; [simpl; lia|].
  specialize (IH st1 (proj1 H1)). lia.
Qed.

End Countdown.

End ClockFacts.

(** X22. The exam clock is unambiguous: for a time that is not negative the
    text is the minutes, a colon and exactly two characters for the
    seconds, and two such times with the same text are equal.  The time
    left during a run is never negative and never above the 45 seconds per
    question it starts from, so the clock always shows such a time. *)
Theorem clock_shows_the_time_left :
  (forall seconds,
     0 <= seconds ->
     exists tail,
       Clock.formatTime seconds
       = string_of_list_ascii (JSON.print_Z (seconds / 60) ++ ":"%char :: tail)
       /\ length tail = 2%nat)
  /\ (forall a b,
        0 <= a -> 0 <= b -> Clock.formatTime a = Clock.formatTime b -> a = b)
  /\ (forall questions isExam evs,
        0 <= Basic.QuizView.timeLeft
               (fst (Basic.QuizView.run questions isExam evs
                       (Basic.QuizView.initial questions isExam)))
          <= 45 * Z.of_nat (length questions)).
Proof.
  split; [|split].
  - intros seconds Hs. exists (Clock.seconds_text (Z.rem seconds 60)).
    split; [reflexivity|].
    rewrite Z.rem_mod_nonneg by lia.
    pose proof (Z.mod_pos_bound seconds 60 ltac:(lia)) as Hb.
    rewrite <- (Z2Nat.id (seconds mod 60)) by lia.
    apply ClockFacts.seconds_two_digits. lia.
  - intros a b Ha Hb Heq. unfold Clock.formatTime in Heq. cbv zeta in Heq.
    apply (f_equal list_ascii_of_string) in Heq.
    rewrite !list_ascii_of_string_of_list_ascii in Heq.
    rewrite !Z.rem_mod_nonneg in Heq by lia.
    pose proof (Z.mod_pos_bound a 60 ltac:(lia)) as Hma.
    pose proof (Z.mod_pos_bound b 60 ltac:(lia)) as Hmb.
    pose proof (Z.div_pos a 60 Ha ltac:(lia)) as Hda.
    pose proof (Z.div_pos b 60 Hb ltac:(lia)) as Hdb.
    pose proof (f_equal JSON.scan_digits Heq) as Hscan.
    rewrite !ClockFacts.minutes_read_back in Hscan by assumption.
    injection Hscan as Hmin Hsec.
    apply (f_equal N.of_uint) in Hmin. rewrite !DecimalN.Unsigned.of_to in Hmin.
    apply (f_equal (fun cs => N.of_uint (fst (JSON.scan_digits cs)))) in Hsec.
    rewrite !ClockFacts.seconds_read_back in Hsec by lia.
    rewrite (Z.div_mod a 60), (Z.div_mod b 60) by lia. lia.
  - intros questions isExam evs.
    pose proof (ClockFacts.run_time questions isExam evs
                  (Basic.QuizView.initial questions isExam)) as Hrun.
    destruct isExam; simpl in Hrun; lia.
Qed.

Lemma clock_shows_the_time_left_witness :
  exists tail,
    Clock.formatTime 65
    = string_of_list_ascii (JSON.print_Z (65 / 60) ++ ":"%char :: tail)
    /\ length tail = 2%nat.
Proof. apply (proj1 clock_shows_the_time_left 65). lia. Defined.

(** X23. A user list that is not JSON, that is, a text [JSON.parse] finds
    malformed, blocks every handler that saves a
    user: signing in, completing a quiz and updating the profile throw the
    parser's [SyntaxError] and write nothing, in both generations; the
    application stays where it was, except that the user it holds already
    carries the record of the quiz.  Signing out, which does not read the
    list, still goes through. *)
Theorem corrupted_user_list_blocks_saving (ls : localStorage) (text : string) :
  getItem "mp_users" ls = Some text ->
  text <> EmptyString ->
  JSON.parse text = Malformed ->
  (forall fresh name app,
     blank name = false ->
     Extended.handleAuth fresh name app ls = (app, Throws SyntaxError))
  /\ (forall now s m app u sd,
        Extended.user app = Some u ->
        Extended.studyData app = Some sd ->
        Extended.onComplete now s m app ls
        = ({| Extended.mode := Extended.mode app;
              Extended.user :=
                Some (Extended.updated now s m (length (Extended.questions app))
                        (Extended.sd_id sd) u);
              Extended.studyData := Extended.studyData app;
              Extended.questions := Extended.questions app |},
           Throws SyntaxError))
  /\ (forall edits app u,
        Extended.mode app = Extended.Profile ->
        Extended.user app = Some u ->
        ProfileView.update edits app ls = (app, Throws SyntaxError))
  /\ (forall fresh name app,
        name <> EmptyString ->
        Basic.handleAuth fresh name app ls = (app, Throws SyntaxError))
  /\ (forall now s app u,
        Basic.user app = Some u ->
        Basic.finishQuiz now s app ls
        = ({| Basic.mode := Basic.mode app;
              Basic.user :=
                Some (Basic.updated now s (length (Basic.questions app)) u);
              Basic.questions := Basic.questions app;
              Basic.finalScore := Basic.finalScore app |},
           Throws SyntaxError))
  /\ (forall app,
        DB.getCurrentUser (U := Extended.User) (snd (Extended.logout app ls))
        = Returns None).
Proof.
  intros Hitem Hne Hparse.
  assert (Hread : forall (U : Type) (H : Stored U),
            DB.getUsers (U := U) ls = Throws SyntaxError).
  { intros U H. unfold DB.getUsers, DB.read. rewrite Hitem. unfold item_or.
    apply String.eqb_neq in Hne. rewrite Hne, Hparse. reflexivity. }
  assert (Hsave : forall (U : Type) (H : Stored U) (u : U),
            DB.saveUser u ls = Throws SyntaxError).
  { intros U H u. unfold DB.saveUser. rewrite Hread. reflexivity. }
  repeat apply conj.
  - intros fresh name app Hb. unfold Extended.handleAuth.
    rewrite Hb, Hread. reflexivity.
  - intros now s m app u sd Hu Hsd. unfold Extended.onComplete.
    rewrite Hu, Hsd, Hsave. reflexivity.
  - intros edits app u Hmode Hu. unfold ProfileView.update, ExtendedApp.onSave.
    rewrite Hmode, Hu, Hsave. reflexivity.
  - intros fresh name app Hn. unfold Basic.handleAuth.
    apply String.eqb_neq in Hn. rewrite Hn, Hread. reflexivity.
  - intros now s app u Hu. unfold Basic.finishQuiz. rewrite Hu, Hsave. reflexivity.
  - intros app. apply DBFacts.getCurrentUser_cleared.
Qed.

Lemma corrupted_user_list_blocks_saving_witness :
  Extended.handleAuth "u3" "cyd" (Samples.quiz_of Samples.bob []) Samples.corrupted
  = (Samples.quiz_of Samples.bob [], Throws SyntaxError).
Proof.
  assert (Hbad : JSON.parse "{oops" = Malformed) by (vm_compute; reflexivity).
  apply (proj1 (corrupted_user_list_blocks_saving Samples.corrupted "{oops"
                  eq_refl ltac:(discriminate) Hbad)).
  reflexivity.
Defined.
